(** * bot_minting: the mint orchestrator, gas pricing and the key store

    A shallow embedding of [src/nft_minting.py], [src/wallet_manager.py]
    and the settings, wallet files and transaction log of
    [src/config.py].

    - A Python exception is the [Raise] outcome of [result], and
      [try]/[except] is a match on that outcome. Every exception here is
      an [Exception]; an operator interrupt is not modelled.
    - The chain, the contract and the signing library are external
      collaborators: what they answer during one attempt is a record of
      outcomes ([rpc]), and the mint loop is given one record per
      iteration.
    - What an attempt does to the outside (contract queries, call
      encodings, submissions, receipt polls, sleeps) is logged as a list
      of [event]s next to the value it computes.
    - A wallet file is the dictionary [json.load] gives, and the wallets
      directory is a map from wallet names to such dictionaries; two names
      are taken to name two files.
    - A [float] that is only read and passed on (a price, a delay) is
      kept as the decimal it was written as. A [float] that is computed
      with (the gas buffer, the statistics of a wallet) is an IEEE 754
      binary64 number, with the operations of the Standard Library's
      specification of floating-point arithmetic. *)

From Stdlib Require Import ZArith QArith Qround Qminmax List Lia Bool Ascii String.
From Stdlib Require Import SpecFloat.
From stdpp Require Import base strings gmap.
Import ListNotations.

Local Open Scope Z_scope.

(** ** Python outcomes *)

Inductive exn : Type :=
| TypeError
| ValueError
| KeyError
| ZeroDivisionError
| TransactionNotFound
| InvalidToken
| RPCError
| OverflowError
| MismatchedABI.

Inductive result (A : Type) : Type :=
| Ok (a : A)
| Raise (e : exn).

Arguments Ok {A} a.
Arguments Raise {A} e.

#[export] Instance result_ret : MRet result := fun A a => Ok a.

#[export] Instance result_bind : MBind result := fun A B k m =>
  match m with
  | Ok a => k a
  | Raise e => Raise e
  end.

(** ** Python numbers

    The three kinds of number the gas code handles: [int], [float] and
    [decimal.Decimal]. An [int] is unbounded. The value of a [Decimal] is
    kept as an exact rational; web3 computes with 999 digits of precision,
    which is exact for every wei amount (at most 78 digits) divided or
    multiplied by a power of ten. The value of a [float] is kept as a
    rational too: binary rounding is not modelled. *)

Inductive pynum : Type :=
| PyInt (z : Z)
| PyFloat (q : Q)
| PyDecimal (q : Q).

Definition num_value (n : pynum) : Q :=
  match n with
  | PyInt z => inject_Z z
  | PyFloat q => q
  | PyDecimal q => q
  end.

(** [a * b]. [Decimal.__mul__] accepts an [int] or a [Decimal] and returns
    [NotImplemented] for a [float], and [float.__rmul__] does not know
    [Decimal]: the product of a [Decimal] and a [float] raises [TypeError]. *)
Definition py_mul (a b : pynum) : result pynum :=
  match a, b with
  | PyInt x, PyInt y => Ok (PyInt (x * y))
  | PyInt x, PyFloat q => Ok (PyFloat (Qred (inject_Z x * q)))
  | PyFloat q, PyInt y => Ok (PyFloat (Qred (q * inject_Z y)))
  | PyFloat p, PyFloat q => Ok (PyFloat (Qred (p * q)))
  | PyInt x, PyDecimal q => Ok (PyDecimal (Qred (inject_Z x * q)))
  | PyDecimal q, PyInt y => Ok (PyDecimal (Qred (q * inject_Z y)))
  | PyDecimal p, PyDecimal q => Ok (PyDecimal (Qred (p * q)))
  | PyDecimal _, PyFloat _ => Raise TypeError
  | PyFloat _, PyDecimal _ => Raise TypeError
  end.

(** [a + b], with the same typing as the product. *)
Definition py_add (a b : pynum) : result pynum :=
  match a, b with
  | PyInt x, PyInt y => Ok (PyInt (x + y))
  | PyInt x, PyFloat q => Ok (PyFloat (Qred (inject_Z x + q)))
  | PyFloat q, PyInt y => Ok (PyFloat (Qred (q + inject_Z y)))
  | PyFloat p, PyFloat q => Ok (PyFloat (Qred (p + q)))
  | PyInt x, PyDecimal q => Ok (PyDecimal (Qred (inject_Z x + q)))
  | PyDecimal q, PyInt y => Ok (PyDecimal (Qred (q + inject_Z y)))
  | PyDecimal p, PyDecimal q => Ok (PyDecimal (Qred (p + q)))
  | PyDecimal _, PyFloat _ => Raise TypeError
  | PyFloat _, PyDecimal _ => Raise TypeError
  end.

(** [a < b]: comparisons are by value across the three kinds. *)
Definition py_lt (a b : pynum) : bool :=
  negb (Qle_bool (num_value b) (num_value a)).

(** [min(a, b)]: the first argument unless the second is smaller. *)
Definition py_min (a b : pynum) : pynum :=
  if py_lt b a then b else a.

(** ** Python floats in arithmetic

    Where the code computes with a [float] the number is a binary64
    float ([spec_float] at precision 53 and maximal exponent 1024), and
    each operation rounds to the nearest float, ties to even. *)

(** An [int] as an unrounded operand. *)
Definition int_operand (z : Z) : spec_float :=
  match z with
  | Z0 => S754_zero false
  | Zpos m => S754_finite false m 0
  | Zneg m => S754_finite true m 0
  end.

(** The float a decimal literal denotes: the nearest one. *)
Definition float_literal (q : Q) : spec_float :=
  SFdiv 53 1024 (int_operand (Qnum q)) (int_operand (Zpos (Qden q))).

(** An [int] as the other operand of a [float]: the nearest float, or
    [OverflowError] when the [int] is too large. *)
Definition float_of_int (z : Z) : result spec_float :=
  match binary_normalize 53 1024 z 0 false with
  | S754_infinity _ => Raise OverflowError
  | f => Ok f
  end.

(** [int(x)]: the float cut off toward zero; an infinity or a NaN is no
    [int]. *)
Definition int_of_float (f : spec_float) : result Z :=
  match f with
  | S754_zero _ => Ok 0
  | S754_finite s m e =>
      let magnitude :=
        match e with
        | Z0 => Zpos m
        | Zpos _ => Zpos m * 2 ^ e
        | Zneg p => Zpos m / 2 ^ Zpos p
        end in
      Ok (if s then - magnitude else magnitude)
  | S754_infinity _ => Raise OverflowError
  | S754_nan => Raise ValueError
  end.

(** ** Unit conversion ([eth_utils.currency], reached as [w3.from_wei] and
    [w3.to_wei]) *)

Definition gwei : Z := 10 ^ 9.
Definition ether : Z := 10 ^ 18.
Definition MIN_WEI : Z := 0.
Definition MAX_WEI : Z := 2 ^ 256 - 1.

(** [from_wei(number, unit)]: the [int] 0 for 0, [ValueError] outside
    [MIN_WEI, MAX_WEI], and otherwise the [Decimal] [number / unit]. *)
Definition from_wei (number : Z) (unit_value : Z) : result pynum :=
  if number =? 0 then Ok (PyInt 0)
  else if (number <? MIN_WEI) || (MAX_WEI <? number) then Raise ValueError
  else Ok (PyDecimal (Qred (Qmake number (Z.to_pos unit_value)))).

(** [to_wei(number, unit)]: 0 for 0, otherwise [int(number * unit)], with
    [ValueError] when the product is outside [MIN_WEI, MAX_WEI]. *)
Definition to_wei (number : pynum) (unit_value : Z) : result Z :=
  let d_number := num_value number in
  if Qeq_bool d_number 0 then Ok 0
  else
    let result_value := (d_number * inject_Z unit_value)%Q in
    if negb (Qle_bool (inject_Z MIN_WEI) result_value)
       || negb (Qle_bool result_value (inject_Z MAX_WEI))
    then Raise ValueError
    else Ok (Qfloor result_value).

(** ** Gas pricing ([NFTMintingBot.get_current_gas_price]) *)

(** The fields of [NFTMintingBot] set by [__init__]. [private_key] is
    [None] when the key store could not give a key. *)
Record bot : Type := {
  network : string;
  private_key : option string;
  public_key : string;
  wallet_name : string;
  contract_address : string;
  mint_price : Q;
  max_gas_price : Z;
  max_priority_fee : Z;
  max_retries : Z;
  retry_delay : Q;
  check_interval : Q;
  mint_successful : bool;
  total_attempts : Z;
  successful_mints : Z
}.

(** The gas fields of a transaction: the legacy form or the dynamic-fee
    form. *)
Inductive gas_params : Type :=
| Legacy (gasPrice : Z)
| DynamicFee (maxFeePerGas maxPriorityFeePerGas : Z).

(** A block as far as the bot reads it: the base fee, absent on a chain
    without a fee market. *)
Record block : Type := { baseFeePerGas : option Z }.

(** What the node answers to the two gas queries. *)
Record gas_oracle : Type := {
  eth_get_block_latest : result block;
  eth_gas_price : result Z
}.

(** [w3.eth.get_block('latest')['baseFeePerGas']]. *)
Definition latest_base_fee (w : gas_oracle) : result Z :=
  blk ← eth_get_block_latest w;
  match baseFeePerGas blk with
  | Some fee => Ok fee
  | None => Raise KeyError
  end.

(** The body of the [try] block: [Some] at the [return] inside it,
    [None] when [if base_fee:] is false and control leaves the block. *)
Definition dynamic_fee (self : bot) (w : gas_oracle) : result (option gas_params) :=
  base_fee ← latest_base_fee w;
  if negb (base_fee =? 0) then
    base_fee_gwei ← from_wei base_fee gwei;
    tenth ← py_mul base_fee_gwei (PyFloat (1 # 10));
    let max_priority := py_min (PyInt (max_priority_fee self)) tenth in
    total ← py_add base_fee_gwei max_priority;
    let max_fee := py_min (PyInt (max_gas_price self)) total in
    fee_wei ← to_wei max_fee gwei;
    priority_wei ← to_wei max_priority gwei;
    Ok (Some (DynamicFee fee_wei priority_wei))
  else Ok None.

(** The code after the [try] block. *)
Definition legacy_fee (self : bot) (w : gas_oracle) : result gas_params :=
  gas_price ← eth_gas_price w;
  ceiling ← to_wei (PyInt (max_gas_price self)) gwei;
  Ok (Legacy (Z.min gas_price ceiling)).

Definition get_current_gas_price (self : bot) (w : gas_oracle) : result gas_params :=
  match dynamic_fee self w with
  | Ok (Some params) => Ok params
  | Ok None => legacy_fee self w
  | Raise _ => legacy_fee self w
  end.

(** ** Effects *)

(** What an attempt does to the outside world, in the order it does it. *)
Inductive event : Type :=
| EvQuery (fn : string)
| EvTxDict
| EvEncode (fn : string) (args : list Z)
| EvSign
| EvSend
| EvPoll (n : nat)
| EvSleep (seconds : Q).

(** A computation that logs events and returns or raises. The log is kept
    when an exception is raised, and when it is caught. *)
Definition io (A : Type) : Type := (list event * result A)%type.

#[export] Instance io_ret : MRet io := fun A a => ([], Ok a).

#[export] Instance io_bind : MBind io := fun A B k m =>
  match m with
  | (log, Ok a) => let (log', r) := k a in (log ++ log', r)
  | (log, Raise e) => (log, Raise e)
  end.

Definition tell (e : event) : io unit := ([e], Ok tt).
Definition lift {A : Type} (r : result A) : io A := ([], r).

(** ** The chain, the contract and the signer during one attempt *)

Record transaction : Type := {
  tx_from : string;
  tx_to : string;
  tx_value : Z;
  tx_nonce : Z;
  tx_chainId : Z;
  tx_gas_params : gas_params;
  tx_gas : option Z;
  tx_data : option string
}.

Record signed_tx : Type := { rawTransaction : string }.

Record receipt : Type := { status : Z }.

Record rpc : Type := {
  (** [contract.functions.isPublicMintActive().call()] *)
  call_isPublicMintActive : result bool;
  (** [contract.functions.mintActive().call()] *)
  call_mintActive : result bool;
  eth_get_transaction_count : string -> result Z;
  node_gas : gas_oracle;
  eth_chain_id : result Z;
  eth_estimate_gas : transaction -> result Z;
  (** [contract.functions.fn(args).build_transaction(tx)]: looking the
      function up in the interface, encoding the call and filling the
      transaction, any of which may raise. *)
  build_transaction : string -> list Z -> transaction -> result transaction;
  (** [w3.eth.account.sign_transaction(tx, key)] *)
  sign_transaction : transaction -> option string -> result signed_tx;
  (** [w3.eth.send_raw_transaction(raw).hex()] *)
  eth_send_raw_transaction : string -> result string;
  (** [w3.eth.get_transaction_receipt(tx_hash)] at the n-th poll *)
  eth_get_transaction_receipt : string -> nat -> result (option receipt)
}.

(** ** Readiness ([NFTMintingBot.check_mint_status]) *)

Definition check_mint_status (w : rpc) : io bool :=
  tell (EvQuery "isPublicMintActive");;
  match call_isPublicMintActive w with
  | Ok is_public_mint_active => mret is_public_mint_active
  | Raise _ =>
      tell (EvQuery "mintActive");;
      match call_mintActive w with
      | Ok is_mint_active => mret is_mint_active
      | Raise _ => mret true
      end
  end.

(** ** Building ([NFTMintingBot.create_mint_transaction]) *)

(** [int(gas_estimate * 1.2)]: the estimate is an [int], the product a
    [float]. *)
Definition gas_with_buffer (gas_estimate : Z) : result Z :=
  estimate ← float_of_int gas_estimate;
  int_of_float (SFmul 53 1024 estimate (float_literal (12 # 10))).

Definition create_mint_transaction (self : bot) (w : rpc) : io (option transaction) :=
  nonce ← lift (eth_get_transaction_count w (public_key self));
  gas_params ← lift (get_current_gas_price self (node_gas w));
  mint_price_wei ← lift (to_wei (PyFloat (mint_price self)) ether);
  chain ← lift (eth_chain_id w);
  tell EvTxDict;;
  let transaction :=
    {| tx_from := public_key self;
       tx_to := contract_address self;
       tx_value := mint_price_wei;
       tx_nonce := nonce;
       tx_chainId := chain;
       tx_gas_params := gas_params;
       tx_gas := None;
       tx_data := None |} in
  let gas :=
    match gas_estimate ← eth_estimate_gas w transaction;
          gas_with_buffer gas_estimate with
    | Ok gas => gas
    | Raise _ => 200000
    end in
  let transaction :=
    {| tx_from := tx_from transaction;
       tx_to := tx_to transaction;
       tx_value := tx_value transaction;
       tx_nonce := tx_nonce transaction;
       tx_chainId := tx_chainId transaction;
       tx_gas_params := tx_gas_params transaction;
       tx_gas := Some gas;
       tx_data := tx_data transaction |} in
  tell (EvEncode "mint" []);;
  match build_transaction w "mint" [] transaction with
  | Ok mint_tx => mret (Some mint_tx)
  | Raise _ =>
      tell (EvEncode "publicMint" []);;
      match build_transaction w "publicMint" [] transaction with
      | Ok mint_tx => mret (Some mint_tx)
      | Raise _ => mret None
      end
  end.

(** ** Submitting ([NFTMintingBot.send_transaction]) *)

Definition send_transaction (w : rpc) (signed : signed_tx) : io (option string) :=
  tell EvSend;;
  match eth_send_raw_transaction w (rawTransaction signed) with
  | Ok tx_hash => mret (Some tx_hash)
  | Raise _ => mret None
  end.

(** ** Confirmation ([NFTMintingBot.wait_for_transaction]) *)

Definition max_attempts : nat := 30.

(** The three ways out of [wait_for_transaction], and the value returned
    at each. *)
Inductive wait_exit : Type :=
| ReceiptSuccess
| ReceiptFailure
| Pending.

Definition wait_value (x : wait_exit) : bool :=
  match x with
  | ReceiptSuccess => true
  | ReceiptFailure => false
  | Pending => false
  end.

(** The [while attempts < max_attempts] loop, by recursion on
    [max_attempts - attempts]. *)
Fixpoint wait_loop (w : rpc) (tx_hash : string) (remaining attempts : nat) : io wait_exit :=
  match remaining with
  | O => mret Pending
  | S remaining' =>
      tell (EvPoll attempts);;
      match eth_get_transaction_receipt w tx_hash attempts with
      | Ok (Some r) =>
          if status r =? 1 then mret ReceiptSuccess else mret ReceiptFailure
      | Ok None | Raise TransactionNotFound =>
          tell (EvSleep 2);;
          wait_loop w tx_hash remaining' (S attempts)
      | Raise e => lift (Raise e)
      end
  end.

Definition wait_for_transaction (w : rpc) (tx_hash : string) : io wait_exit :=
  wait_loop w tx_hash max_attempts 0.

(** ** One attempt ([NFTMintingBot.attempt_mint]) *)

(** The ways out of [attempt_mint]: one per [return] statement, the last
    one split by the way out of [wait_for_transaction], and the
    [except Exception] handler. *)
Inductive attempt_exit : Type :=
| NotReady
| BuildFailure
| SendFailure
| ConfirmedSuccess
| ConfirmedFailure
| TimedOut
| CaughtException (e : exn).

Definition confirmation (x : wait_exit) : attempt_exit :=
  match x with
  | ReceiptSuccess => ConfirmedSuccess
  | ReceiptFailure => ConfirmedFailure
  | Pending => TimedOut
  end.

(** What [attempt_mint] hands back: the boolean it returns, the exit it
    took, and the bot as it left it. *)
Record attempt_result : Type := {
  att_return : bool;
  att_exit : attempt_exit;
  att_self : bot
}.

Definition set_successful_mints (self : bot) (n : Z) : bot :=
  {| network := network self;
     private_key := private_key self;
     public_key := public_key self;
     wallet_name := wallet_name self;
     contract_address := contract_address self;
     mint_price := mint_price self;
     max_gas_price := max_gas_price self;
     max_priority_fee := max_priority_fee self;
     max_retries := max_retries self;
     retry_delay := retry_delay self;
     check_interval := check_interval self;
     mint_successful := mint_successful self;
     total_attempts := total_attempts self;
     successful_mints := n |}.

Definition set_total_attempts (self : bot) (n : Z) : bot :=
  {| network := network self;
     private_key := private_key self;
     public_key := public_key self;
     wallet_name := wallet_name self;
     contract_address := contract_address self;
     mint_price := mint_price self;
     max_gas_price := max_gas_price self;
     max_priority_fee := max_priority_fee self;
     max_retries := max_retries self;
     retry_delay := retry_delay self;
     check_interval := check_interval self;
     mint_successful := mint_successful self;
     total_attempts := n;
     successful_mints := successful_mints self |}.

(** [if not s] for an optional string. *)
Definition nonempty (s : option string) : option string :=
  match s with
  | Some "" => None
  | Some v => Some v
  | None => None
  end.

(** The body of the [try] block. *)
Definition attempt_body (self : bot) (w : rpc) : io attempt_result :=
  ready ← check_mint_status w;
  if negb ready then
    mret {| att_return := false; att_exit := NotReady; att_self := self |}
  else
    transaction ← create_mint_transaction self w;
    match transaction with
    | None =>
        mret {| att_return := false; att_exit := BuildFailure; att_self := self |}
    | Some transaction =>
        tell EvSign;;
        signed_tx ← lift (sign_transaction w transaction (private_key self));
        tx_hash ← send_transaction w signed_tx;
        match nonempty tx_hash with
        | None =>
            mret {| att_return := false; att_exit := SendFailure; att_self := self |}
        | Some tx_hash =>
            waited ← wait_for_transaction w tx_hash;
            let success := wait_value waited in
            let self :=
              if success
              then set_successful_mints self (successful_mints self + 1)
              else self in
            mret {| att_return := success;
                    att_exit := confirmation waited;
                    att_self := self |}
        end
    end.

Definition attempt_mint (self : bot) (w : rpc) : list event * attempt_result :=
  match attempt_body self w with
  | (log, Ok r) => (log, r)
  | (log, Raise e) =>
      (log, {| att_return := false; att_exit := CaughtException e; att_self := self |})
  end.

(** ** The mint loop ([NFTMintingBot.run_continuous_mint]) *)

(** One iteration of the [while] loop: the attempt number, what the
    attempt did, how it ended, and the sleep that followed it, if any. *)
Record iteration : Type := {
  it_number : Z;
  it_log : list event;
  it_exit : attempt_exit;
  it_sleep : option Q
}.

(** Where the loop stands when the answers given to it are used up:
    it has returned, or it is about to start another attempt. *)
Inductive run_result : Type :=
| Returned (self : bot)
| Running (self : bot).

Definition run_self (r : run_result) : bot :=
  match r with
  | Returned self => self
  | Running self => self
  end.

Definition after {A B : Type} (x : A) (p : list A * B) : list A * B :=
  (x :: fst p, snd p).

(** One [rpc] record per iteration of the [while] loop. *)
Fixpoint run_continuous_mint (target_count : Z) (self : bot) (ws : list rpc)
  : list iteration * run_result :=
  if successful_mints self <? target_count then
    match ws with
    | [] => ([], Running self)
    | w :: ws' =>
        let self := set_total_attempts self (total_attempts self + 1) in
        let '(log, r) := attempt_mint self w in
        let success := att_return r in
        let self := att_self r in
        let done sleep :=
          {| it_number := total_attempts self;
             it_log := log;
             it_exit := att_exit r;
             it_sleep := sleep |} in
        if success && (target_count <=? successful_mints self) then
          ([done None], Returned self)
        else if negb success then
          after (done (Some (retry_delay self)))
                (run_continuous_mint target_count self ws')
        else
          after (done None) (run_continuous_mint target_count self ws')
    end
  else ([], Returned self).

(** ** Waiting for the mint to open ([NFTMintingBot.monitor_and_mint]) *)

(** One pass of the [while True] loop: what the readiness check did, and
    the sleep that followed it, if any. *)
Record check : Type := {
  ck_log : list event;
  ck_sleep : option Q
}.

(** Where [monitor_and_mint] stands when the answers given to it are used
    up: it is still waiting for the mint to open, or it has started the
    mint loop, which has done [its] and stands at [run]. *)
Inductive monitor_result : Type :=
| Waiting
| Minting (its : list iteration) (run : run_result).

(** One [rpc] record per readiness check in [checks], and the records
    [ws] for the mint loop once it is started. *)
Fixpoint monitor_and_mint (self : bot) (checks ws : list rpc)
  : list check * result monitor_result :=
  match checks with
  | [] => ([], Ok Waiting)
  | c :: checks' =>
      match check_mint_status c with
      | (log, Ok true) =>
          let (its, run) := run_continuous_mint 1 self ws in
          ([{| ck_log := log; ck_sleep := None |}], Ok (Minting its run))
      | (log, Ok false) =>
          after {| ck_log := log; ck_sleep := Some (check_interval self) |}
                (monitor_and_mint self checks' ws)
      | (log, Raise e) =>
          ([{| ck_log := log; ck_sleep := None |}], Raise e)
      end
  end.

(** ** The key store ([WalletManager]) *)

(** The values a wallet file holds. *)
#[warnings="-register-all"]
Inductive json : Type :=
| JNull
| JBool (b : bool)
| JInt (z : Z)
| JFloat (f : spec_float)
| JStr (s : string)
| JList (l : list json).

(** A number as Python arithmetic sees it: an [int] ([True] is 1, [False]
    is 0) or a [float]. *)
Inductive number : Type :=
| NInt (z : Z)
| NFloat (f : spec_float).

Definition json_number (v : json) : option number :=
  match v with
  | JBool b => Some (NInt (if b then 1 else 0))
  | JInt z => Some (NInt z)
  | JFloat f => Some (NFloat f)
  | _ => None
  end.

Definition number_json (n : number) : json :=
  match n with
  | NInt z => JInt z
  | NFloat f => JFloat f
  end.

(** A number as an operand of float arithmetic. *)
Definition number_float (n : number) : result spec_float :=
  match n with
  | NInt z => float_of_int z
  | NFloat f => Ok f
  end.

(** [a + b] on numbers: exact on two [int]s, float addition otherwise. *)
Definition number_add (a b : number) : result number :=
  match a, b with
  | NInt x, NInt y => Ok (NInt (x + y))
  | _, _ =>
      f ← number_float a;
      g ← number_float b;
      Ok (NFloat (SFadd 53 1024 f g))
  end.

(** [a / b] on numbers. The quotient of two [int]s is rounded once, from
    the exact quotient; otherwise both become floats first. *)
Definition number_truediv (a b : number) : result spec_float :=
  match a, b with
  | NInt x, NInt y =>
      if y =? 0 then Raise ZeroDivisionError
      else
        match SFdiv 53 1024 (int_operand x) (int_operand y) with
        | S754_infinity _ => Raise OverflowError
        | quotient => Ok quotient
        end
  | _, _ =>
      f ← number_float a;
      g ← number_float b;
      if SFeqb g (S754_zero false) then Raise ZeroDivisionError
      else Ok (SFdiv 53 1024 f g)
  end.

(** [100] as the other operand of a [float]: 100.0 *)
Definition hundred : spec_float := binary_normalize 53 1024 100 0 false.

(** [a + b] on the values of a wallet file: numbers add, strings and
    lists concatenate, anything else is a [TypeError]. *)
Definition json_add (a b : json) : result json :=
  match json_number a, json_number b with
  | Some x, Some y => n ← number_add x y; Ok (number_json n)
  | _, _ =>
      match a, b with
      | JStr s, JStr t => Ok (JStr (s ++ t))
      | JList l, JList k => Ok (JList (l ++ k))
      | _, _ => Raise TypeError
      end
  end.

(** [a > 0] *)
Definition json_positive (a : json) : result bool :=
  match json_number a with
  | Some (NInt z) => Ok (0 <? z)
  | Some (NFloat f) => Ok (SFltb (S754_zero false) f)
  | None => Raise TypeError
  end.

(** [(a / b) * 100]: true division gives a [float], and the product with
    [100] is rounded again. *)
Definition json_percent (a b : json) : result json :=
  match json_number a, json_number b with
  | Some x, Some y =>
      quotient ← number_truediv x y;
      Ok (JFloat (SFmul 53 1024 quotient hundred))
  | _, _ => Raise TypeError
  end.

(** The wallets directory: the parsed content of [wallets/<name>.json]
    for each name that has a file. *)
Abbreviation wallet := (gmap string json).
Abbreviation wallets_dir := (gmap string (gmap string json)).

(** [wallet.get(key, 0)] *)
Definition get_or_zero (w : wallet) (key : string) : json :=
  default (JInt 0) (w !! key).

(** [wallet[key]] *)
Definition getitem (w : wallet) (key : string) : result json :=
  match w !! key with
  | Some v => Ok v
  | None => Raise KeyError
  end.

(** What [Fernet.encrypt] draws besides the key and the data. *)
Record fernet_nonce : Type := { current_time : Z; iv : list Byte.byte }.

(** The [Fernet] object held in [self.cipher]. *)
Record Fernet : Type := {
  encrypt : list Byte.byte -> fernet_nonce -> list Byte.byte;
  decrypt : list Byte.byte -> result (list Byte.byte)
}.

(** The contract of the cipher library: a token made by [encrypt]
    decrypts, under the same key, to the data it was made from. *)
Definition fernet_round_trip (c : Fernet) : Prop :=
  forall data n, decrypt c (encrypt c data n) = Ok data.

Record WalletManager : Type := { cipher : Fernet }.

(** [str.encode()] and [bytes.decode()]: a [str] is kept as its UTF-8
    bytes. *)
Definition str_encode (s : string) : list Byte.byte := String.list_byte_of_string s.
Definition bytes_decode (b : list Byte.byte) : string := String.string_of_list_byte b.

Definition encrypt_private_key (self : WalletManager) (private_key : string)
    (n : fernet_nonce) : string :=
  let encrypted := encrypt (cipher self) (str_encode private_key) n in
  bytes_decode encrypted.

Definition decrypt_private_key (self : WalletManager) (encrypted_key : string)
    : result string :=
  decrypted ← decrypt (cipher self) (str_encode encrypted_key);
  Ok (bytes_decode decrypted).

(** [str.lower()] on the ASCII letters. *)
Definition ascii_lower (c : ascii) : ascii :=
  let n := N_of_ascii c in
  if ((65 <=? n) && (n <=? 90))%N then ascii_of_N (n + 32) else c.

Fixpoint lower (s : string) : string :=
  match s with
  | EmptyString => EmptyString
  | String c s' => String (ascii_lower c) (lower s')
  end.

(** [get_wallet]: the parsed file, or [None] when there is no file. *)
Definition get_wallet (fs : wallets_dir) (wallet_name : string) : option wallet :=
  fs !! wallet_name.

Section KeyStore.

(** [Web3().eth.account.from_key(private_key).address]: the address of
    a valid key, an exception for anything else. *)
Variable account_from_key : string -> result string.

(** [add_wallet]: the value returned and the directory afterwards.
    [now] is [datetime.now().isoformat()]. *)
Definition add_wallet (self : WalletManager) (fs : wallets_dir)
    (wallet_name private_key : string) (public_key : option string)
    (now : string) (n : fernet_nonce) : bool * wallets_dir :=
  match account_from_key private_key with
  | Raise _ => (false, fs)
  | Ok address =>
      let mismatch :=
        match public_key with
        | Some pk =>
            negb (String.eqb pk "") && negb (String.eqb (lower pk) (lower address))
        | None => false
        end in
      if mismatch then (false, fs)
      else
        let public_key := address in
        let encrypted_key := encrypt_private_key self private_key n in
        let wallet_data : wallet :=
          <["name" := JStr wallet_name]>
          (<["address" := JStr public_key]>
          (<["private_key_encrypted" := JStr encrypted_key]>
          (<["created_at" := JStr now]>
          (<["last_used" := JNull]>
          (<["total_mints" := JInt 0]>
          (<["successful_mints" := JInt 0]>
          (<["failed_mints" := JInt 0]>
          (<["total_gas_spent" := JInt 0]>
          (<["tags" := JList []]> ∅))))))))) in
        (true, <[wallet_name := wallet_data]> fs)
  end.

End KeyStore.

(** [get_wallet_private_key]: the decrypted key, or [None] when the
    wallet has no file or an empty one, the file has no encrypted key,
    or decryption raises. *)
Definition get_wallet_private_key (self : WalletManager) (fs : wallets_dir)
    (wallet_name : string) : option string :=
  match get_wallet fs wallet_name with
  | Some w =>
      match w !! "private_key_encrypted" with
      | Some (JStr encrypted_key) =>
          match decrypt_private_key self encrypted_key with
          | Ok key => Some key
          | Raise _ => None
          end
      | Some _ => None
      | None => None
      end
  | None => None
  end.

(** [update_wallet_stats]: the value returned and the directory
    afterwards. The file is written last, so an exception leaves the
    directory as it was. *)
Definition update_wallet_stats (fs : wallets_dir) (wallet_name : string)
    (success : bool) (gas_spent : json) (now : string) : result (bool * wallets_dir) :=
  match get_wallet fs wallet_name with
  | None => Ok (false, fs)
  | Some w =>
      if decide (w = ∅) then Ok (false, fs)
      else
        let w := <["last_used" := JStr now]> w in
        w ← (if success then
               n ← json_add (get_or_zero w "successful_mints") (JInt 1);
               Ok (<["successful_mints" := n]> w)
             else
               n ← json_add (get_or_zero w "failed_mints") (JInt 1);
               Ok (<["failed_mints" := n]> w));
        total ← json_add (get_or_zero w "total_mints") (JInt 1);
        let w := <["total_mints" := total]> w in
        gas ← json_add (get_or_zero w "total_gas_spent") gas_spent;
        let w := <["total_gas_spent" := gas]> w in
        total ← getitem w "total_mints";
        positive ← json_positive total;
        w ← (if positive : bool then
               successful ← getitem w "successful_mints";
               total ← getitem w "total_mints";
               rate ← json_percent successful total;
               Ok (<["success_rate" := rate]> w)
             else Ok w);
        Ok (true, <[wallet_name := w]> fs)
  end.

(** [remove_wallet]: the value returned and the directory afterwards. *)
Definition remove_wallet (fs : wallets_dir) (wallet_name : string) : bool * wallets_dir :=
  match fs !! wallet_name with
  | Some _ => (true, delete wallet_name fs)
  | None => (false, fs)
  end.

(** [get_all_wallets]: the wallets of the files of the directory, in the
    order [os.listdir] gives them (here the order of [map_to_list]); a
    file holding an empty dictionary is left out. *)
Definition get_all_wallets (fs : wallets_dir) : list wallet :=
  List.filter (fun w : wallet => bool_decide (w <> ∅)) (snd <$> map_to_list fs).

(** ** Start-up ([NFTMintingBot.__init__]) *)

(** [os.getenv(key)] and [os.getenv(key, default)] over the process
    environment. *)
Definition getenv (environ : gmap string string) (key : string) : option string :=
  environ !! key.

Definition getenv_or (environ : gmap string string) (key fallback : string) : string :=
  default fallback (environ !! key).

(** [setup_network_config] *)
Definition setup_network_config (environ : gmap string string) (network : string)
    : result string :=
  let network_rpc_map : gmap string (option string) :=
    <["ethereum" := getenv environ "RPC_URL_ETH"]>
    (<["polygon" := getenv environ "RPC_URL_POLYGON"]>
    (<["arbitrum" := getenv environ "RPC_URL_ARBITRUM"]> ∅)) in
  match nonempty (mjoin (network_rpc_map !! network)) with
  | Some rpc_url => Ok rpc_url
  | None => Raise ValueError
  end.

Section Init.

(** The builtins [int] and [float] on a string, [json.loads], and
    [w3.eth.contract(address=w3.to_checksum_address(a), abi=abi)]. *)
Variable py_int : string -> result Z.
Variable py_float : string -> result Q.
Variable abi : Type.
Variable json_loads : string -> result abi.
Variable eth_contract : string -> abi -> result unit.

(** [NFTMintingBot(network, wallet_name)]. [wm] is what
    [WalletManager()] gives and [fs] the wallets directory it reads. *)
Definition init (environ : gmap string string) (wm : result WalletManager)
    (fs : wallets_dir) (network : string) (wallet_name : option string)
    : result bot :=
  let network := lower network in
  rpc_url ← setup_network_config environ network;
  wallet_manager ← wm;
  keys ←
    match nonempty wallet_name with
    | Some wallet_name =>
        match get_wallet fs wallet_name with
        | Some wallet_data =>
            if decide (wallet_data = ∅) then Raise ValueError
            else
              let private_key :=
                get_wallet_private_key wallet_manager fs wallet_name in
              address ← getitem wallet_data "address";
              Ok (private_key, Some address, wallet_name)
        | None => Raise ValueError
        end
    | None =>
        Ok (getenv environ "PRIVATE_KEY",
            JStr <$> getenv environ "PUBLIC_KEY",
            "default")
    end;
  let '(private_key, public_key, wallet_name) := keys in
  contract ←
    match nonempty (getenv environ "CONTRACT_ADDRESS"),
          nonempty (getenv environ "MINT_FUNCTION_ABI") with
    | Some contract_address, Some mint_function_abi =>
        Ok (contract_address, mint_function_abi)
    | _, _ => Raise ValueError
    end;
  let '(contract_address, mint_function_abi) := contract in
  mint_abi ←
    match json_loads mint_function_abi with
    | Ok v => Ok v
    | Raise _ => Raise ValueError
    end;
  _ ← eth_contract contract_address mint_abi;
  mint_price ← py_float (getenv_or environ "MINT_PRICE" "0.05");
  max_gas_price ← py_int (getenv_or environ "MAX_GAS_PRICE_GWEI" "100");
  max_priority_fee ← py_int (getenv_or environ "MAX_PRIORITY_FEE_GWEI" "2");
  max_retries ← py_int (getenv_or environ "RETRY_COUNT" "50");
  retry_delay ← py_float (getenv_or environ "RETRY_DELAY" "0.5");
  check_interval ← py_float (getenv_or environ "CHECK_INTERVAL" "1.0");
  (* the closing prints slice [self.public_key], which [None] and a
     number do not allow; an address that is not a string is outside the
     model *)
  public_key ←
    match public_key with
    | Some (JStr a) => Ok a
    | _ => Raise TypeError
    end;
  Ok {| network := network;
        private_key := private_key;
        public_key := public_key;
        wallet_name := wallet_name;
        contract_address := contract_address;
        mint_price := mint_price;
        max_gas_price := max_gas_price;
        max_priority_fee := max_priority_fee;
        max_retries := max_retries;
        retry_delay := retry_delay;
        check_interval := check_interval;
        mint_successful := false;
        total_attempts := 0;
        successful_mints := 0 |}.

End Init.

(** ** Settings, wallet files and the transaction log ([Config]) *)

Module Config.

(** [DEFAULT_SETTINGS] *)
Definition DEFAULT_SETTINGS : gmap string json :=
  <["max_gas_price_gwei" := JInt 100]>
  (<["max_priority_fee_gwei" := JInt 2]>
  (<["retry_count" := JInt 50]>
  (<["retry_delay" := JFloat (float_literal (1 # 2))]>
  (<["check_interval" := JFloat (float_literal 1)]>
  (<["gas_multiplier" := JFloat (float_literal (12 # 10))]>
  (<["timeout" := JInt 30]> ∅)))))).

(** [settings.json]: absent, not JSON, or a JSON object. *)
Inductive settings_file : Type :=
| NoSettings
| InvalidSettings
| Settings (user_settings : gmap string json).

(** [load_settings]: a copy of the defaults updated with the settings of
    the file; the defaults when the file is absent or is not JSON. *)
Definition load_settings (file : settings_file) : gmap string json :=
  match file with
  | Settings user_settings => user_settings ∪ DEFAULT_SETTINGS
  | NoSettings => DEFAULT_SETTINGS
  | InvalidSettings => DEFAULT_SETTINGS
  end.

(** [save_settings]: the file afterwards. *)
Definition save_settings (settings : gmap string json) : settings_file :=
  Settings settings.

(** [save_wallet_info]: the path returned and the directory afterwards.
    [now] is [datetime.now().isoformat()]. *)
Definition save_wallet_info (fs : wallets_dir) (wallet_name : string)
    (address private_key_encrypted : json) (now : string) : string * wallets_dir :=
  let wallet_data : wallet :=
    <["name" := JStr wallet_name]>
    (<["address" := address]>
    (<["private_key_encrypted" := private_key_encrypted]>
    (<["created_at" := JStr now]>
    (<["last_used" := JNull]>
    (<["mint_count" := JInt 0]>
    (<["success_rate" := JFloat (float_literal 0)]> ∅)))))) in
  (("wallets/" ++ wallet_name ++ ".json")%string, <[wallet_name := wallet_data]> fs).

(** [load_wallet_info]: the parsed file, or the empty dictionary when
    there is no file. *)
Definition load_wallet_info (fs : wallets_dir) (wallet_name : string) : wallet :=
  default ∅ (fs !! wallet_name).

(** [Config.update_wallet_stats]: the directory afterwards. [now] is the
    time read for [last_used], [now_saved] the one [save_wallet_info]
    reads. *)
Definition update_wallet_stats (fs : wallets_dir) (wallet_name : string)
    (success : bool) (now now_saved : string) : result wallets_dir :=
  let wallet_data := load_wallet_info fs wallet_name in
  if decide (wallet_data = ∅) then Ok fs
  else
    let wallet_data := <["last_used" := JStr now]> wallet_data in
    wallet_data ←
      (if success then
         n ← json_add (get_or_zero wallet_data "mint_count") (JInt 1);
         Ok (<["mint_count" := n]> wallet_data)
       else Ok wallet_data);
    total_attempts ← json_add (get_or_zero wallet_data "total_attempts") (JInt 1);
    let successful_mints := get_or_zero wallet_data "mint_count" in
    let wallet_data := <["total_attempts" := total_attempts]> wallet_data in
    positive ← json_positive total_attempts;
    rate ← (if positive : bool then json_percent successful_mints total_attempts
            else Ok (JInt 0));
    let wallet_data := <["success_rate" := rate]> wallet_data in
    address ← getitem wallet_data "address";
    private_key_encrypted ← getitem wallet_data "private_key_encrypted";
    Ok (snd (save_wallet_info fs wallet_name address private_key_encrypted now_saved)).

(** One entry of a transaction log. *)
Record log_entry : Type := {
  le_tx_hash : string;
  le_network : string;
  le_status : string;
  le_gas_used : Z;
  le_gas_price_gwei : Q;
  le_value_eth : Q;
  le_timestamp : string;
  le_block_timestamp : string
}.

(** A file of the logs directory: not JSON, or the list of its entries. *)
Inductive log_file : Type :=
| InvalidLog
| Logs (entries : list log_entry).

(** [save_transaction_log]: the path returned and the logs directory
    afterwards. [now] is [datetime.now().isoformat()], [block_time] the
    time formatted for [block_timestamp] and [today] the date formatted
    for the file name. *)
Definition save_transaction_log (logs_dir : gmap string log_file)
    (tx_hash network status : string) (gas_used : Z) (gas_price value : Q)
    (now block_time today : string) : string * gmap string log_file :=
  let entry :=
    {| le_tx_hash := tx_hash;
       le_network := network;
       le_status := status;
       le_gas_used := gas_used;
       le_gas_price_gwei := gas_price;
       le_value_eth := value;
       le_timestamp := now;
       le_block_timestamp := block_time |} in
  let path := ("logs/transactions_" ++ today ++ ".json")%string in
  let logs :=
    match logs_dir !! path with
    | Some (Logs entries) => entries
    | Some InvalidLog => []
    | None => []
    end in
  (path, <[path := Logs (logs ++ [entry])]> logs_dir).

End Config.

(** * Scenarios and observations *)

(** A bot configured with the defaults of [__init__]: ceilings of 100 and
    2 gwei, 50 retries, half a second between attempts. *)
Definition default_bot : bot :=
  {| network := "ethereum";
     private_key := Some "0x01";
     public_key := "0xA1";
     wallet_name := "default";
     contract_address := "0xC0";
     mint_price := 5 # 100;
     max_gas_price := 100;
     max_priority_fee := 2;
     max_retries := 50;
     retry_delay := 1 # 2;
     check_interval := 1;
     mint_successful := false;
     total_attempts := 0;
     successful_mints := 0 |}.

(** Scenario A: the latest block has a base fee of 20 gwei; the node
    quotes a legacy gas price of 21 gwei. *)
Definition scenario_A : gas_oracle :=
  {| eth_get_block_latest := Ok {| baseFeePerGas := Some (20 * gwei) |};
     eth_gas_price := Ok (21 * gwei) |}.

(** Scenario B: no base fee in the block, a legacy gas price of 150 gwei. *)
Definition scenario_B : gas_oracle :=
  {| eth_get_block_latest := Ok {| baseFeePerGas := None |};
     eth_gas_price := Ok (150 * gwei) |}.

(** A node that answers no query. *)
Definition node_down : gas_oracle :=
  {| eth_get_block_latest := Raise RPCError;
     eth_gas_price := Raise RPCError |}.

(** The pricing rule in the words of the specification, in gwei:
    [priority = min(P, 0.1 * B)] and [maxFee = min(G, B + priority)]. *)
Definition spec_computeGasParams (B G P : Q) : Q * Q :=
  let priority := Qmin P ((1 # 10) * B) in
  (Qmin G (B + priority), priority).

(** A transaction as [build_transaction] returns it: the call data
    filled in. *)
Definition with_data (tx : transaction) (data : string) : transaction :=
  {| tx_from := tx_from tx;
     tx_to := tx_to tx;
     tx_value := tx_value tx;
     tx_nonce := tx_nonce tx;
     tx_chainId := tx_chainId tx;
     tx_gas_params := tx_gas_params tx;
     tx_gas := tx_gas tx;
     tx_data := Some data |}.

(** A contract whose interface has the functions [functions] (name and
    number of arguments) and answers the readiness queries with [ready],
    behind a node that accepts every submission and answers the n-th
    receipt poll with [receipts n]. Signing needs a key. *)
Definition contract_with (functions : list (string * nat)) (ready : result bool)
    (receipts : nat -> result (option receipt)) : rpc :=
  {| call_isPublicMintActive := ready;
     call_mintActive := ready;
     eth_get_transaction_count := fun _ => Ok 7;
     node_gas := scenario_A;
     eth_chain_id := Ok 1;
     eth_estimate_gas := fun _ => Ok 100000;
     build_transaction := fun fn args tx =>
       if existsb (fun f => String.eqb (fst f) fn && Nat.eqb (snd f) (length args))
                  functions
       then Ok (with_data tx fn) else Raise ValueError;
     sign_transaction := fun tx key =>
       match key with
       | Some _ => Ok {| rawTransaction := "0xf86c" |}
       | None => Raise TypeError
       end;
     eth_send_raw_transaction := fun _ => Ok "0xabc";
     eth_get_transaction_receipt := fun _ n => receipts n |}.

(** Receipt polls: a receipt with status [s] at poll [k], nothing before. *)
Definition receipt_at (k : nat) (s : Z) (n : nat) : result (option receipt) :=
  if (n <? k)%nat then Raise TransactionNotFound else Ok (Some {| status := s |}).

(** Receipt polls: never a receipt. *)
Definition no_receipt_ever (n : nat) : result (option receipt) :=
  Raise TransactionNotFound.

(** An attempt that ends in a confirmed mint at the third poll. *)
Definition mint_confirmed : rpc :=
  contract_with [("mint", 0%nat)] (Ok true) (receipt_at 2 1).

(** An attempt whose transaction is mined and reverts. *)
Definition mint_reverted : rpc :=
  contract_with [("mint", 0%nat)] (Ok true) (receipt_at 0 0).

(** An attempt whose transaction is never seen mined. *)
Definition mint_unconfirmed : rpc :=
  contract_with [("mint", 0%nat)] (Ok true) no_receipt_ever.

(** A contract that has neither readiness query and only [mintPublic()]. *)
Definition mintPublic_only : rpc :=
  contract_with [("mintPublic", 0%nat)] (Raise ValueError) (receipt_at 0 1).

(** The call encodings tried, in order. *)
Definition encodings (log : list event) : list (string * list Z) :=
  flat_map (fun ev => match ev with EvEncode fn args => [(fn, args)] | _ => [] end) log.

(** The transaction [default_bot] hands to the call encoder when the node
    is the one of [contract_with]: nonce 7, chain 1, the legacy price of
    scenario A and the estimate of 100000 units plus a fifth. *)
Definition candidate_tx : transaction :=
  {| tx_from := "0xA1";
     tx_to := "0xC0";
     tx_value := 5 * 10 ^ 16;
     tx_nonce := 7;
     tx_chainId := 1;
     tx_gas_params := Legacy (21 * gwei);
     tx_gas := Some 120000;
     tx_data := None |}.

(** ** Reading the log *)

(** The log of [k] polls that found no receipt, starting at poll [a]:
    each is followed by the two-second sleep. *)
Definition polls (a k : nat) : list event :=
  flat_map (fun i => [EvPoll i; EvSleep 2]) (seq a k).

(** The number of receipt polls in a log. *)
Definition count_polls (log : list event) : nat :=
  length (List.filter (fun ev => match ev with EvPoll _ => true | _ => false end) log).

(** The seconds slept in a log. *)
Definition slept (log : list event) : Q :=
  fold_right (fun ev acc => match ev with EvSleep s => s + acc | _ => acc end)%Q
             0%Q log.

(** A poll that found no receipt: [None], or [TransactionNotFound]. *)
Definition no_receipt (answer : result (option receipt)) : Prop :=
  answer = Ok None \/ answer = Raise TransactionNotFound.

Definition is_confirmed_success (x : attempt_exit) : bool :=
  match x with
  | ConfirmedSuccess => true
  | _ => false
  end.

(** The number of iterations that ended in [ConfirmedSuccess]. *)
Definition count_success (its : list iteration) : Z :=
  Z.of_nat (length (List.filter (fun it => is_confirmed_success (it_exit it)) its)).

(** The sleep the loop makes after an attempt that ended as [x]. *)
Definition sleep_after (self : bot) (x : attempt_exit) : option Q :=
  if is_confirmed_success x then None else Some (retry_delay self).

(** Scenario D: six attempts are on offer, the second, fourth and fifth
    of which would be confirmed. *)
Definition scenario_D : list rpc :=
  [mint_unconfirmed; mint_confirmed; mint_reverted; mint_confirmed; mint_confirmed;
   mint_confirmed].

(** An attempt against a contract whose mint is not open yet. *)
Definition mint_not_open : rpc :=
  contract_with [("mint", 0%nat)] (Ok false) no_receipt_ever.

(** An attempt whose submission the node rejects. *)
Definition send_rejected : rpc :=
  {| call_isPublicMintActive := call_isPublicMintActive mint_confirmed;
     call_mintActive := call_mintActive mint_confirmed;
     eth_get_transaction_count := eth_get_transaction_count mint_confirmed;
     node_gas := node_gas mint_confirmed;
     eth_chain_id := eth_chain_id mint_confirmed;
     eth_estimate_gas := eth_estimate_gas mint_confirmed;
     build_transaction := build_transaction mint_confirmed;
     sign_transaction := sign_transaction mint_confirmed;
     eth_send_raw_transaction := fun _ => Raise RPCError;
     eth_get_transaction_receipt := eth_get_transaction_receipt mint_confirmed |}.

(** An attempt during which the node does not answer the nonce query. *)
Definition nonce_unavailable : rpc :=
  {| call_isPublicMintActive := call_isPublicMintActive mint_confirmed;
     call_mintActive := call_mintActive mint_confirmed;
     eth_get_transaction_count := fun _ => Raise RPCError;
     node_gas := node_gas mint_confirmed;
     eth_chain_id := eth_chain_id mint_confirmed;
     eth_estimate_gas := eth_estimate_gas mint_confirmed;
     build_transaction := build_transaction mint_confirmed;
     sign_transaction := sign_transaction mint_confirmed;
     eth_send_raw_transaction := eth_send_raw_transaction mint_confirmed;
     eth_get_transaction_receipt := eth_get_transaction_receipt mint_confirmed |}.

(** One attempt for each way out of [attempt_mint]. *)
Definition every_exit : list rpc :=
  [mint_not_open; mintPublic_only; send_rejected; mint_confirmed; mint_reverted;
   mint_unconfirmed; nonce_unavailable].

(** Sixty attempts in a row whose transaction reverts: more than the 50
    retries [default_bot] is configured with. *)
Definition sixty_reverts : list rpc := repeat mint_reverted 60.

(** The exits of the iterations of a run, in order. *)
Definition exits (its : list iteration) : list attempt_exit := map it_exit its.

(** ** A key store to run *)

Fixpoint strip_prefix (prefix l : list Byte.byte) : option (list Byte.byte) :=
  match prefix, l with
  | [], _ => Some l
  | p :: prefix', x :: l' => if Byte.eqb p x then strip_prefix prefix' l' else None
  | _ :: _, [] => None
  end.

(** A stand-in for the cipher library that meets [fernet_round_trip]: a
    token is the key followed by the data, and a token that does not
    start with the key is rejected as [Fernet] rejects a token made under
    another key. *)
Definition keyed_cipher (key : string) : Fernet :=
  {| encrypt := fun data _ => str_encode key ++ data;
     decrypt := fun token =>
       match strip_prefix (str_encode key) token with
       | Some data => Ok data
       | None => Raise InvalidToken
       end |}.

(** A stand-in for the derivation of the address from a key. *)
Definition address_of_key (private_key : string) : result string :=
  if String.eqb private_key "" then Raise ValueError
  else Ok ("0xAD" ++ private_key)%string.

Definition nonce_0 : fernet_nonce := {| current_time := 1700000000; iv := [] |}.

(** Scenario E. The wallet [main] was added by a manager holding the key
    [k1]; the bot is started by a manager holding the key [k2]. *)
Definition manager_1 : WalletManager := {| cipher := keyed_cipher "k1" |}.
Definition manager_2 : WalletManager := {| cipher := keyed_cipher "k2" |}.

Definition scenario_E_wallets : wallets_dir :=
  snd (add_wallet address_of_key manager_1 ∅ "main" "0x01" None
         "2024-01-01T00:00:00" nonce_0).

Definition scenario_E_environ : gmap string string :=
  <["RPC_URL_ETH" := "https://node.example"]>
  (<["CONTRACT_ADDRESS" := "0xC0"]>
  (<["MINT_FUNCTION_ABI" := "[]"]> ∅)).

(** [int] and [float] on the strings the defaults of [__init__] use. *)
Definition int_of_default (s : string) : result Z :=
  if String.eqb s "100" then Ok 100
  else if String.eqb s "2" then Ok 2
  else if String.eqb s "50" then Ok 50
  else Raise ValueError.

Definition float_of_default (s : string) : result Q :=
  if String.eqb s "0.05" then Ok (5 # 100)
  else if String.eqb s "0.5" then Ok (1 # 2)
  else if String.eqb s "1.0" then Ok 1%Q
  else Raise ValueError.

(** [NFTMintingBot("ethereum", "main")] in scenario E, under either
    manager. *)
Definition scenario_E_init (wm : WalletManager) : result bot :=
  init int_of_default float_of_default unit (fun _ => Ok tt) (fun _ _ => Ok tt)
       scenario_E_environ (Ok wm) scenario_E_wallets "ethereum" (Some "main").

(** The number of submissions in a log, and of transactions put together. *)
Definition count_sends (log : list event) : nat :=
  length (List.filter (fun ev => match ev with EvSend => true | _ => false end) log).

Definition count_tx_dicts (log : list event) : nat :=
  length (List.filter (fun ev => match ev with EvTxDict => true | _ => false end) log).

(** ** The history of a wallet record *)

(** One call of [update_wallet_stats]. *)
Record update : Type := {
  u_wallet : string;
  u_success : bool;
  u_gas_spent : json;
  u_now : string
}.

(** A sequence of calls, each of which returns; an exception ends it. *)
Fixpoint apply_updates (fs : wallets_dir) (us : list update) : result wallets_dir :=
  match us with
  | [] => Ok fs
  | u :: us' =>
      r ← update_wallet_stats fs (u_wallet u) (u_success u) (u_gas_spent u) (u_now u);
      apply_updates (snd r) us'
  end.

(** The calls among [us] made for [name] with the given success flag. *)
Definition count_updates (name : string) (flag : bool) (us : list update) : Z :=
  Z.of_nat (length (List.filter
    (fun u => String.eqb (u_wallet u) name && Bool.eqb (u_success u) flag) us)).

(** The three counters of a wallet record. *)
Definition wallet_counts (w : wallet) (total successful failed : Z) : Prop :=
  w !! "total_mints" = Some (JInt total)
  /\ w !! "successful_mints" = Some (JInt successful)
  /\ w !! "failed_mints" = Some (JInt failed).

(** [(successful / total) * 100] on two [int]s, as Python computes it:
    the quotient rounded to the nearest float, then the product of that
    float and 100.0, rounded again. *)
Definition success_rate (successful total : Z) : result json :=
  quotient ← number_truediv (NInt successful) (NInt total);
  Ok (JFloat (SFmul 53 1024 quotient hundred)).

(** Scenario: the wallet [main] of scenario E after a successful mint, a
    failed one and a successful one. *)
Definition three_updates : list update :=
  [ {| u_wallet := "main"; u_success := true; u_gas_spent := JFloat (float_literal (1 # 100));
       u_now := "2024-01-02T00:00:00" |};
    {| u_wallet := "main"; u_success := false; u_gas_spent := JInt 0;
       u_now := "2024-01-03T00:00:00" |};
    {| u_wallet := "main"; u_success := true; u_gas_spent := JFloat (float_literal (2 # 100));
       u_now := "2024-01-04T00:00:00" |} ].

(** The wallets directory of scenario E after [three_updates]. *)
Definition scenario_E_after : wallets_dir :=
  match apply_updates scenario_E_wallets three_updates with
  | Ok fs => fs
  | Raise _ => ∅
  end.

(** Whether the attempt answered by [w] returns true, and how many of the
    attempts answered by [ws] do. *)
Definition succeeds (self : bot) (w : rpc) : bool :=
  att_return (snd (attempt_mint self w)).

Definition offers (self : bot) (ws : list rpc) : Z :=
  Z.of_nat (length (List.filter (succeeds self) ws)).

(** ** More scenarios *)

(** [default_bot] with a gas ceiling of -1 gwei. *)
Definition negative_ceiling_bot : bot :=
  {| network := network default_bot;
     private_key := private_key default_bot;
     public_key := public_key default_bot;
     wallet_name := wallet_name default_bot;
     contract_address := contract_address default_bot;
     mint_price := mint_price default_bot;
     max_gas_price := -1;
     max_priority_fee := max_priority_fee default_bot;
     max_retries := max_retries default_bot;
     retry_delay := retry_delay default_bot;
     check_interval := check_interval default_bot;
     mint_successful := mint_successful default_bot;
     total_attempts := total_attempts default_bot;
     successful_mints := successful_mints default_bot |}.

(** The four values [create_mint_transaction] fetches before it puts the
    transaction together, in the order it fetches them. *)
Definition fetched (self : bot) (w : rpc) : result (Z * gas_params * Z * Z) :=
  nonce ← eth_get_transaction_count w (public_key self);
  gas_params ← get_current_gas_price self (node_gas w);
  mint_price_wei ← to_wei (PyFloat (mint_price self)) ether;
  chain ← eth_chain_id w;
  Ok (nonce, gas_params, mint_price_wei, chain).

(** Whether a log holds nothing but contract queries. *)
Definition only_queries (log : list event) : bool :=
  forallb (fun ev => match ev with EvQuery _ => true | _ => false end) log.

(** A bot that holds no private key. *)
Definition keyless_bot : bot :=
  {| network := network default_bot;
     private_key := None;
     public_key := public_key default_bot;
     wallet_name := wallet_name default_bot;
     contract_address := contract_address default_bot;
     mint_price := mint_price default_bot;
     max_gas_price := max_gas_price default_bot;
     max_priority_fee := max_priority_fee default_bot;
     max_retries := max_retries default_bot;
     retry_delay := retry_delay default_bot;
     check_interval := check_interval default_bot;
     mint_successful := mint_successful default_bot;
     total_attempts := total_attempts default_bot;
     successful_mints := successful_mints default_bot |}.

(** Receipt polls: nothing at the first two polls, a node error at the
    third. *)
Definition node_error_at_third_poll (n : nat) : result (option receipt) :=
  if (n <? 2)%nat then Ok None else Raise RPCError.

(** An attempt whose third receipt poll fails with a node error. *)
Definition poll_fails : rpc :=
  contract_with [("mint", 0%nat)] (Ok true) node_error_at_third_poll.

(** The bot of scenario E when the manager holds the key the wallet was
    added under. *)
Definition scenario_E_bot : bot :=
  match scenario_E_init manager_1 with
  | Ok self => self
  | Raise _ => default_bot
  end.

(** Scenario: a wallet file as [Config.save_wallet_info] writes it, which
    has none of the counters [WalletManager.add_wallet] starts at 0. *)
Definition config_saved_wallets : wallets_dir :=
  snd (Config.save_wallet_info ∅ "spare" (JStr "0xaddr:0x02") (JStr "token")
         "2024-01-01T00:00:00").

(** The keys [update_wallet_stats] writes. *)
Definition statistics_keys : list string :=
  ["last_used"; "successful_mints"; "failed_mints"; "total_mints";
   "total_gas_spent"; "success_rate"].

(** The wallets directory of scenario E after the first of
    [three_updates]. *)
Definition scenario_E_first : wallets_dir :=
  match update_wallet_stats scenario_E_wallets "main" true (JFloat (float_literal (1 # 100)))
          "2024-01-02T00:00:00" with
  | Ok (_, fs) => fs
  | Raise _ => ∅
  end.

(** The wallets directory of scenario E after its three mints and one call
    of [Config.update_wallet_stats] for the wallet. *)
Definition scenario_E_config : wallets_dir :=
  match Config.update_wallet_stats scenario_E_after "main" true
          "2024-01-05T00:00:00" "2024-01-05T00:00:01" with
  | Ok fs => fs
  | Raise _ => ∅
  end.

(** ** The contract as web3 answers

    [__init__] binds the contract to its address. On such a contract
    [build_transaction] of web3 6 first looks the function up in the
    interface, which raises [MismatchedABI] when it is not there, and
    then refuses with [ValueError] a dictionary that names a recipient
    in [to]. Every dictionary [create_mint_transaction] makes names one.
    The node and the signer are those of [contract_with]. *)
Definition bound_contract (functions : list (string * nat)) (ready : result bool)
    (receipts : nat -> result (option receipt)) : rpc :=
  let w := contract_with functions ready receipts in
  {| call_isPublicMintActive := call_isPublicMintActive w;
     call_mintActive := call_mintActive w;
     eth_get_transaction_count := eth_get_transaction_count w;
     node_gas := node_gas w;
     eth_chain_id := eth_chain_id w;
     eth_estimate_gas := eth_estimate_gas w;
     build_transaction := fun fn args tx =>
       if existsb (fun f => String.eqb (fst f) fn && Nat.eqb (snd f) (length args))
                  functions
       then Raise ValueError else Raise MismatchedABI;
     sign_transaction := sign_transaction w;
     eth_send_raw_transaction := eth_send_raw_transaction w;
     eth_get_transaction_receipt := eth_get_transaction_receipt w |}.

(** The contract of [mint_confirmed], bound to its address: it has
    [mint()], the mint is open and a transaction would be confirmed. *)
Definition mint_bound : rpc :=
  bound_contract [("mint", 0%nat)] (Ok true) (receipt_at 2 1).

(** ** The order of the events of an attempt *)

(** The step of an attempt an event belongs to: asking the contract,
    putting the transaction together, encoding the call, signing,
    submitting, waiting for the receipt. *)
Definition step_of (ev : event) : nat :=
  match ev with
  | EvQuery _ => 0
  | EvTxDict => 1
  | EvEncode _ _ => 2
  | EvSign => 3
  | EvSend => 4
  | EvPoll _ => 5
  | EvSleep _ => 5
  end.

(** Whether the events of a log come in the order of the steps, none
    of a step before [from]. *)
Fixpoint in_step_order (from : nat) (log : list event) : bool :=
  match log with
  | [] => true
  | ev :: rest => (from <=? step_of ev)%nat && in_step_order (step_of ev) rest
  end.


(** * Properties *)

(** ** Gas pricing *)

Lemma from_wei_nonzero number unit_value v :
  number <> 0 -> from_wei number unit_value = Ok v -> exists q, v = PyDecimal q.
Proof.
  unfold from_wei. intros Hnz.
  destruct (Z.eqb_spec number 0) as [|_]; [contradiction|].
  destruct (_ || _); [discriminate|].
  intros [= <-]. eauto.
Qed.

(** The [try] block never reaches its [return]: once a base fee is read,
    the product of the [Decimal] from [from_wei] and the [float] 0.1
    raises. *)
Lemma dynamic_fee_no_return self w params :
  dynamic_fee self w <> Ok (Some params).
Proof.
  unfold dynamic_fee. destruct (latest_base_fee w) as [base_fee|e]; cbn; [|discriminate].
  destruct (Z.eqb_spec base_fee 0) as [|Hnz]; cbn; [discriminate|].
  destruct (from_wei base_fee gwei) as [v|e] eqn:Hfw; cbn; [|discriminate].
  destruct (from_wei_nonzero _ _ _ Hnz Hfw) as [q ->]. cbn. discriminate.
Qed.

Lemma get_current_gas_price_legacy self w :
  get_current_gas_price self w = legacy_fee self w.
Proof.
  unfold get_current_gas_price.
  destruct (dynamic_fee self w) as [[params|]|e] eqn:H; try reflexivity.
  exfalso. exact (dynamic_fee_no_return _ _ _ H).
Qed.

Lemma to_wei_int_gwei n :
  0 <= n * gwei <= MAX_WEI -> to_wei (PyInt n) gwei = Ok (n * gwei).
Proof.
  intros [Hlo Hhi]. unfold to_wei. cbn [num_value].
  destruct (Qeq_bool (inject_Z n) 0) eqn:Hz.
  - apply Qeq_bool_eq in Hz. unfold Qeq in Hz. cbn in Hz.
    assert (n = 0) by lia. subst. reflexivity.
  - assert (Heq : (inject_Z n * inject_Z gwei == inject_Z (n * gwei))%Q)
      by (rewrite inject_Z_mult; reflexivity).
    assert (H1 : Qle_bool (inject_Z MIN_WEI) (inject_Z n * inject_Z gwei) = true).
    { apply Qle_bool_iff. rewrite Heq. rewrite <- Zle_Qle. exact Hlo. }
    assert (H2 : Qle_bool (inject_Z n * inject_Z gwei) (inject_Z MAX_WEI) = true).
    { apply Qle_bool_iff. rewrite Heq. rewrite <- Zle_Qle. exact Hhi. }
    rewrite H1, H2. cbn [negb orb]. f_equal.
    rewrite Heq. apply Qfloor_Z.
Qed.

(** The rule of the specification does not keep the maximum fee above the
    priority fee when the gas ceiling is below both bounds of the priority
    fee: a base fee of 100 gwei with ceilings of 1 and 2 gwei gives a
    maximum fee of 1 gwei and a priority fee of 2 gwei. *)
Remark spec_computeGasParams_low_ceiling :
  (fst (spec_computeGasParams 100 1 2) == 1)%Q
  /\ (snd (spec_computeGasParams 100 1 2) == 2)%Q.
Proof. split; reflexivity. Qed.

(** C1. With a base fee of 20 gwei and the ceilings 100 and 2 gwei, the
    rule of the specification gives a priority fee of 2 gwei and a maximum
    fee of 22 gwei. [get_current_gas_price] raises [TypeError] inside its
    [try] block, at the product of the [Decimal] base fee and the [float]
    0.1, and returns the legacy form priced at the node's gas price. It
    returns the dynamic-fee form for no base fee at all. *)
Theorem get_current_gas_price_scenario_A :
  get_current_gas_price default_bot scenario_A = Ok (Legacy (21 * gwei))
  /\ dynamic_fee default_bot scenario_A = Raise TypeError
  /\ (fst (spec_computeGasParams 20 100 2) == 22)%Q
  /\ (snd (spec_computeGasParams 20 100 2) == 2)%Q
  /\ forall self w fee priority,
       get_current_gas_price self w <> Ok (DynamicFee fee priority).
Proof.
  repeat split.
  intros self w fee priority. rewrite get_current_gas_price_legacy.
  unfold legacy_fee.
  destruct (eth_gas_price w); cbn; [|discriminate].
  destruct (to_wei _ gwei); cbn; discriminate.
Qed.

(** C8, as the claim states it: with a node that answers neither the
    block query nor the gas price query, [get_current_gas_price] raises. *)
Lemma get_current_gas_price_raises :
  get_current_gas_price default_bot node_down = Raise RPCError.
Proof. reflexivity. Qed.

(** C8, amended. Whatever goes wrong while the base fee is fetched, the
    legacy path is taken: with a ceiling that converts to wei, the result
    is the smaller of the node's gas price and the ceiling in wei, and the
    only exception that leaves the function is the one of the gas price
    query. *)
Theorem get_current_gas_price_fallback self w e :
  latest_base_fee w = Raise e ->
  0 <= max_gas_price self * gwei <= MAX_WEI ->
  (forall g, eth_gas_price w = Ok g ->
     get_current_gas_price self w = Ok (Legacy (Z.min g (max_gas_price self * gwei))))
  /\ (forall e', eth_gas_price w = Raise e' ->
        get_current_gas_price self w = Raise e').
Proof.
  intros Hfee Hceil. unfold get_current_gas_price, dynamic_fee.
  rewrite Hfee. cbn. unfold legacy_fee. split.
  - intros g ->. cbn. rewrite (to_wei_int_gwei _ Hceil). reflexivity.
  - intros e' ->. reflexivity.
Qed.

(** Scenario B: a legacy gas price of 150 gwei under a ceiling of 100 gwei
    is capped at 100 gwei. *)
Lemma get_current_gas_price_scenario_B :
  latest_base_fee scenario_B = Raise KeyError
  /\ get_current_gas_price default_bot scenario_B = Ok (Legacy (100 * gwei)).
Proof.
  split; [reflexivity|].
  refine (proj1 (get_current_gas_price_fallback default_bot scenario_B KeyError
                   eq_refl _) (150 * gwei) eq_refl).
  vm_compute. split; discriminate.
Defined.

(** ** Readiness *)

(** C7. When both readiness queries raise, [check_mint_status] returns
    true, and so does every one of any number of calls made while the
    queries stay unavailable. *)
Theorem check_mint_status_default w e1 e2 :
  call_isPublicMintActive w = Raise e1 ->
  call_mintActive w = Raise e2 ->
  snd (check_mint_status w) = Ok true
  /\ forall ws : list rpc,
       Forall (fun w' => exists e1' e2',
                 call_isPublicMintActive w' = Raise e1'
                 /\ call_mintActive w' = Raise e2') ws ->
       map (fun w' => snd (check_mint_status w')) ws
       = repeat (Ok true) (length ws).
Proof.
  intros H1 H2. split.
  - unfold check_mint_status. rewrite H1, H2. reflexivity.
  - induction 1 as [|w' ws' (e1' & e2' & H1' & H2') _ IH]; [reflexivity|].
    cbn [map length repeat]. rewrite IH. f_equal.
    unfold check_mint_status. rewrite H1', H2'. reflexivity.
Qed.

(** A contract without the two queries: three calls, three times true. *)
Lemma check_mint_status_default_mintPublic_only :
  snd (check_mint_status mintPublic_only) = Ok true
  /\ map (fun w' => snd (check_mint_status w'))
         [mintPublic_only; mintPublic_only; mintPublic_only]
     = [Ok true; Ok true; Ok true].
Proof.
  pose proof (check_mint_status_default mintPublic_only ValueError ValueError
                eq_refl eq_refl) as [H1 H2].
  split; [exact H1|].
  apply (H2 [mintPublic_only; mintPublic_only; mintPublic_only]).
  repeat constructor; exists ValueError, ValueError; split; reflexivity.
Defined.

(** ** Building *)

Lemma io_bind_lift {A B : Type} (r : result A) (k : A -> io B) :
  mbind k (lift r) = match r with Ok a => k a | Raise e => ([], Raise e) end.
Proof. destruct r as [a|e]; cbn; [destruct (k a)|]; reflexivity. Qed.

Lemma io_bind_tell {B : Type} (ev : event) (k : unit -> io B) :
  mbind k (tell ev) = (ev :: fst (k tt), snd (k tt)).
Proof. cbn. destruct (k tt). reflexivity. Qed.

(** C2, as the claim states it: against a contract whose interface has
    only [mintPublic()], the builder tries [mint()] and [publicMint()] and
    returns [None], although the third candidate of the claim encodes. *)
Lemma create_mint_transaction_skips_mintPublic :
  create_mint_transaction default_bot mintPublic_only
  = ([EvTxDict; EvEncode "mint" []; EvEncode "publicMint" []], Ok None)
  /\ build_transaction mintPublic_only "mintPublic" [] candidate_tx
     = Ok (with_data candidate_tx "mintPublic").
Proof. split; reflexivity. Qed.

(** C2, amended. The builder probes two candidates in a fixed order,
    [mint()] and then [publicMint()], by calling [build_transaction] with
    the transaction it has put together from the bot's address to the
    contract: what the first call that returns gives is returned, the
    second call is made only when the first raises, and [None] is
    returned exactly when both raise. *)
Theorem create_mint_transaction_probes self w log r :
  create_mint_transaction self w = (log, Ok r) ->
  exists tx,
    tx_from tx = public_key self /\ tx_to tx = contract_address self /\
    match build_transaction w "mint" [] tx with
    | Ok t => encodings log = [("mint", [])] /\ r = Some t
    | Raise _ =>
        encodings log = [("mint", []); ("publicMint", [])]
        /\ match build_transaction w "publicMint" [] tx with
           | Ok t => r = Some t
           | Raise _ => r = None
           end
    end.
Proof.
  unfold create_mint_transaction.
  rewrite io_bind_lift.
  destruct (eth_get_transaction_count w (public_key self)) as [nonce|]; [|discriminate].
  rewrite io_bind_lift.
  destruct (get_current_gas_price self (node_gas w)) as [params|]; [|discriminate].
  rewrite io_bind_lift.
  destruct (to_wei (PyFloat (mint_price self)) ether) as [value|]; [|discriminate].
  rewrite io_bind_lift.
  destruct (eth_chain_id w) as [chain|]; [|discriminate].
  rewrite io_bind_tell. cbn -[build_transaction]. intros H.
  match type of H with
  | context [build_transaction w "mint" [] ?t] => exists t
  end.
  split; [reflexivity|]. split; [reflexivity|].
  destruct (build_transaction w "mint" [] _) as [t|]; cbn -[build_transaction] in H.
  - injection H as <- <-. split; reflexivity.
  - destruct (build_transaction w "publicMint" [] _) as [t|]; cbn in H;
      injection H as <- <-; split; reflexivity.
Qed.

(** Against a contract that has [mint()] and is bound to its address,
    both calls are made and both raise: the builder returns [None]. *)
Lemma create_mint_transaction_probes_mint_bound :
  create_mint_transaction default_bot mint_bound
  = ([EvTxDict; EvEncode "mint" []; EvEncode "publicMint" []], Ok None)
  /\ exists tx,
       tx_from tx = public_key default_bot /\ tx_to tx = contract_address default_bot /\
       match build_transaction mint_bound "mint" [] tx with
       | Ok t =>
           encodings [EvTxDict; EvEncode "mint" []; EvEncode "publicMint" []]
           = [("mint", [])]
           /\ None = Some t
       | Raise _ =>
           encodings [EvTxDict; EvEncode "mint" []; EvEncode "publicMint" []]
           = [("mint", []); ("publicMint", [])]
           /\ match build_transaction mint_bound "publicMint" [] tx with
              | Ok t => None = Some t
              | Raise _ => @None transaction = None
              end
       end.
Proof.
  split; [reflexivity|].
  exact (create_mint_transaction_probes default_bot mint_bound _ _ eq_refl).
Defined.

(** ** Confirmation *)

Lemma polls_S a k : polls a (S k) = EvPoll a :: EvSleep 2 :: polls (S a) k.
Proof. reflexivity. Qed.

(** [k] polls without a receipt leave the loop where it would be after
    [k] iterations. *)
Lemma wait_loop_skip w tx_hash k :
  forall remaining a,
    (forall i, (i < k)%nat -> no_receipt (eth_get_transaction_receipt w tx_hash (a + i))) ->
    wait_loop w tx_hash (k + remaining) a
    = (polls a k ++ fst (wait_loop w tx_hash remaining (a + k)),
       snd (wait_loop w tx_hash remaining (a + k))).
Proof.
  induction k as [|k IH]; intros remaining a Hno.
  - cbn. rewrite Nat.add_0_r. destruct (wait_loop _ _ _ _). reflexivity.
  - assert (H0 : no_receipt (eth_get_transaction_receipt w tx_hash a)).
    { specialize (Hno 0%nat). rewrite Nat.add_0_r in Hno. apply Hno. lia. }
    assert (IH' := IH remaining (S a)).
    rewrite polls_S. cbn [Nat.add wait_loop].
    replace (a + S k)%nat with (S a + k)%nat by lia.
    rewrite io_bind_tell.
    rewrite IH'.
    2:{ intros i Hi. replace (S a + i)%nat with (a + S i)%nat by lia. apply Hno. lia. }
    destruct H0 as [-> | ->]; rewrite io_bind_tell; reflexivity.
Qed.

Lemma count_polls_app l1 l2 : count_polls (l1 ++ l2) = (count_polls l1 + count_polls l2)%nat.
Proof. unfold count_polls. rewrite List.filter_app, length_app. reflexivity. Qed.

Lemma count_polls_wait_loop w tx_hash remaining :
  forall a, (count_polls (fst (wait_loop w tx_hash remaining a)) <= remaining)%nat.
Proof.
  induction remaining as [|n IH]; intros a; [cbn; lia|].
  cbn [wait_loop]. rewrite io_bind_tell. cbn [fst].
  change (count_polls (EvPoll a :: ?l)) with (S (count_polls l)).
  apply le_n_S.
  specialize (IH (S a)).
  destruct (eth_get_transaction_receipt w tx_hash a) as [[r|]|e].
  - destruct (status r =? 1); cbn; lia.
  - rewrite io_bind_tell. cbn [fst].
    change (count_polls (EvSleep ?q :: ?l)) with (count_polls l). exact IH.
  - destruct e; try (cbn; lia).
    rewrite io_bind_tell. cbn [fst].
    change (count_polls (EvSleep ?q :: ?l)) with (count_polls l). exact IH.
Qed.

(** ** One attempt *)

Lemma io_bind_eq {A B : Type} (m : io A) (k : A -> io B) :
  mbind k m
  = match m with
    | (log, Ok a) => (log ++ fst (k a), snd (k a))
    | (log, Raise e) => (log, Raise e)
    end.
Proof. destruct m as [log [a|e]]; cbn; [destruct (k a)|]; reflexivity. Qed.

Lemma wait_value_confirmation x :
  wait_value x = true <-> confirmation x = ConfirmedSuccess.
Proof. destruct x; cbn; split; congruence. Qed.

(** An attempt either reaches the confirmation wait, and then its exit,
    its value and its effect on the success counter are those of the wait;
    or it ends before, returns false and leaves the bot as it was. *)
Lemma attempt_mint_inv self w :
  let r := snd (attempt_mint self w) in
  (exists tx_hash x,
     snd (wait_for_transaction w tx_hash) = Ok x
     /\ att_exit r = confirmation x
     /\ att_return r = wait_value x
     /\ att_self r = if wait_value x
                     then set_successful_mints self (successful_mints self + 1)
                     else self)
  \/ (att_return r = false /\ att_self r = self
      /\ forall x, att_exit r <> confirmation x).
Proof.
  assert (Hx : forall x, NotReady <> confirmation x /\ BuildFailure <> confirmation x
                         /\ SendFailure <> confirmation x
                         /\ forall e, CaughtException e <> confirmation x)
    by (intros []; cbn; repeat split; intros; discriminate).
  unfold attempt_mint, attempt_body.
  rewrite io_bind_eq.
  destruct (check_mint_status w) as [l1 [ready|e]];
    [|right; cbn; repeat split; intros x; apply Hx].
  destruct ready; cbn [negb]; [|right; cbn; repeat split; intros x; apply Hx].
  rewrite io_bind_eq.
  destruct (create_mint_transaction self w) as [l2 [[tx|]|e]];
    [|right; cbn; repeat split; intros x; apply Hx
     |right; cbn; repeat split; intros x; apply Hx].
  rewrite io_bind_tell, io_bind_lift.
  destruct (sign_transaction w tx (private_key self)) as [signed|e];
    [|right; cbn; repeat split; intros x; apply Hx].
  rewrite io_bind_eq.
  destruct (send_transaction w signed) as [l3 [tx_hash|e]];
    [|right; cbn; repeat split; intros x; apply Hx].
  destruct (nonempty tx_hash) as [h|];
    [|right; cbn; repeat split; intros x; apply Hx].
  rewrite io_bind_eq.
  destruct (wait_for_transaction w h) as [l4 [x|e]] eqn:Hw;
    [|right; cbn; repeat split; intros x; apply Hx].
  left. exists h, x. rewrite Hw. cbn. repeat split.
Qed.

(** An attempt either ends in [ConfirmedSuccess], returns true and has
    added one to the success counter, or ends anywhere else, returns false
    and has left the bot as it was. *)
Lemma attempt_mint_cases self w :
  let r := snd (attempt_mint self w) in
  (att_exit r = ConfirmedSuccess /\ att_return r = true
   /\ att_self r = set_successful_mints self (successful_mints self + 1))
  \/ (att_exit r <> ConfirmedSuccess /\ att_return r = false /\ att_self r = self).
Proof.
  cbv zeta.
  destruct (attempt_mint_inv self w) as [(h & x & _ & He & Hr & Hs)|(Hr & Hs & He)].
  - rewrite He, Hr, Hs. destruct x; cbn; [left|right|right]; repeat split; discriminate.
  - right. repeat split; try assumption. exact (He ReceiptSuccess).
Qed.

(** ** The mint loop *)

(** After an attempt that returned false the loop sleeps the retry delay
    and goes on to the next attempt. *)
Lemma run_continuous_mint_failed target self w ws :
  successful_mints self < target ->
  let self1 := set_total_attempts self (total_attempts self + 1) in
  let r := snd (attempt_mint self1 w) in
  att_return r = false ->
  run_continuous_mint target self (w :: ws)
  = after {| it_number := total_attempts self + 1;
             it_log := fst (attempt_mint self1 w);
             it_exit := att_exit r;
             it_sleep := Some (retry_delay self) |}
          (run_continuous_mint target self1 ws).
Proof.
  intros Hlt self1 r Hret. cbn [run_continuous_mint].
  apply Z.ltb_lt in Hlt. rewrite Hlt.
  fold self1.
  destruct (attempt_mint_cases self1 w) as [(_ & Ht & _)|(_ & _ & Hs)];
    [fold r in Ht; congruence|].
  fold r in Hs. subst r.
  destruct (attempt_mint self1 w) as [log r]. cbn [fst snd] in *.
  rewrite Hret, Hs. reflexivity.
Qed.

(** C5. The confirmation wait polls at most 30 times, two seconds apart.
    A receipt at one of the polls ends the wait: status 1 makes the attempt
    end as [ConfirmedSuccess], any other status as [ConfirmedFailure].
    Thirty polls without a receipt, which is 60 seconds of sleep, make it
    end as [TimedOut]. An attempt that ended as [TimedOut] returned false
    and left the success counter alone, and the mint loop sleeps the retry
    delay and starts the next attempt. *)
Theorem wait_for_transaction_polls self w :
  let self1 := set_total_attempts self (total_attempts self + 1) in
  let r := snd (attempt_mint self1 w) in
  (forall tx_hash,
     let answer := eth_get_transaction_receipt w tx_hash in
     (count_polls (fst (wait_for_transaction w tx_hash)) <= 30)%nat
     /\ (forall k rc, (k < 30)%nat ->
           (forall i, (i < k)%nat -> no_receipt (answer i)) ->
           answer k = Ok (Some rc) ->
           wait_for_transaction w tx_hash
           = (polls 0 k ++ [EvPoll k],
              Ok (if status rc =? 1 then ReceiptSuccess else ReceiptFailure)))
     /\ ((forall i, (i < 30)%nat -> no_receipt (answer i)) ->
           wait_for_transaction w tx_hash = (polls 0 30, Ok Pending)
           /\ (slept (polls 0 30) == 60)%Q))
  /\ (forall x, att_exit r = confirmation x ->
        exists tx_hash, snd (wait_for_transaction w tx_hash) = Ok x)
  /\ (att_exit r = TimedOut ->
        att_return r = false
        /\ successful_mints (att_self r) = successful_mints self
        /\ forall target ws,
             successful_mints self < target ->
             run_continuous_mint target self (w :: ws)
             = after {| it_number := total_attempts self + 1;
                        it_log := fst (attempt_mint self1 w);
                        it_exit := TimedOut;
                        it_sleep := Some (retry_delay self) |}
                     (run_continuous_mint target self1 ws)).
Proof.
  intros self1 r. split; [|split].
  - intros tx_hash answer. split; [|split].
    + apply count_polls_wait_loop.
    + intros k rc Hk Hno Hrc. unfold wait_for_transaction, max_attempts.
      replace 30%nat with (k + S (29 - k))%nat by lia.
      rewrite wait_loop_skip by (intros i Hi; apply Hno; exact Hi).
      cbn [Nat.add wait_loop]. rewrite io_bind_tell.
      fold answer. rewrite Hrc.
      destruct (status rc =? 1); reflexivity.
    + intros Hno. split; [|reflexivity].
      unfold wait_for_transaction, max_attempts.
      replace 30%nat with (30 + 0)%nat at 1 by lia.
      rewrite wait_loop_skip by (intros i Hi; apply Hno; exact Hi).
      cbn [wait_loop fst snd mret io_ret]. rewrite app_nil_r. reflexivity.
  - intros x Hx.
    destruct (attempt_mint_inv self1 w) as [(h & x' & Hw & He & _)|(_ & _ & He)].
    + fold r in He. rewrite He in Hx.
      assert (x' = x) by (destruct x, x'; cbn in Hx; congruence).
      subst. eauto.
    + exfalso. exact (He x Hx).
  - intros Hto.
    destruct (attempt_mint_cases self1 w) as [(He & _)|(_ & Hret & Hs)].
    + fold r in He. congruence.
    + fold r in Hret, Hs. split; [exact Hret|]. split; [rewrite Hs; reflexivity|].
      intros target ws Hlt. rewrite <- Hto.
      apply run_continuous_mint_failed; assumption.
Qed.

(** Scenario C: the receipt never appears. The wait makes its 30 polls
    and gives up, the attempt ends as [TimedOut] with the success counter
    unchanged, and the loop sleeps the retry delay before the second
    attempt. A receipt with status 1 at the third poll ends the wait
    there. *)
Lemma wait_for_transaction_scenario_C :
  (wait_for_transaction mint_unconfirmed "0xabc" = (polls 0 30, Ok Pending)
   /\ (slept (polls 0 30) == 60)%Q)
  /\ wait_for_transaction mint_confirmed "0xabc"
     = (polls 0 2 ++ [EvPoll 2%nat], Ok ReceiptSuccess)
  /\ att_exit (snd (attempt_mint (set_total_attempts default_bot 1) mint_unconfirmed))
     = TimedOut
  /\ successful_mints
       (att_self (snd (attempt_mint (set_total_attempts default_bot 1) mint_unconfirmed)))
     = 0
  /\ map it_sleep
       (fst (run_continuous_mint 1 default_bot [mint_unconfirmed; mint_confirmed]))
     = [Some (1 # 2); None].
Proof.
  pose proof (wait_for_transaction_polls default_bot mint_unconfirmed) as H.
  pose proof (wait_for_transaction_polls default_bot mint_confirmed) as H'.
  cbv zeta in H, H'.
  destruct H as (Hw & _ & Hto). destruct H' as (Hw' & _).
  destruct (Hw "0xabc") as (_ & _ & Hp).
  destruct (Hw' "0xabc") as (_ & Hr & _).
  assert (T : att_exit (snd (attempt_mint (set_total_attempts default_bot 1)
                                          mint_unconfirmed)) = TimedOut)
    by (vm_compute; reflexivity).
  destruct (Hto T) as (_ & Hs & Hrun).
  split; [|split; [|split; [|split]]].
  - apply Hp. intros i _. right. reflexivity.
  - apply (Hr 2%nat {| status := 1 |}); [lia| |reflexivity].
    intros i Hi. right. unfold mint_confirmed, contract_with, receipt_at. cbn.
    destruct i as [|[|i]]; [reflexivity|reflexivity|lia].
  - exact T.
  - exact Hs.
  - rewrite (Hrun 1 [mint_confirmed] eq_refl). vm_compute. reflexivity.
Defined.

Lemma count_success_cons it its :
  count_success (it :: its)
  = (if is_confirmed_success (it_exit it) then 1 else 0) + count_success its.
Proof.
  unfold count_success. cbn [List.filter].
  destruct (is_confirmed_success (it_exit it)); cbn [length]; lia.
Qed.

Lemma count_success_nonneg its : 0 <= count_success its.
Proof. unfold count_success. lia. Qed.

(** What the loop has done when it returns or runs out of answers. *)
Lemma run_continuous_mint_spec target ws :
  forall self its res,
    run_continuous_mint target self ws = (its, res) ->
    let self' := run_self res in
    total_attempts self' = total_attempts self + Z.of_nat (length its)
    /\ successful_mints self' = successful_mints self + count_success its
    /\ retry_delay self' = retry_delay self
    /\ Forall (fun it => it_sleep it = sleep_after self (it_exit it)) its
    /\ match res with
       | Returned _ =>
           target <= successful_mints self'
           /\ (successful_mints self < target -> successful_mints self' = target)
       | Running _ =>
           successful_mints self' < target /\ length its = length ws
       end.
Proof.
  induction ws as [|w ws IH]; intros self its res H; cbn [run_continuous_mint] in H.
  - destruct (Z.ltb_spec (successful_mints self) target) as [Hlt|Hge];
      injection H as <- <-; cbn; repeat split; try constructor; try lia;
      try (unfold count_success; cbn; lia).
  - destruct (Z.ltb_spec (successful_mints self) target) as [Hlt|Hge].
    2:{ injection H as <- <-; cbn; repeat split; try constructor; try lia;
        unfold count_success; cbn; lia. }
    set (self1 := set_total_attempts self (total_attempts self + 1)) in *.
    pose proof (attempt_mint_cases self1 w) as Hc. cbv zeta in Hc.
    change (successful_mints self1) with (successful_mints self) in Hc.
    destruct (attempt_mint self1 w) as [log r]. cbn [snd] in Hc.
    destruct Hc as [(He & Hret & Hs)|(He & Hret & Hs)]; rewrite Hret, Hs in H;
      cbn [andb negb] in H.
    + cbn [successful_mints set_successful_mints] in H.
      destruct (Z.leb_spec target (successful_mints self + 1)) as [Hle|Hgt].
      * injection H as <- <-. cbn [run_self length].
        rewrite count_success_cons. cbn [it_exit]. rewrite He.
        change (count_success []) with 0. cbn.
        repeat split; try lia.
        constructor; [|constructor]. cbn. unfold sleep_after. rewrite ?He. reflexivity.
      * unfold after in H.
        destruct (run_continuous_mint target _ ws) as [its' res'] eqn:Hrun.
        cbn [fst snd] in H. injection H as <- <-.
        specialize (IH _ _ _ Hrun). cbv zeta in IH.
        destruct IH as (Ht & Hsucc & Hd & Hsl & Hres).
        cbn [successful_mints total_attempts retry_delay set_successful_mints
               set_total_attempts self1] in *.
        rewrite count_success_cons. cbn [it_exit length]. rewrite He. cbn [is_confirmed_success].
        repeat split; try lia; try assumption.
        -- constructor; [cbn; unfold sleep_after; rewrite ?He; reflexivity|].
           exact Hsl.
        -- destruct res'; cbn [length]; lia.
    + unfold after in H.
      destruct (run_continuous_mint target self1 ws) as [its' res'] eqn:Hrun.
      cbn [fst snd] in H. injection H as <- <-.
      specialize (IH _ _ _ Hrun). cbv zeta in IH.
      destruct IH as (Ht & Hsucc & Hd & Hsl & Hres).
      cbn [successful_mints total_attempts retry_delay set_total_attempts self1] in *.
      assert (Hf : is_confirmed_success (att_exit r) = false)
        by (destruct (att_exit r); try reflexivity; congruence).
      rewrite count_success_cons. cbn [it_exit length]. rewrite Hf.
      repeat split; try lia; try assumption.
      * constructor; [cbn; unfold sleep_after; rewrite ?Hf; reflexivity|].
        exact Hsl.
      * destruct res'; cbn [length]; lia.
Qed.

Lemma count_success_le_length its : count_success its <= Z.of_nat (length its).
Proof.
  induction its as [|it its IH]; [reflexivity|].
  rewrite count_success_cons. cbn [length].
  destruct (is_confirmed_success (it_exit it)); lia.
Qed.

(** Walks through the steps of [attempt_body] for the bot [self] and the
    answers [w], closing each way out by computation. *)
Ltac attempt_paths self w :=
  rewrite ?io_bind_eq;
  destruct (check_mint_status w) as [? [[|]|?]]; cbn [negb]; try reflexivity;
  rewrite ?io_bind_eq;
  destruct (create_mint_transaction self w) as [? [[?|]|?]]; try reflexivity;
  rewrite ?io_bind_tell, ?io_bind_lift;
  destruct (sign_transaction w _ (private_key self)) as [?|?]; try reflexivity;
  rewrite ?io_bind_eq;
  destruct (send_transaction w _) as [? [tx_hash|?]]; try reflexivity;
  destruct (nonempty tx_hash) as [?|]; try reflexivity;
  rewrite ?io_bind_eq;
  destruct (wait_for_transaction w _) as [? [?|?]]; reflexivity.

(** The counters of the bot play no part in how an attempt ends. *)
Lemma succeeds_total_attempts self n w :
  succeeds (set_total_attempts self n) w = succeeds self w.
Proof.
  unfold succeeds, attempt_mint, attempt_body.
  change (create_mint_transaction (set_total_attempts self n) w)
    with (create_mint_transaction self w).
  cbn [private_key set_total_attempts].
  attempt_paths self w.
Qed.

Lemma succeeds_successful_mints self n w :
  succeeds (set_successful_mints self n) w = succeeds self w.
Proof.
  unfold succeeds, attempt_mint, attempt_body.
  change (create_mint_transaction (set_successful_mints self n) w)
    with (create_mint_transaction self w).
  cbn [private_key set_successful_mints].
  attempt_paths self w.
Qed.

Lemma offers_cons self w ws :
  offers self (w :: ws) = (if succeeds self w then 1 else 0) + offers self ws.
Proof.
  unfold offers. cbn [List.filter]. destruct (succeeds self w); cbn [length]; lia.
Qed.

Lemma offers_total_attempts self n ws :
  offers (set_total_attempts self n) ws = offers self ws.
Proof.
  induction ws as [|w ws IH]; [reflexivity|].
  rewrite !offers_cons, IH, succeeds_total_attempts. reflexivity.
Qed.

Lemma offers_successful_mints self n ws :
  offers (set_successful_mints self n) ws = offers self ws.
Proof.
  induction ws as [|w ws IH]; [reflexivity|].
  rewrite !offers_cons, IH, succeeds_successful_mints. reflexivity.
Qed.

(** Given answers that offer enough successful attempts, the loop
    returns. *)
Lemma run_continuous_mint_returns target ws :
  forall self,
    target - successful_mints self <= offers self ws ->
    exists self', snd (run_continuous_mint target self ws) = Returned self'.
Proof.
  induction ws as [|w ws IH]; intros self Hoff; cbn [run_continuous_mint].
  - change (offers self []) with 0 in Hoff.
    destruct (Z.ltb_spec (successful_mints self) target); [lia|eauto].
  - destruct (Z.ltb_spec (successful_mints self) target) as [Hlt|Hge]; [|eauto].
    set (self1 := set_total_attempts self (total_attempts self + 1)) in *.
    rewrite offers_cons in Hoff.
    pose proof (succeeds_total_attempts self (total_attempts self + 1) w) as Hsu.
    fold self1 in Hsu. unfold succeeds in Hsu at 1.
    pose proof (attempt_mint_cases self1 w) as Hc. cbv zeta in Hc.
    change (successful_mints self1) with (successful_mints self) in Hc.
    destruct (attempt_mint self1 w) as [log r]. cbn [snd] in Hc, Hsu.
    destruct Hc as [(He & Hret & Hs)|(He & Hret & Hs)]; rewrite Hret, Hs;
      rewrite Hret in Hsu; rewrite <- Hsu in Hoff; cbn [andb negb].
    + cbn [successful_mints set_successful_mints].
      destruct (Z.leb_spec target (successful_mints self + 1)); [eauto|].
      unfold after. cbn [snd]. apply IH.
      rewrite offers_successful_mints. unfold self1.
      rewrite offers_total_attempts. cbn [successful_mints set_successful_mints]. lia.
    + unfold after. cbn [snd]. apply IH.
      unfold self1. rewrite offers_total_attempts.
      cbn [successful_mints set_total_attempts]. lia.
Qed.

(** C4. Started below the target, the loop makes one attempt per
    iteration and counts the confirmed ones. It returns exactly when the
    success counter equals the target, and as long as the counter is below
    the target it goes on to a further attempt, so every answer on offer
    is used: no number of unsuccessful attempts stops it, and
    [max_retries] plays no part. Given answers that offer as many
    successful attempts as the counter is short of the target, it returns.
    After an attempt that did not end in [ConfirmedSuccess] it sleeps the
    retry delay, after one that did it does not sleep. Once the counter
    has reached the target no attempt is made. *)
Theorem run_continuous_mint_until_target target self ws its res :
  run_continuous_mint target self ws = (its, res) ->
  successful_mints self < target ->
  let self' := run_self res in
  total_attempts self' = total_attempts self + Z.of_nat (length its)
  /\ successful_mints self' = successful_mints self + count_success its
  /\ match res with
     | Returned _ => successful_mints self' = target
     | Running _ => successful_mints self' < target /\ length its = length ws
     end
  /\ (count_success its = 0 -> res = Running self' /\ length its = length ws)
  /\ (target - successful_mints self <= offers self ws -> res = Returned self')
  /\ Forall (fun it => it_sleep it = sleep_after self (it_exit it)) its
  /\ (forall done more,
        target <= successful_mints done ->
        run_continuous_mint target done more = ([], Returned done)).
Proof.
  intros Hrun Hlt self'.
  destruct (run_continuous_mint_spec _ _ _ _ _ Hrun) as (Ht & Hs & _ & Hsl & Hres).
  fold self' in Ht, Hs, Hres.
  repeat split; try assumption.
  - destruct res; [apply Hres; exact Hlt | exact Hres].
  - destruct res; cbn in *; [lia | reflexivity].
  - destruct res; [lia | apply Hres].
  - intros Hoff. destruct (run_continuous_mint_returns _ _ _ Hoff) as [self1 H1].
    rewrite Hrun in H1. cbn [snd] in H1. subst res. reflexivity.
  - intros done more Hge. destruct more; cbn [run_continuous_mint];
      destruct (Z.ltb_spec (successful_mints done) target); try lia; reflexivity.
Qed.

(** Scenario D, and sixty failures in a row: with a target of 3 the loop
    returns after the fifth attempt, which is the third confirmed one, and
    leaves the sixth answer unused; with a target of 1 and sixty reverted
    transactions it has made sixty attempts and is still running. *)
Lemma run_continuous_mint_scenario_D :
  (exits (fst (run_continuous_mint 3 default_bot scenario_D))
   = [TimedOut; ConfirmedSuccess; ConfirmedFailure; ConfirmedSuccess; ConfirmedSuccess]
   /\ map it_sleep (fst (run_continuous_mint 3 default_bot scenario_D))
      = [Some (1 # 2); None; Some (1 # 2); None; None]
   /\ (exists self', snd (run_continuous_mint 3 default_bot scenario_D) = Returned self'
                     /\ successful_mints self' = 3 /\ total_attempts self' = 5)
   /\ successful_mints (run_self (snd (run_continuous_mint 3 default_bot scenario_D)))
      = successful_mints default_bot
        + count_success (fst (run_continuous_mint 3 default_bot scenario_D)))
  /\ ((exists self', snd (run_continuous_mint 1 default_bot sixty_reverts) = Running self'
                     /\ total_attempts self' = 60 /\ max_retries self' = 50)
      /\ length (fst (run_continuous_mint 1 default_bot sixty_reverts))
         = length sixty_reverts).
Proof.
  assert (E : run_continuous_mint 3 default_bot scenario_D
              = (fst (run_continuous_mint 3 default_bot scenario_D),
                 snd (run_continuous_mint 3 default_bot scenario_D)))
    by apply surjective_pairing.
  assert (E' : run_continuous_mint 1 default_bot sixty_reverts
               = (fst (run_continuous_mint 1 default_bot sixty_reverts),
                  snd (run_continuous_mint 1 default_bot sixty_reverts)))
    by apply surjective_pairing.
  assert (L : successful_mints default_bot < 3) by reflexivity.
  assert (L' : successful_mints default_bot < 1) by reflexivity.
  pose proof (run_continuous_mint_until_target _ _ _ _ _ E L) as H.
  pose proof (run_continuous_mint_until_target _ _ _ _ _ E' L') as H'.
  cbv zeta in H, H'.
  destruct H as (_ & Hs & _).
  destruct H' as (_ & _ & _ & Hnone & _).
  assert (N : count_success (fst (run_continuous_mint 1 default_bot sixty_reverts)) = 0)
    by (vm_compute; reflexivity).
  split; [split; [|split; [|split]]|split].
  - vm_compute; reflexivity.
  - vm_compute; reflexivity.
  - eexists. split; [vm_compute; reflexivity|]. split; reflexivity.
  - exact Hs.
  - eexists. split; [vm_compute; reflexivity|]. split; reflexivity.
  - exact (proj2 (Hnone N)).
Defined.

(** C6. An attempt adds one to [successful_mints] if and only if it ends
    in [ConfirmedSuccess]; on every other exit it leaves the bot as it
    was. The loop adds one to [total_attempts] before each attempt, so
    [successful_mints <= total_attempts], true when the loop starts, is
    true after any number of iterations. *)
Theorem success_counter_invariant target self ws w :
  successful_mints self <= total_attempts self ->
  let r := snd (attempt_mint self w) in
  (successful_mints (att_self r) = successful_mints self + 1
   <-> att_exit r = ConfirmedSuccess)
  /\ (att_return r = true <-> att_exit r = ConfirmedSuccess)
  /\ (att_exit r <> ConfirmedSuccess -> att_self r = self)
  /\ total_attempts (att_self r) = total_attempts self
  /\ let self' := run_self (snd (run_continuous_mint target self ws)) in
     successful_mints self' <= total_attempts self'.
Proof.
  intros Hinv r.
  destruct (attempt_mint_cases self w) as [(He & Hret & Hs)|(He & Hret & Hs)];
    fold r in He, Hret, Hs.
  all: split; [|split; [|split; [|split]]].
  all: try (rewrite Hs; cbn; split; [intros; assumption || lia | intros; congruence || lia]).
  all: try (rewrite Hret; split; congruence).
  all: try (intros; congruence).
  all: try (rewrite Hs; reflexivity).
  all: intros self';
    destruct (run_continuous_mint target self ws) as [its res] eqn:Hrun;
    destruct (run_continuous_mint_spec _ _ _ _ _ Hrun) as (Ht & Hsu & _);
    subst self'; cbn [snd];
    pose proof (count_success_le_length its); lia.
Qed.

(** Every way out of an attempt is taken by some answers, and only the
    confirmed attempt moves the success counter of a fresh bot; the
    counters of scenario D end in order. *)
Lemma success_counter_invariant_scenario_D :
  map (fun w => att_exit (snd (attempt_mint default_bot w))) every_exit
  = [NotReady; BuildFailure; SendFailure; ConfirmedSuccess; ConfirmedFailure;
     TimedOut; CaughtException RPCError]
  /\ map (fun w => successful_mints (att_self (snd (attempt_mint default_bot w))))
         every_exit
     = [0; 0; 0; 1; 0; 0; 0]
  /\ successful_mints (run_self (snd (run_continuous_mint 3 default_bot scenario_D)))
     <= total_attempts (run_self (snd (run_continuous_mint 3 default_bot scenario_D))).
Proof.
  assert (L : successful_mints default_bot <= total_attempts default_bot)
    by (vm_compute; discriminate).
  pose proof (success_counter_invariant 3 default_bot scenario_D mint_confirmed L) as H.
  cbv zeta in H. destruct H as (_ & _ & _ & _ & H).
  split; [vm_compute; reflexivity|].
  split; [vm_compute; reflexivity|].
  exact H.
Defined.

(** ** Start-up and the key store *)

(** C3. In scenario E decryption fails, [get_wallet_private_key] returns
    [None] and [__init__] completes with [private_key = None] where the
    claim has the run abort. The mint loop then runs: each attempt puts a
    transaction together, fails at signing, is caught at the attempt
    boundary and is counted, so three attempts are recorded after three
    answers and the loop is still running. Nothing is submitted. *)
Theorem init_survives_decryption_failure :
  decrypt_private_key manager_2 (encrypt_private_key manager_1 "0x01" nonce_0)
  = Raise InvalidToken
  /\ get_wallet_private_key manager_2 scenario_E_wallets "main" = None
  /\ exists self,
       scenario_E_init manager_2 = Ok self
       /\ private_key self = None
       /\ total_attempts self = 0
       /\ exists self',
            snd (run_continuous_mint 1 self [mint_confirmed; mint_confirmed; mint_confirmed])
            = Running self'
            /\ total_attempts self' = 3
            /\ exits (fst (run_continuous_mint 1 self
                             [mint_confirmed; mint_confirmed; mint_confirmed]))
               = [CaughtException TypeError; CaughtException TypeError;
                  CaughtException TypeError]
            /\ map (fun it => (count_tx_dicts (it_log it), count_sends (it_log it)))
                   (fst (run_continuous_mint 1 self
                           [mint_confirmed; mint_confirmed; mint_confirmed]))
               = [(1, 0); (1, 0); (1, 0)]%nat.
Proof.
  split; [vm_compute; reflexivity|]. split; [vm_compute; reflexivity|].
  eexists. split; [vm_compute; reflexivity|].
  split; [reflexivity|]. split; [reflexivity|].
  eexists. split; [vm_compute; reflexivity|].
  split; [reflexivity|]. split; vm_compute; reflexivity.
Qed.

Lemma get_wallet_private_key_decrypt_failure self (fs : wallets_dir) name (w : wallet)
    token e :
  fs !! name = Some w ->
  w !! "private_key_encrypted" = Some (JStr token) ->
  decrypt_private_key self token = Raise e ->
  get_wallet_private_key self fs name = None.
Proof.
  intros Hw Ht Hd. unfold get_wallet_private_key, get_wallet.
  rewrite Hw, Ht, Hd. reflexivity.
Qed.

(** ** The key store *)

Lemma strip_prefix_app p l : strip_prefix p (p ++ l) = Some l.
Proof.
  induction p as [|b p IH]; [reflexivity|].
  cbn. assert (Hb : Byte.eqb b b = true) by (destruct b; reflexivity).
  rewrite Hb. exact IH.
Qed.

Lemma keyed_cipher_round_trip key : fernet_round_trip (keyed_cipher key).
Proof. intros data n. cbn. rewrite strip_prefix_app. reflexivity. Qed.

(** C10. Under a cipher that keeps the contract of the cipher library,
    decrypting what [encrypt_private_key] returned gives the key back. *)
Theorem decrypt_encrypt_private_key self private_key n :
  fernet_round_trip (cipher self) ->
  decrypt_private_key self (encrypt_private_key self private_key n) = Ok private_key.
Proof.
  intros Hrt. unfold decrypt_private_key, encrypt_private_key, str_encode, bytes_decode.
  rewrite String.list_byte_of_string_of_list_byte, Hrt. cbn.
  rewrite String.string_of_list_byte_of_string. reflexivity.
Qed.

(** The stand-in cipher keeps the contract, and gives the key back. *)
Lemma decrypt_encrypt_private_key_manager_1 :
  fernet_round_trip (cipher manager_1)
  /\ decrypt_private_key manager_1 (encrypt_private_key manager_1 "0x01" nonce_0)
     = Ok "0x01".
Proof.
  split; [apply keyed_cipher_round_trip|].
  apply decrypt_encrypt_private_key, keyed_cipher_round_trip.
Defined.

Lemma result_bind_ok {A B : Type} (a : A) (k : A -> result B) : mbind k (Ok a) = k a.
Proof. reflexivity. Qed.

Lemma json_add_int a b : json_add (JInt a) (JInt b) = Ok (JInt (a + b)).
Proof. reflexivity. Qed.

Lemma json_positive_int t : 0 < t -> json_positive (JInt t) = Ok true.
Proof.
  intros Ht. unfold json_positive. cbn [json_number]. f_equal. apply Z.ltb_lt. exact Ht.
Qed.

Lemma json_percent_int a t : json_percent (JInt a) (JInt t) = success_rate a t.
Proof. reflexivity. Qed.

Ltac lookups :=
  repeat first
    [ rewrite lookup_insert_eq
    | rewrite lookup_insert_ne by done
    | rewrite result_bind_ok
    | rewrite json_add_int ].

(** One call on a record whose counters add up: it returns true, adds one
    to [total_mints] and to the counter the flag selects, stores the rate
    of the new counters, and touches no other wallet. *)
Lemma update_wallet_stats_step (fs : wallets_dir) name (w : wallet) s f success gas now b fs' :
  fs !! name = Some w ->
  wallet_counts w (s + f) s f ->
  0 <= s -> 0 <= f ->
  update_wallet_stats fs name success gas now = Ok (b, fs') ->
  b = true
  /\ (forall other, other <> name -> fs' !! other = fs !! other)
  /\ exists (w' : wallet) rate,
       fs' !! name = Some w'
       /\ wallet_counts w' (s + f + 1)
            (if success then s + 1 else s) (if success then f else f + 1)
       /\ success_rate (if success then s + 1 else s) (s + f + 1) = Ok rate
       /\ w' !! "success_rate" = Some rate.
Proof.
  intros Hw (Ht & Hs & Hf) Hs0 Hf0. unfold update_wallet_stats, get_wallet.
  rewrite Hw.
  destruct (decide (w = ∅)) as [->|_]; [rewrite lookup_empty in Ht; discriminate|].
  unfold get_or_zero, getitem.
  destruct success;
    repeat first [progress lookups | rewrite Hs | rewrite Hf | rewrite Ht
                 | progress cbn [default from_option id]];
    (destruct (json_add _ gas) as [g|e]; [|discriminate]);
    repeat first [progress lookups | rewrite Hs | rewrite Hf | rewrite Ht
                 | rewrite json_positive_int by lia
                 | rewrite json_percent_int
                 | progress cbn [default from_option id]];
    (destruct (success_rate _ _) as [rate|e] eqn:Hrate; [|discriminate]);
    lookups; intros [= <- <-]; (split; [reflexivity|]);
    (split; [intros other Hne; rewrite lookup_insert_ne by done; reflexivity|]);
    eexists _, rate; (split; [apply lookup_insert_eq|]);
    unfold wallet_counts; lookups; rewrite ?Hs, ?Hf; repeat split; exact Hrate.
Qed.

Lemma result_bind_inv {A B : Type} (m : result A) (k : A -> result B) b :
  mbind k m = Ok b -> exists a, m = Ok a /\ k a = Ok b.
Proof. destruct m as [a|e]; [intros H; exists a; split; [reflexivity|exact H]|discriminate]. Qed.

(** A call for one wallet leaves the file of any other as it was. *)
Lemma update_wallet_stats_other (fs : wallets_dir) name other success gas now b fs' :
  other <> name ->
  update_wallet_stats fs other success gas now = Ok (b, fs') ->
  fs' !! name = fs !! name.
Proof.
  intros Hne. unfold update_wallet_stats.
  destruct (get_wallet fs other) as [w|]; [|intros [= <- <-]; reflexivity].
  destruct (decide (w = ∅)); [intros [= <- <-]; reflexivity|].
  intros H.
  repeat (apply result_bind_inv in H as (? & _ & H); cbn beta in H).
  injection H as <- <-. rewrite lookup_insert_ne by done. reflexivity.
Qed.

Lemma count_updates_cons name flag u us :
  count_updates name flag (u :: us)
  = (if String.eqb (u_wallet u) name && Bool.eqb (u_success u) flag then 1 else 0)
    + count_updates name flag us.
Proof.
  unfold count_updates. cbn [List.filter].
  destruct (_ && _); cbn [length]; lia.
Qed.

Lemma count_updates_nonneg name flag us : 0 <= count_updates name flag us.
Proof. unfold count_updates. lia. Qed.

(** Any sequence of calls keeps the counters of a record adding up, and
    moves them by the number of calls made for it with each flag. *)
Lemma apply_updates_counts name us :
  forall (fs : wallets_dir) (w : wallet) s f fs',
    fs !! name = Some w ->
    wallet_counts w (s + f) s f ->
    0 <= s -> 0 <= f ->
    (0 < s + f -> exists rate, success_rate s (s + f) = Ok rate
                               /\ w !! "success_rate" = Some rate) ->
    apply_updates fs us = Ok fs' ->
    let s' := s + count_updates name true us in
    let f' := f + count_updates name false us in
    exists w' : wallet,
      fs' !! name = Some w'
      /\ wallet_counts w' (s' + f') s' f'
      /\ (0 < s' + f' -> exists rate, success_rate s' (s' + f') = Ok rate
                                      /\ w' !! "success_rate" = Some rate).
Proof.
  induction us as [|u us IH]; intros fs w s f fs' Hw Hc Hs Hf Hrate Hrun; cbn zeta.
  - injection Hrun as <-. exists w.
    change (count_updates name true []) with 0.
    change (count_updates name false []) with 0.
    rewrite !Z.add_0_r. auto.
  - cbn [apply_updates] in Hrun.
    apply result_bind_inv in Hrun as ([b fs1] & Hu & Hrun). cbn [snd] in Hrun.
    rewrite !count_updates_cons.
    pose proof (count_updates_nonneg name true us).
    pose proof (count_updates_nonneg name false us).
    destruct (String.eqb_spec (u_wallet u) name) as [Heq|Hne]; cbn [andb].
    + rewrite Heq in Hu.
      destruct (update_wallet_stats_step _ _ _ _ _ _ _ _ _ _ Hw Hc Hs Hf Hu)
        as (_ & _ & w1 & rate1 & Hw1 & Hc1 & Hr1).
      assert (Hr1' : exists rate,
                success_rate (if u_success u then s + 1 else s) (s + f + 1) = Ok rate
                /\ w1 !! "success_rate" = Some rate) by (exists rate1; exact Hr1).
      clear Hr1. rename Hr1' into Hr1.
      destruct (u_success u); cbn [Bool.eqb].
      * replace (s + f + 1) with (s + 1 + f) in Hc1, Hr1 by lia.
        destruct (IH fs1 w1 (s + 1) f fs' Hw1 Hc1 ltac:(lia) Hf
                    ltac:(intros _; exact Hr1) Hrun) as (w' & Hw' & Hc' & Hr').
        cbv zeta in Hc', Hr'. exists w'. split; [exact Hw'|].
        replace (s + (1 + count_updates name true us))
          with (s + 1 + count_updates name true us) by lia.
        rewrite Z.add_0_l. split; assumption.
      * destruct (IH fs1 w1 s (f + 1) fs' Hw1
                    ltac:(replace (s + (f + 1)) with (s + f + 1) by lia; exact Hc1)
                    Hs ltac:(lia)
                    ltac:(intros _; replace (s + (f + 1)) with (s + f + 1) by lia;
                          exact Hr1) Hrun) as (w' & Hw' & Hc' & Hr').
        cbv zeta in Hc', Hr'. exists w'. split; [exact Hw'|].
        replace (f + (1 + count_updates name false us))
          with (f + 1 + count_updates name false us) by lia.
        rewrite Z.add_0_l. split; assumption.
    + rewrite <- (update_wallet_stats_other _ _ _ _ _ _ _ _ Hne Hu) in Hw.
      destruct (IH fs1 w s f fs' Hw Hc Hs Hf Hrate Hrun) as (w' & Hw' & Hc' & Hr').
      cbv zeta in Hc', Hr'. exists w'. rewrite !Z.add_0_l. auto.
Qed.

(** A record as [add_wallet] writes it: the three counters at 0 and no
    rate. *)
Lemma add_wallet_counts account_from_key self (fs : wallets_dir)
    name private_key public_key now n fs' :
  add_wallet account_from_key self fs name private_key public_key now n = (true, fs') ->
  exists w : wallet,
    fs' !! name = Some w
    /\ wallet_counts w 0 0 0
    /\ w !! "success_rate" = None.
Proof.
  unfold add_wallet.
  destruct (account_from_key private_key) as [address|]; [|discriminate].
  match goal with |- context [if ?c then _ else _] => destruct c end; [discriminate|].
  intros [= <-]. eexists. split; [apply lookup_insert_eq|].
  unfold wallet_counts. lookups. repeat split.
Qed.

(** C9. Take a record written by [add_wallet] and any sequence of calls
    of [update_wallet_stats] that return, for this wallet or for others.
    Afterwards [successful_mints] and [failed_mints] are the numbers of
    calls made for the record with the flag true and false,
    [total_mints] is their sum, and once there was a call [success_rate]
    is the float [(successful_mints / total_mints) * 100] evaluates to on
    these counters. One more call adds one to [total_mints] and to the
    counter its flag selects, and stores the rate of the new counters. *)
Theorem wallet_stats_invariant account_from_key self (fs : wallets_dir)
    name private_key public_key now n (fs0 : wallets_dir) us (fs' : wallets_dir) :
  add_wallet account_from_key self fs name private_key public_key now n = (true, fs0) ->
  apply_updates fs0 us = Ok fs' ->
  let s := count_updates name true us in
  let f := count_updates name false us in
  (exists w : wallet,
     fs' !! name = Some w
     /\ wallet_counts w (s + f) s f
     /\ (0 < s + f -> exists rate, success_rate s (s + f) = Ok rate
                                   /\ w !! "success_rate" = Some rate))
  /\ forall success gas_spent now' b (fs'' : wallets_dir),
       update_wallet_stats fs' name success gas_spent now' = Ok (b, fs'') ->
       exists (w' : wallet) rate,
         fs'' !! name = Some w'
         /\ wallet_counts w' (s + f + 1)
              (if success then s + 1 else s) (if success then f else f + 1)
         /\ success_rate (if success then s + 1 else s) (s + f + 1) = Ok rate
         /\ w' !! "success_rate" = Some rate.
Proof.
  intros Hadd Hrun s f.
  destruct (add_wallet_counts _ _ _ _ _ _ _ _ _ Hadd) as (w0 & Hw0 & Hc0 & Hr0).
  destruct (apply_updates_counts name us fs0 w0 0 0 fs' Hw0 Hc0 ltac:(lia) ltac:(lia)
              ltac:(lia) Hrun) as (w & Hw & Hc & Hr).
  cbv zeta in Hc, Hr. rewrite !Z.add_0_l in Hc, Hr. fold s f in Hc, Hr.
  split; [exists w; auto|].
  intros success gas_spent now' b fs'' Hu.
  destruct (update_wallet_stats_step _ _ _ _ _ _ _ _ _ _ Hw Hc
              (count_updates_nonneg _ _ _) (count_updates_nonneg _ _ _) Hu)
    as (_ & _ & w' & rate & H').
  exists w', rate. exact H'.
Qed.

(** The wallet [main] after a successful, a failed and a successful mint:
    3 mints, 2 successful, 1 failed, and the rate 66.66666666666666, which
    is 4691249611844266 / 2^46. *)
Lemma wallet_stats_invariant_three_updates :
  add_wallet address_of_key manager_1 ∅ "main" "0x01" None "2024-01-01T00:00:00" nonce_0
  = (true, scenario_E_wallets)
  /\ apply_updates scenario_E_wallets three_updates = Ok scenario_E_after
  /\ exists w : wallet,
       scenario_E_after !! "main" = Some w
       /\ wallet_counts w 3 2 1
       /\ (0 < 3 -> exists rate,
              success_rate 2 3 = Ok rate
              /\ w !! "success_rate" = Some rate)
       /\ success_rate 2 3 = Ok (JFloat (S754_finite false 4691249611844266 (-46))).
Proof.
  assert (Hadd : add_wallet address_of_key manager_1 ∅ "main" "0x01" None
                   "2024-01-01T00:00:00" nonce_0 = (true, scenario_E_wallets))
    by (vm_compute; reflexivity).
  assert (Hrun : apply_updates scenario_E_wallets three_updates = Ok scenario_E_after)
    by (vm_compute; reflexivity).
  split; [exact Hadd|]. split; [exact Hrun|].
  destruct (proj1 (wallet_stats_invariant _ _ _ _ _ _ _ _ _ _ _ Hadd Hrun))
    as (w & Hw & Hc & Hr).
  exists w. repeat split; try assumption; apply Hc.
Defined.

(** * Further properties *)

(** ** Gas pricing and building *)

Lemma to_wei_int_gwei_inv n c :
  to_wei (PyInt n) gwei = Ok c -> c = n * gwei /\ 0 <= n * gwei <= MAX_WEI.
Proof.
  unfold to_wei. cbn [num_value].
  destruct (Qeq_bool (inject_Z n) 0) eqn:Hz.
  - apply Qeq_bool_eq in Hz. unfold Qeq in Hz. cbn in Hz.
    assert (n = 0) by lia. subst. intros [= <-]. vm_compute. repeat split; discriminate.
  - assert (Heq : (inject_Z n * inject_Z gwei == inject_Z (n * gwei))%Q)
      by (rewrite inject_Z_mult; reflexivity).
    destruct (Qle_bool (inject_Z MIN_WEI) (inject_Z n * inject_Z gwei)) eqn:H1;
      [|discriminate].
    destruct (Qle_bool (inject_Z n * inject_Z gwei) (inject_Z MAX_WEI)) eqn:H2;
      [|discriminate].
    cbn [negb orb]. intros [= <-].
    apply Qle_bool_iff in H1, H2. rewrite Heq in H1, H2.
    rewrite <- Zle_Qle in H1, H2. unfold MIN_WEI in H1.
    split; [apply Z.div_1_r|]. split; assumption.
Qed.

(** Whenever [get_current_gas_price] returns, what it returns is a legacy
    gas price that exceeds neither the gas price the node quotes nor the
    configured ceiling in wei; the ceiling is then not negative. *)
Theorem get_current_gas_price_capped self w params :
  get_current_gas_price self w = Ok params ->
  exists gas_price,
    eth_gas_price w = Ok gas_price
    /\ params = Legacy (Z.min gas_price (max_gas_price self * gwei))
    /\ Z.min gas_price (max_gas_price self * gwei) <= gas_price
    /\ Z.min gas_price (max_gas_price self * gwei) <= max_gas_price self * gwei
    /\ 0 <= max_gas_price self.
Proof.
  rewrite get_current_gas_price_legacy. unfold legacy_fee.
  destruct (eth_gas_price w) as [g|]; [|discriminate]. cbn.
  destruct (to_wei (PyInt (max_gas_price self)) gwei) as [c|] eqn:Hc; [|discriminate].
  cbn. intros [= <-].
  destruct (to_wei_int_gwei_inv _ _ Hc) as (-> & Hlo & _).
  exists g. repeat split; try lia.
  unfold gwei in Hlo. lia.
Qed.

(** Scenario B again: 150 gwei quoted, 100 gwei returned. *)
Lemma get_current_gas_price_capped_scenario_B :
  exists gas_price,
    eth_gas_price scenario_B = Ok gas_price
    /\ Legacy (100 * gwei) = Legacy (Z.min gas_price (max_gas_price default_bot * gwei))
    /\ Z.min gas_price (max_gas_price default_bot * gwei) <= gas_price
    /\ Z.min gas_price (max_gas_price default_bot * gwei)
       <= max_gas_price default_bot * gwei
    /\ 0 <= max_gas_price default_bot.
Proof.
  exact (get_current_gas_price_capped default_bot scenario_B (Legacy (100 * gwei))
           eq_refl).
Defined.

(** A negative ceiling makes the gas pricing raise [ValueError] as soon
    as the node quotes a price. *)
Theorem get_current_gas_price_negative_ceiling self w gas_price :
  max_gas_price self < 0 ->
  eth_gas_price w = Ok gas_price ->
  get_current_gas_price self w = Raise ValueError.
Proof.
  intros Hneg Hg. rewrite get_current_gas_price_legacy. unfold legacy_fee.
  rewrite Hg. cbn.
  destruct (to_wei (PyInt (max_gas_price self)) gwei) as [c|e] eqn:Hc.
  - destruct (to_wei_int_gwei_inv _ _ Hc) as (_ & Hlo & _). unfold gwei in Hlo. lia.
  - revert Hc. unfold to_wei. destruct (Qeq_bool _ _); [discriminate|].
    destruct (_ || _); [intros [= <-]; reflexivity|discriminate].
Qed.

(** A negative ceiling in scenario B. *)
Lemma get_current_gas_price_negative_ceiling_scenario_B :
  get_current_gas_price negative_ceiling_bot scenario_B = Raise ValueError.
Proof.
  apply (get_current_gas_price_negative_ceiling negative_ceiling_bot scenario_B
           (150 * gwei)); reflexivity.
Defined.

(** [create_mint_transaction] raises exactly when the nonce query, the gas
    pricing, the conversion of the mint price or the chain id query
    raises: with the exception of the first of them that fails, and
    before a transaction is put together or an encoding tried. A failed
    gas estimation or call encoding never makes it raise. *)
Theorem create_mint_transaction_raises self w :
  match fetched self w with
  | Raise e => create_mint_transaction self w = ([], Raise e)
  | Ok _ => exists r, snd (create_mint_transaction self w) = Ok r
  end.
Proof.
  unfold fetched, create_mint_transaction.
  rewrite io_bind_lift.
  destruct (eth_get_transaction_count w (public_key self)) as [nonce|]; [|reflexivity].
  rewrite io_bind_lift. cbn [mbind result_bind].
  destruct (get_current_gas_price self (node_gas w)) as [params|]; [|reflexivity].
  rewrite io_bind_lift.
  destruct (to_wei (PyFloat (mint_price self)) ether) as [value|]; [|reflexivity].
  rewrite io_bind_lift.
  destruct (eth_chain_id w) as [chain|]; [|reflexivity].
  rewrite io_bind_tell. cbn -[build_transaction].
  destruct (build_transaction w "mint" [] _) as [t|]; cbn -[build_transaction];
    [eauto|].
  destruct (build_transaction w "publicMint" [] _) as [t|]; cbn; eauto.
Qed.

(** ** Rounding to the nearest float *)

Lemma digits2_pos_bounds p :
  2 ^ (Zpos (digits2_pos p) - 1) <= Zpos p < 2 ^ Zpos (digits2_pos p).
Proof.
  induction p as [p IH|p IH|]; cbn [digits2_pos].
  - rewrite Pos2Z.inj_succ, (Pos2Z.inj_xI p).
    replace (Z.succ (Zpos (digits2_pos p)) - 1) with (Z.succ (Zpos (digits2_pos p) - 1)) by lia.
    rewrite !Z.pow_succ_r by lia. lia.
  - rewrite Pos2Z.inj_succ, (Pos2Z.inj_xO p).
    replace (Z.succ (Zpos (digits2_pos p)) - 1) with (Z.succ (Zpos (digits2_pos p) - 1)) by lia.
    rewrite !Z.pow_succ_r by lia. lia.
  - cbn. lia.
Qed.

Lemma digits2_pos_unique p d :
  2 ^ (d - 1) <= Zpos p < 2 ^ d -> Zpos (digits2_pos p) = d.
Proof.
  intros [Hlo Hhi]. pose proof (digits2_pos_bounds p) as [Hlo' Hhi'].
  assert (0 < d).
  { destruct (Z.lt_trichotomy d 0) as [Hd|[->|Hd]]; [|cbn in Hhi; lia|exact Hd].
    rewrite Z.pow_neg_r in Hhi by exact Hd. lia. }
  destruct (Z.lt_trichotomy (Zpos (digits2_pos p)) d) as [Hlt|[Heq|Hgt]]; [|exact Heq|].
  - assert (2 ^ Zpos (digits2_pos p) <= 2 ^ (d - 1)) by (apply Z.pow_le_mono_r; lia). lia.
  - assert (2 ^ d <= 2 ^ (Zpos (digits2_pos p) - 1)) by (apply Z.pow_le_mono_r; lia). lia.
Qed.

Lemma shr_1_m mrs :
  0 <= shr_m mrs -> shr_m (shr_1 mrs) = shr_m mrs / 2 /\ 0 <= shr_m (shr_1 mrs).
Proof.
  destruct mrs as [m r s]. cbn [shr_m]. intros Hm.
  destruct m as [|[p|p|]|p]; cbn [shr_1 shr_m]; [| | | |lia].
  - split; [reflexivity|lia].
  - split; [|lia]. rewrite (Pos2Z.inj_xI p).
    apply Z.div_unique with 1; lia.
  - split; [|lia]. rewrite (Pos2Z.inj_xO p).
    apply Z.div_unique with 0; lia.
  - split; [reflexivity|lia].
Qed.

Lemma iter_pos_shr_1_m q :
  forall mrs,
    0 <= shr_m mrs ->
    shr_m (SpecFloat.iter_pos shr_1 q mrs) = shr_m mrs / 2 ^ Zpos q
    /\ 0 <= shr_m (SpecFloat.iter_pos shr_1 q mrs).
Proof.
  induction q as [q IH|q IH|]; intros mrs Hm; cbn [SpecFloat.iter_pos].
  - destruct (shr_1_m mrs Hm) as [E1 P1].
    destruct (IH _ P1) as [E2 P2]. destruct (IH _ P2) as [E3 P3].
    split; [|exact P3]. rewrite E3, E2, E1.
    rewrite !Z.div_div by lia.
    f_equal. rewrite (Pos2Z.inj_xI q).
    replace (2 * Zpos q + 1) with (1 + Zpos q + Zpos q) by lia.
    rewrite !Z.pow_add_r by lia. lia.
  - destruct (IH _ Hm) as [E2 P2]. destruct (IH _ P2) as [E3 P3].
    split; [|exact P3]. rewrite E3, E2.
    rewrite !Z.div_div by lia.
    f_equal. rewrite (Pos2Z.inj_xO q).
    replace (2 * Zpos q) with (Zpos q + Zpos q) by lia.
    rewrite !Z.pow_add_r by lia. lia.
  - destruct (shr_1_m mrs Hm) as [E1 P1]. split; [|exact P1].
    rewrite E1. reflexivity.
Qed.

Lemma round_nearest_even_bounds m l :
  m <= round_nearest_even m l <= m + 1.
Proof.
  unfold round_nearest_even. destruct l as [|[| |]]; try lia.
  destruct (Z.even m); lia.
Qed.

(** One alignment of a mantissa to the exponent of its format: the
    mantissa loses its last [n] bits, where [n] is by how many bits it is
    too long, and the exponent grows by [n]. *)
Lemma shr_fexp_spec m e l :
  0 < m ->
  -1074 <= Zdigits2 m + e - 53 ->
  let n := Z.max (Zdigits2 m - 53) 0 in
  snd (shr_fexp 53 1024 m e l) = e + n
  /\ shr_m (fst (shr_fexp 53 1024 m e l)) = m / 2 ^ n.
Proof.
  intros Hm Hrange n. unfold shr_fexp, fexp, emin.
  replace (Z.max (Zdigits2 m + e - 53) (3 - 1024 - 53)) with (Zdigits2 m + e - 53) by lia.
  replace (Zdigits2 m + e - 53 - e) with (Zdigits2 m - 53) by lia.
  assert (Hrec : shr_m (shr_record_of_loc m l) = m)
    by (destruct l as [|[| |]]; reflexivity).
  unfold shr. subst n.
  destruct (Zdigits2 m - 53) as [|q|q] eqn:Hq; cbn [fst snd].
  - rewrite Z.max_l by lia. rewrite Z.add_0_r, Z.pow_0_r, Z.div_1_r. auto.
  - rewrite Z.max_l by lia. split; [reflexivity|].
    destruct (iter_pos_shr_1_m q (shr_record_of_loc m l)) as [E _]; [rewrite Hrec; lia|].
    rewrite E, Hrec. reflexivity.
  - rewrite Z.max_r by lia. rewrite Z.add_0_r, Z.pow_0_r, Z.div_1_r. auto.
Qed.

Lemma digits2_pos_lower p k : 2 ^ (k - 1) <= Zpos p -> k <= Zpos (digits2_pos p).
Proof.
  intros H. pose proof (digits2_pos_bounds p) as [_ Hhi].
  destruct (Z.le_gt_cases k (Zpos (digits2_pos p))) as [Hle|Hgt]; [exact Hle|].
  assert (2 ^ Zpos (digits2_pos p) <= 2 ^ (k - 1)) by (apply Z.pow_le_mono_r; lia). lia.
Qed.

Lemma digits2_pos_upper p k : 0 <= k -> Zpos p < 2 ^ k -> Zpos (digits2_pos p) <= k.
Proof.
  intros Hk H. pose proof (digits2_pos_bounds p) as [Hlo _].
  destruct (Z.le_gt_cases (Zpos (digits2_pos p)) k) as [Hle|Hgt]; [exact Hle|].
  assert (2 ^ k <= 2 ^ (Zpos (digits2_pos p) - 1)) by (apply Z.pow_le_mono_r; lia). lia.
Qed.

(** Rounding the mantissa [mp] at exponent [e] to a float. With [n] the
    number of bits the mantissa is too long by, the float is the
    mantissa cut to its first 53 bits or the next float above it; it is
    an infinity only when the exponent is out of range. *)
Lemma binary_round_aux_spec s mp e :
  -1074 <= Zpos (digits2_pos mp) + e - 53 ->
  let n := Z.max (Zpos (digits2_pos mp) - 53) 0 in
  match binary_round_aux 53 1024 s (Zpos mp) e loc_Exact with
  | S754_finite s' m' e' =>
      s' = s /\ e + n <= e' <= e + n + 1
      /\ Zpos mp / 2 ^ n * 2 ^ n <= Zpos m' * 2 ^ (e' - e) <= (Zpos mp / 2 ^ n + 1) * 2 ^ n
  | S754_infinity s' => 971 < e + n + 1
  | _ => False
  end.
Proof.
  intros Hrange n. unfold binary_round_aux.
  pose proof (digits2_pos_bounds mp) as [Hlo Hhi].
  assert (Hn : 0 <= n) by (subst n; lia).
  assert (Hpow : 0 < 2 ^ n) by (apply Z.pow_pos_nonneg; lia).
  destruct (shr_fexp_spec (Zpos mp) e loc_Exact ltac:(lia) Hrange) as [E1 M1].
  change (Zdigits2 (Zpos mp)) with (Zpos (digits2_pos mp)) in E1, M1.
  fold n in E1, M1.
  destruct (shr_fexp 53 1024 (Zpos mp) e loc_Exact) as [mrs1 e1].
  cbn [fst snd] in E1, M1. subst e1.
  set (m1 := Zpos mp / 2 ^ n) in *.
  (* the cut mantissa has at most 53 bits *)
  assert (Hm1hi : m1 < 2 ^ 53).
  { apply Z.div_lt_upper_bound; [exact Hpow|].
    rewrite <- Z.pow_add_r by lia.
    eapply Z.lt_le_trans; [exact Hhi|]. apply Z.pow_le_mono_r; lia. }
  assert (Hm1lo : 1 <= m1 /\ (0 < n -> 2 ^ 52 <= m1)).
  { split.
    - apply Z.div_le_lower_bound; [exact Hpow|]. rewrite Z.mul_1_r.
      eapply Z.le_trans; [|exact Hlo]. apply Z.pow_le_mono_r; lia.
    - intros Hpos. apply Z.div_le_lower_bound; [exact Hpow|].
      rewrite <- Z.pow_add_r by lia.
      eapply Z.le_trans; [|exact Hlo]. apply Z.pow_le_mono_r; lia. }
  pose proof (round_nearest_even_bounds (shr_m mrs1) (loc_of_shr_record mrs1)) as Hround.
  rewrite M1 in *.
  set (m2 := round_nearest_even m1 (loc_of_shr_record mrs1)) in *.
  destruct m2 as [|p2|p2] eqn:Hm2; [lia| |lia].
  assert (Hd2 : Zpos (digits2_pos mp) - n <= Zpos (digits2_pos p2) <= 54).
  { split.
    - destruct (Z.eq_dec n 0) as [Hz|Hnz].
      + rewrite Hz, Z.sub_0_r. apply digits2_pos_lower.
        eapply Z.le_trans; [exact Hlo|].
        unfold m1 in Hround. rewrite Hz, Z.pow_0_r, Z.div_1_r in Hround. lia.
      + replace (Zpos (digits2_pos mp) - n) with 53 by lia.
        apply digits2_pos_lower. change (53 - 1) with 52. lia.
    - apply digits2_pos_upper; [lia|].
      change (2 ^ 54) with (2 * 2 ^ 53). lia. }
  destruct (shr_fexp_spec (Zpos p2) (e + n) loc_Exact ltac:(lia)) as [E2 M2].
  { change (Zdigits2 (Zpos p2)) with (Zpos (digits2_pos p2)). lia. }
  change (Zdigits2 (Zpos p2)) with (Zpos (digits2_pos p2)) in E2, M2.
  destruct (shr_fexp 53 1024 (Zpos p2) (e + n) loc_Exact) as [mrs2 e2].
  cbn [fst snd] in E2, M2. subst e2. rewrite M2.
  set (n2 := Z.max (Zpos (digits2_pos p2) - 53) 0) in *.
  assert (Hn2 : n2 = 0 \/ (n2 = 1 /\ Zpos p2 = 2 ^ 53)).
  { subst n2. destruct (Z.le_gt_cases (Zpos (digits2_pos p2)) 53) as [Hle|Hgt]; [left; lia|].
    right. split; [lia|].
    pose proof (digits2_pos_bounds p2) as [Hlo2 _].
    assert (2 ^ 53 <= 2 ^ (Zpos (digits2_pos p2) - 1)) by (apply Z.pow_le_mono_r; lia).
    lia. }
  destruct Hn2 as [Hz|[Hone Hp2]]; rewrite ?Hz, ?Hone.
  - rewrite Z.pow_0_r, Z.div_1_r, Z.add_0_r.
    destruct (e + n <=? 1024 - 53) eqn:Hfit.
    + split; [reflexivity|]. split; [lia|].
      replace (e + n - e) with n by lia. nia.
    + apply Z.leb_gt in Hfit. lia.
  - rewrite Hp2. change (2 ^ 53 / 2 ^ 1) with (2 ^ 52).
    change (2 ^ 52) with (Zpos (2 ^ 52)) at 1. cbv beta iota.
    destruct (e + n + 1 <=? 1024 - 53) eqn:Hfit.
    + split; [reflexivity|]. split; [lia|].
      replace (e + n + 1 - e) with (1 + n) by lia.
      rewrite Z.pow_add_r by lia. change (2 ^ 1) with 2.
      change (Zpos (2 ^ 52)) with (2 ^ 52).
      assert (m1 + 1 = 2 ^ 53) by lia.
      split; nia.
    + apply Z.leb_gt in Hfit. lia.
Qed.

Lemma pos_iter_xO p d : Zpos (Pos.iter xO p d) = Zpos p * 2 ^ Zpos d.
Proof.
  induction d as [|d IH] using Pos.peano_ind.
  - cbn [Pos.iter]. rewrite (Pos2Z.inj_xO p). change (2 ^ 1) with 2. lia.
  - rewrite Pos.iter_succ, (Pos2Z.inj_xO (Pos.iter xO p d)), IH, Pos2Z.inj_succ.
    rewrite Z.pow_succ_r by lia. lia.
Qed.

(** Cutting a mantissa to its first 53 bits loses less than one part in
    2^52 of it. *)
Lemma cut_mantissa p :
  let n := Z.max (Zpos (digits2_pos p) - 53) 0 in
  Zpos p * (2 ^ 52 - 1) <= Zpos p / 2 ^ n * 2 ^ n * 2 ^ 52.
Proof.
  intros n. pose proof (digits2_pos_bounds p) as [Hlo _].
  assert (Hn : 0 <= n) by (subst n; lia).
  assert (Hpow : 0 < 2 ^ n) by (apply Z.pow_pos_nonneg; lia).
  pose proof (Z.div_mod (Zpos p) (2 ^ n) ltac:(lia)) as Hdm.
  pose proof (Z.mod_pos_bound (Zpos p) (2 ^ n) Hpow) as Hmod.
  destruct (Z.eq_dec n 0) as [Hz|Hnz].
  - rewrite Hz in *. change (2 ^ 0) with 1 in *. nia.
  - assert (Hbig : 2 ^ n * 2 ^ 52 <= Zpos p).
    { rewrite <- Z.pow_add_r by lia. eapply Z.le_trans; [|exact Hlo].
      apply Z.pow_le_mono_r; lia. }
    nia.
Qed.

(** [int(gas_estimate * 1.2)] is not below the estimate, and it is
    computed without an exception for an estimate below 2^53. *)
Lemma gas_with_buffer_covers g :
  0 <= g ->
  match gas_with_buffer g with
  | Ok gas => g <= gas
  | Raise _ => 2 ^ 53 <= g
  end.
Proof.
  intros Hg. destruct g as [|p|p]; [vm_compute; discriminate| |lia].
  assert (Hc : float_literal (12 # 10) = S754_finite false 5404319552844595 (-52))
    by (vm_compute; reflexivity).
  unfold gas_with_buffer, float_of_int. rewrite Hc.
  cbn [binary_normalize]. unfold binary_round.
  pose proof (digits2_pos_bounds p) as [Hplo Hphi].
  (* the mantissa aligned to 53 bits *)
  assert (Halign : exists mz ez,
            shl_align p 0 (fexp 53 1024 (Zpos (digits2_pos p) + 0)) = (mz, ez)
            /\ -52 <= ez <= 0
            /\ Zpos mz = Zpos p * 2 ^ (- ez)
            /\ Zpos (digits2_pos mz) = Z.max (Zpos (digits2_pos p)) 53).
  { unfold shl_align, fexp, emin. rewrite Z.add_0_r, Z.sub_0_r.
    destruct (Z.max (Zpos (digits2_pos p) - 53) (3 - 1024 - 53)) as [|q|q] eqn:Hq.
    - exists p, 0. split; [reflexivity|]. split; [lia|]. split; [cbn; lia|lia].
    - exists p, 0. split; [reflexivity|]. split; [lia|]. split; [cbn; lia|lia].
    - exists (Pos.iter xO p q), (Zneg q). split; [reflexivity|]. split; [lia|].
      rewrite pos_iter_xO. split; [reflexivity|].
      apply digits2_pos_unique. rewrite pos_iter_xO.
      assert (Hd : Zpos (digits2_pos p) + Zpos q = 53) by lia.
      rewrite Z.max_r by lia.
      replace (2 ^ 53) with (2 ^ Zpos (digits2_pos p) * 2 ^ Zpos q)
        by (rewrite <- Z.pow_add_r by lia; f_equal; lia).
      replace (2 ^ (53 - 1)) with (2 ^ (Zpos (digits2_pos p) - 1) * 2 ^ Zpos q)
        by (rewrite <- Z.pow_add_r by lia; f_equal; lia).
      assert (0 < 2 ^ Zpos q) by (apply Z.pow_pos_nonneg; lia).
      nia. }
  destruct Halign as (mz & ez & -> & Hez & Hmz & Hdz).
  pose proof (binary_round_aux_spec false mz ez ltac:(lia)) as HA.
  pose proof (cut_mantissa mz) as HcutA. cbv zeta in HA, HcutA.
  set (nA := Z.max (Zpos (digits2_pos mz) - 53) 0) in *.
  assert (HpowA : 0 < 2 ^ nA) by (apply Z.pow_pos_nonneg; lia).
  assert (Hk : 0 < 2 ^ (- ez)) by (apply Z.pow_pos_nonneg; lia).
  assert (Hsmall : Zpos p < 2 ^ 53 -> nA = 0 /\ Zpos mz < 2 ^ 53).
  { intros Hp. assert (Zpos (digits2_pos p) <= 53) by (apply digits2_pos_upper; lia).
    split; [lia|]. pose proof (digits2_pos_bounds mz) as [_ Hhi].
    rewrite Hdz, Z.max_r in Hhi by lia. exact Hhi. }
  destruct (binary_round_aux 53 1024 false (Zpos mz) ez loc_Exact)
    as [sA|sA| |sA mA eA]; [destruct HA| |destruct HA|].
  { (* too large for a float *)
    cbn [mbind result_bind].
    destruct (Z.lt_ge_cases (Zpos p) (2 ^ 53)) as [Hp|Hp]; [|exact Hp].
    destruct (Hsmall Hp). lia. }
  destruct HA as (-> & HeA & HAlo & HAhi).
  cbn [mbind result_bind SFmul xorb].
  set (c := 5404319552844595%positive).
  assert (HeA' : 0 <= eA - ez) by lia.
  assert (Ha : 0 < 2 ^ (eA - ez)) by (apply Z.pow_pos_nonneg; lia).
  pose proof (binary_round_aux_spec false (mA * c) (eA + -52)) as HB.
  pose proof (cut_mantissa (mA * c)) as HcutB. cbv zeta in HB, HcutB.
  set (nB := Z.max (Zpos (digits2_pos (mA * c)) - 53) 0) in *.
  assert (HpowB : 0 < 2 ^ nB) by (apply Z.pow_pos_nonneg; lia).
  specialize (HB ltac:(lia)).
  assert (HsmallB : Zpos p < 2 ^ 53 -> eA + -52 + nB + 1 <= 971).
  { intros Hp. destruct (Hsmall Hp) as [HnA Hmzhi].
    rewrite HnA in *. change (2 ^ 0) with 1 in *.
    rewrite Z.div_1_r, Z.mul_1_r in HAhi.
    assert (HmA : Zpos mA <= 2 ^ 53).
    { assert (1 <= 2 ^ (eA - ez)) by lia. nia. }
    assert (Zpos (digits2_pos (mA * c)) <= 106).
    { apply digits2_pos_upper; [lia|]. rewrite Pos2Z.inj_mul.
      change (2 ^ 106) with (2 ^ 53 * 2 ^ 53).
      assert (Zpos c < 2 ^ 53) by (vm_compute; reflexivity). nia. }
    lia. }
  destruct (binary_round_aux 53 1024 false (Zpos (mA * c)) (eA + -52) loc_Exact)
    as [sB|sB| |sB mB eB]; [destruct HB| |destruct HB|].
  { cbn [int_of_float].
    destruct (Z.lt_ge_cases (Zpos p) (2 ^ 53)) as [Hp|Hp]; [|exact Hp].
    specialize (HsmallB Hp). lia. }
  destruct HB as (-> & HeB & HBlo & _).
  cbn [int_of_float].
  (* the two roundings lose less than the fifth that was added *)
  assert (HeB' : 0 <= eB - (eA + -52)) by lia.
  assert (Hb : 0 < 2 ^ (eB - (eA + -52))) by (apply Z.pow_pos_nonneg; lia).
  assert (Hscaled : Zpos p * 2 ^ (- ez) * 2 ^ 52
                    <= Zpos mB * (2 ^ (eB - (eA + -52)) * 2 ^ (eA - ez))).
  { rewrite Pos2Z.inj_mul in HcutB, HBlo.
    assert (H1 : Zpos mz * (2 ^ 52 - 1) <= Zpos mA * 2 ^ (eA - ez) * 2 ^ 52) by nia.
    assert (H2 : Zpos mA * Zpos c * (2 ^ 52 - 1)
                 <= Zpos mB * 2 ^ (eB - (eA + -52)) * 2 ^ 52) by nia.
    rewrite Hmz in H1.
    assert (Hconst : 2 ^ 156 <= Zpos c * (2 ^ 52 - 1) * (2 ^ 52 - 1))
      by (vm_compute; discriminate).
    set (P := Zpos p * 2 ^ (- ez)) in *.
    set (A := 2 ^ (eA - ez)) in *. set (B := 2 ^ (eB - (eA + -52))) in *.
    assert (H3 : P * (2 ^ 52 - 1) * (Zpos c * (2 ^ 52 - 1))
                 <= Zpos mA * A * 2 ^ 52 * (Zpos c * (2 ^ 52 - 1))).
    { apply Z.mul_le_mono_nonneg_r; [vm_compute; discriminate|exact H1]. }
    assert (H4 : Zpos mA * Zpos c * (2 ^ 52 - 1) * (A * 2 ^ 52)
                 <= Zpos mB * B * 2 ^ 52 * (A * 2 ^ 52)).
    { apply Z.mul_le_mono_nonneg_r; [lia|exact H2]. }
    assert (H5 : P * 2 ^ 156 <= P * (Zpos c * (2 ^ 52 - 1) * (2 ^ 52 - 1))).
    { apply Z.mul_le_mono_nonneg_l; [subst P; lia|exact Hconst]. }
    assert (H6 : P * 2 ^ 52 * 2 ^ 104 <= Zpos mB * (B * A) * 2 ^ 104).
    { change (2 ^ 156) with (2 ^ 52 * 2 ^ 104) in H5.
      change (2 ^ 104) with (2 ^ 52 * 2 ^ 52). lia. }
    clear - H6. lia. }
  assert (Hfinal : Zpos p * 2 ^ (- ez + 52) <= Zpos mB * 2 ^ (eB + (- ez + 52))).
  { rewrite (Z.pow_add_r 2 (- ez) 52), Z.mul_assoc by lia.
    replace (eB + (- ez + 52)) with (eB - (eA + -52) + (eA - ez)) by lia.
    rewrite (Z.pow_add_r 2 (eB - (eA + -52))) by lia. exact Hscaled. }
  assert (Hs : 0 < 2 ^ (- ez + 52)) by (apply Z.pow_pos_nonneg; lia).
  clear - Hfinal Hs Hez. rename Hfinal into Hscaled.
  destruct eB as [|q|q].
  - rewrite Z.add_0_l in Hscaled.
    apply (Z.mul_le_mono_pos_r _ _ (2 ^ (- ez + 52)) Hs). exact Hscaled.
  - rewrite (Z.pow_add_r 2 (Zpos q)), (Z.mul_assoc (Zpos mB)) in Hscaled by lia.
    apply (Z.mul_le_mono_pos_r _ _ (2 ^ (- ez + 52)) Hs). exact Hscaled.
  - assert (Hq : 0 < 2 ^ Zpos q) by (apply Z.pow_pos_nonneg; lia).
    apply Z.div_le_lower_bound; [exact Hq|].
    destruct (Z.le_gt_cases 0 (Zneg q + (- ez + 52))) as [Hnn|Hneg].
    + assert (Hsplit : 2 ^ (- ez + 52) = 2 ^ Zpos q * 2 ^ (Zneg q + (- ez + 52))).
      { rewrite <- Z.pow_add_r by lia. f_equal. lia. }
      rewrite Hsplit, (Z.mul_comm (Zpos p)), <- Z.mul_assoc, (Z.mul_comm _ (Zpos p)),
        Z.mul_assoc in Hscaled.
      assert (Ht : 0 < 2 ^ (Zneg q + (- ez + 52))) by (apply Z.pow_pos_nonneg; lia).
      apply (Z.mul_le_mono_pos_r _ _ _ Ht). exact Hscaled.
    + rewrite (Z.pow_neg_r 2 (Zneg q + (- ez + 52))) in Hscaled by lia.
      rewrite Z.mul_0_r in Hscaled. nia.
Qed.

(** Once the nonce, the gas price, the mint price and the chain id are
    fetched, the builder puts one dictionary together and its outcome is
    that of calling [build_transaction] with it for [mint()] and then,
    when that raises, for [publicMint()]. The dictionary carries the
    bot's address, the contract, the mint price in wei, and the nonce,
    chain id and gas price as fetched. Its gas limit is 200000 when the
    estimation raises or the estimate is too large to compute with, which
    no estimate below 2^53 is; otherwise it is [int(estimate * 1.2)] as
    floats compute it, which is not below the estimate. *)
Theorem create_mint_transaction_candidate self w nonce params value chain :
  fetched self w = Ok (nonce, params, value, chain) ->
  exists gas,
    let draft :=
      {| tx_from := public_key self; tx_to := contract_address self;
         tx_value := value; tx_nonce := nonce; tx_chainId := chain;
         tx_gas_params := params; tx_gas := None; tx_data := None |} in
    let tx :=
      {| tx_from := public_key self; tx_to := contract_address self;
         tx_value := value; tx_nonce := nonce; tx_chainId := chain;
         tx_gas_params := params; tx_gas := Some gas; tx_data := None |} in
    match eth_estimate_gas w draft with
    | Ok estimate =>
        match gas_with_buffer estimate with
        | Ok buffered => gas = buffered /\ (0 <= estimate -> estimate <= gas)
        | Raise _ => gas = 200000 /\ (0 <= estimate -> 2 ^ 53 <= estimate)
        end
    | Raise _ => gas = 200000
    end
    /\ create_mint_transaction self w
       = match build_transaction w "mint" [] tx with
         | Ok t => ([EvTxDict; EvEncode "mint" []], Ok (Some t))
         | Raise _ =>
             ([EvTxDict; EvEncode "mint" []; EvEncode "publicMint" []],
              match build_transaction w "publicMint" [] tx with
              | Ok t => Ok (Some t)
              | Raise _ => Ok None
              end)
         end.
Proof.
  unfold fetched, create_mint_transaction.
  rewrite io_bind_lift.
  destruct (eth_get_transaction_count w (public_key self)) as [nonce'|]; [|discriminate].
  rewrite io_bind_lift. cbn [mbind result_bind].
  destruct (get_current_gas_price self (node_gas w)) as [params'|]; [|discriminate].
  rewrite io_bind_lift.
  destruct (to_wei (PyFloat (mint_price self)) ether) as [value'|]; [|discriminate].
  rewrite io_bind_lift.
  destruct (eth_chain_id w) as [chain'|]; [|discriminate].
  intros [= -> -> -> ->].
  rewrite io_bind_tell. cbn -[build_transaction gas_with_buffer].
  match goal with
  | |- context [build_transaction w "mint" [] ?tx] =>
      match eval cbn [tx_gas] in (tx_gas tx) with
      | Some ?g => exists g
      end
  end.
  cbv zeta. split.
  - destruct (eth_estimate_gas w _) as [estimate|]; cbn [mbind result_bind];
      [|reflexivity].
    pose proof (gas_with_buffer_covers estimate) as Hcover.
    destruct (gas_with_buffer estimate) as [buffered|]; split; try reflexivity; exact Hcover.
  - destruct (build_transaction w "mint" [] _) as [t|]; cbn -[build_transaction gas_with_buffer];
      [reflexivity|].
    destruct (build_transaction w "publicMint" [] _) as [t|]; reflexivity.
Qed.

(** The contract of the scenarios bound to its address: the estimate of
    100000 gives a gas limit of 120000, both calls raise and the builder
    returns [None]. *)
Lemma create_mint_transaction_candidate_mint_bound :
  fetched default_bot mint_bound = Ok (7, Legacy (21 * gwei), 5 * 10 ^ 16, 1)
  /\ gas_with_buffer 100000 = Ok 120000
  /\ exists gas,
       let draft :=
         {| tx_from := public_key default_bot; tx_to := contract_address default_bot;
            tx_value := 5 * 10 ^ 16; tx_nonce := 7; tx_chainId := 1;
            tx_gas_params := Legacy (21 * gwei); tx_gas := None; tx_data := None |} in
       let tx :=
         {| tx_from := public_key default_bot; tx_to := contract_address default_bot;
            tx_value := 5 * 10 ^ 16; tx_nonce := 7; tx_chainId := 1;
            tx_gas_params := Legacy (21 * gwei); tx_gas := Some gas; tx_data := None |} in
       match eth_estimate_gas mint_bound draft with
       | Ok estimate =>
           match gas_with_buffer estimate with
           | Ok buffered => gas = buffered /\ (0 <= estimate -> estimate <= gas)
           | Raise _ => gas = 200000 /\ (0 <= estimate -> 2 ^ 53 <= estimate)
           end
       | Raise _ => gas = 200000
       end
       /\ create_mint_transaction default_bot mint_bound
          = match build_transaction mint_bound "mint" [] tx with
            | Ok t => ([EvTxDict; EvEncode "mint" []], Ok (Some t))
            | Raise _ =>
                ([EvTxDict; EvEncode "mint" []; EvEncode "publicMint" []],
                 match build_transaction mint_bound "publicMint" [] tx with
                 | Ok t => Ok (Some t)
                 | Raise _ => Ok None
                 end)
            end.
Proof.
  assert (H : fetched default_bot mint_bound = Ok (7, Legacy (21 * gwei), 5 * 10 ^ 16, 1))
    by (vm_compute; reflexivity).
  split; [exact H|]. split; [vm_compute; reflexivity|].
  exact (create_mint_transaction_candidate default_bot mint_bound 7 (Legacy (21 * gwei))
           (5 * 10 ^ 16) 1 H).
Defined.

(** ** Confirmation, attempts and the loop *)

(** An exception other than [TransactionNotFound] raised by a receipt
    poll ends the wait at that poll: it leaves [wait_for_transaction],
    and no further poll or sleep is made. *)
Theorem wait_for_transaction_poll_error w tx_hash k e :
  (k < 30)%nat ->
  (forall i, (i < k)%nat -> no_receipt (eth_get_transaction_receipt w tx_hash i)) ->
  eth_get_transaction_receipt w tx_hash k = Raise e ->
  e <> TransactionNotFound ->
  wait_for_transaction w tx_hash = (polls 0 k ++ [EvPoll k], Raise e).
Proof.
  intros Hk Hno He Hne. unfold wait_for_transaction, max_attempts.
  replace 30%nat with (k + S (29 - k))%nat by lia.
  rewrite wait_loop_skip by (intros i Hi; apply Hno; exact Hi).
  cbn [Nat.add wait_loop]. rewrite io_bind_tell. rewrite He.
  destruct e; try reflexivity. contradiction.
Qed.

(** A node error at the third poll: three polls, two sleeps, and the
    error leaves the wait. *)
Lemma wait_for_transaction_poll_error_third :
  wait_for_transaction poll_fails "0xabc"
  = ([EvPoll 0; EvSleep 2; EvPoll 1; EvSleep 2; EvPoll 2], Raise RPCError).
Proof.
  apply (wait_for_transaction_poll_error poll_fails "0xabc" 2 RPCError).
  - lia.
  - intros i Hi. left. destruct i as [|[|i]]; [reflexivity|reflexivity|lia].
  - reflexivity.
  - discriminate.
Defined.

Lemma check_mint_status_shape w :
  exists b,
    check_mint_status w = ([EvQuery "isPublicMintActive"], Ok b)
    \/ check_mint_status w
       = ([EvQuery "isPublicMintActive"; EvQuery "mintActive"], Ok b).
Proof.
  unfold check_mint_status. rewrite io_bind_tell.
  destruct (call_isPublicMintActive w) as [b|]; [exists b; left; reflexivity|].
  rewrite io_bind_tell.
  destruct (call_mintActive w) as [b|]; [exists b|exists true]; right; reflexivity.
Qed.

Lemma create_mint_transaction_shape self w :
  (exists e, create_mint_transaction self w = ([], Raise e))
  \/ (exists t, create_mint_transaction self w
                = ([EvTxDict; EvEncode "mint" []], Ok (Some t)))
  \/ (exists r, create_mint_transaction self w
                = ([EvTxDict; EvEncode "mint" []; EvEncode "publicMint" []], Ok r)).
Proof.
  unfold create_mint_transaction.
  rewrite io_bind_lift.
  destruct (eth_get_transaction_count w (public_key self)) as [nonce|]; [|left; eauto].
  rewrite io_bind_lift.
  destruct (get_current_gas_price self (node_gas w)) as [params|]; [|left; eauto].
  rewrite io_bind_lift.
  destruct (to_wei (PyFloat (mint_price self)) ether) as [value|]; [|left; eauto].
  rewrite io_bind_lift.
  destruct (eth_chain_id w) as [chain|]; [|left; eauto].
  rewrite io_bind_tell. cbn -[build_transaction]. right.
  destruct (build_transaction w "mint" [] _) as [t|]; cbn -[build_transaction];
    [left; eauto|].
  right. destruct (build_transaction w "publicMint" [] _) as [t|]; cbn; eauto.
Qed.

Lemma wait_loop_tally w tx_hash remaining :
  forall a,
    count_sends (fst (wait_loop w tx_hash remaining a)) = 0%nat
    /\ count_tx_dicts (fst (wait_loop w tx_hash remaining a)) = 0%nat.
Proof.
  induction remaining as [|n IH]; intros a; [split; reflexivity|].
  cbn [wait_loop]. rewrite io_bind_tell. cbn [fst].
  specialize (IH (S a)).
  destruct (eth_get_transaction_receipt w tx_hash a) as [[r|]|e].
  - destruct (status r =? 1); split; reflexivity.
  - rewrite io_bind_tell. cbn [fst]. exact IH.
  - destruct e; try (split; reflexivity).
    rewrite io_bind_tell. cbn [fst]. exact IH.
Qed.

Lemma wait_for_transaction_tally w tx_hash :
  count_sends (fst (wait_for_transaction w tx_hash)) = 0%nat
  /\ count_tx_dicts (fst (wait_for_transaction w tx_hash)) = 0%nat
  /\ (count_polls (fst (wait_for_transaction w tx_hash)) <= 30)%nat.
Proof.
  unfold wait_for_transaction.
  destruct (wait_loop_tally w tx_hash max_attempts 0) as [Hs Ht].
  repeat split; [exact Hs|exact Ht|apply count_polls_wait_loop].
Qed.

(** Closes the facts about the log of one path through [attempt_mint]. *)
Ltac tally :=
  cbn -[Nat.leb]; repeat split; intros;
  try discriminate; try reflexivity; try lia;
  try match goal with
      | H : _ = confirmation ?x |- _ => destruct x; discriminate
      end.

Lemma in_step_order_from from log :
  in_step_order from log = true -> Forall (fun ev => (from <= step_of ev)%nat) log.
Proof.
  revert from. induction log as [|ev rest IH]; intros from H; [constructor|].
  cbn [in_step_order] in H. apply andb_true_iff in H as [Hev Hrest].
  apply Nat.leb_le in Hev. constructor; [exact Hev|].
  apply IH in Hrest. eapply Forall_impl; [exact Hrest|].
  cbn. intros ev' Hev'. lia.
Qed.

Lemma in_step_order_weaken from from' log :
  (from' <= from)%nat -> in_step_order from log = true -> in_step_order from' log = true.
Proof.
  intros Hle. destruct log as [|ev rest]; [reflexivity|].
  cbn [in_step_order]. rewrite !andb_true_iff, !Nat.leb_le. intros [H1 H2].
  split; [lia|exact H2].
Qed.

(** In a log that is in step order, what comes before an event is of no
    later step and what comes after it of no earlier one. *)
Lemma in_step_order_split before ev after :
  forall from,
    in_step_order from (before ++ ev :: after) = true ->
    Forall (fun ev' => (step_of ev' <= step_of ev)%nat) before
    /\ Forall (fun ev' => (step_of ev <= step_of ev')%nat) after.
Proof.
  induction before as [|b bs IH]; intros from H; cbn [app in_step_order] in H;
    apply andb_true_iff in H as [_ H].
  - split; [constructor|]. apply in_step_order_from. exact H.
  - destruct (IH _ H) as [Hbs Hafter]. split; [|exact Hafter].
    constructor; [|exact Hbs].
    apply in_step_order_from in H. rewrite List.Forall_forall in H.
    apply H. apply in_or_app. right. left. reflexivity.
Qed.

Lemma wait_loop_steps w tx_hash remaining :
  forall a, in_step_order 5 (fst (wait_loop w tx_hash remaining a)) = true.
Proof.
  induction remaining as [|n IH]; intros a; [reflexivity|].
  cbn [wait_loop]. rewrite io_bind_tell. cbn [fst in_step_order step_of Nat.leb andb].
  specialize (IH (S a)).
  destruct (eth_get_transaction_receipt w tx_hash a) as [[r|]|e].
  - destruct (status r =? 1); reflexivity.
  - rewrite io_bind_tell. cbn [fst in_step_order step_of Nat.leb andb]. exact IH.
  - destruct e; try reflexivity.
    rewrite io_bind_tell. cbn [fst in_step_order step_of Nat.leb andb]. exact IH.
Qed.

Lemma wait_for_transaction_steps w tx_hash :
  in_step_order 5 (fst (wait_for_transaction w tx_hash)) = true.
Proof. unfold wait_for_transaction. apply wait_loop_steps. Qed.

(** The counts of one attempt. *)
Lemma attempt_mint_tally self w :
  let log := fst (attempt_mint self w) in
  let r := snd (attempt_mint self w) in
  (count_tx_dicts log <= 1)%nat
  /\ (count_sends log <= 1)%nat
  /\ (count_polls log <= 30)%nat
  /\ (count_tx_dicts log = 0%nat -> count_sends log = 0%nat)
  /\ (count_sends log = 0%nat -> count_polls log = 0%nat)
  /\ (att_exit r = NotReady -> only_queries log = true)
  /\ (att_exit r = BuildFailure -> count_sends log = 0%nat)
  /\ (forall x, att_exit r = confirmation x -> count_sends log = 1%nat).
Proof.
  unfold attempt_mint, attempt_body.
  rewrite io_bind_eq.
  destruct (check_mint_status_shape w) as [b [-> | ->]];
    (destruct b; cbn [negb]; [|tally]);
    rewrite io_bind_eq;
    (destruct (create_mint_transaction_shape self w)
       as [[e ->] | [[t ->] | [[t|] ->]]]; [tally| | |tally]);
    rewrite io_bind_tell, io_bind_lift;
    (destruct (sign_transaction w t (private_key self)) as [signed|e]; [|tally]);
    rewrite io_bind_eq; unfold send_transaction; rewrite io_bind_tell;
    (destruct (eth_send_raw_transaction w (rawTransaction signed)) as [tx_hash|e];
       cbn [mret io_ret fst snd]; [|tally]);
    (destruct (nonempty (Some tx_hash)) as [h|]; [|tally]);
    rewrite io_bind_eq;
    pose proof (wait_for_transaction_tally w h) as (Hs & Ht & Hp);
    (destruct (wait_for_transaction w h) as [l4 [x|e]]);
    cbn [fst snd] in Hs, Ht, Hp;
    unfold count_sends, count_tx_dicts, count_polls in *;
    cbn -[Nat.leb]; rewrite ?app_nil_r, ?Hs, ?Ht; repeat split; intros;
    try discriminate; try reflexivity; try lia;
    try match goal with
        | H : _ = confirmation ?y |- _ => destruct y; discriminate
        | H : confirmation ?y = _ |- _ => destruct y; discriminate
        end.
Qed.

(** Closes a fact about which events a log of known shape holds. *)
Ltac members :=
  cbn [In app]; intros;
  repeat match goal with
         | H : _ \/ _ |- _ => destruct H
         | H : False |- _ => destruct H
         | H : _ = _ |- _ => discriminate H
         end;
  auto 12.

(** The order of one attempt: its events come in the order of the steps,
    a submission is in the log only with the transaction dictionary and
    the signing, and a poll only with the submission. *)
Lemma attempt_mint_order self w :
  let log := fst (attempt_mint self w) in
  in_step_order 0 log = true
  /\ (In EvSend log -> In EvTxDict log /\ In EvSign log)
  /\ (forall n, In (EvPoll n) log -> In EvSend log).
Proof.
  unfold attempt_mint, attempt_body.
  rewrite io_bind_eq.
  destruct (check_mint_status_shape w) as [b [-> | ->]];
    (destruct b; cbn [negb]; [|cbn; repeat split; members]);
    rewrite io_bind_eq;
    (destruct (create_mint_transaction_shape self w)
       as [[e ->] | [[t ->] | [[t|] ->]]];
     [cbn; repeat split; members| | |cbn; repeat split; members]);
    rewrite io_bind_tell, io_bind_lift;
    (destruct (sign_transaction w t (private_key self)) as [signed|e];
     [|cbn; repeat split; members]);
    rewrite io_bind_eq; unfold send_transaction; rewrite io_bind_tell;
    (destruct (eth_send_raw_transaction w (rawTransaction signed)) as [tx_hash|e];
       cbn [mret io_ret fst snd]; [|cbn; repeat split; members]);
    (destruct (nonempty (Some tx_hash)) as [h|]; [|cbn; repeat split; members]);
    rewrite io_bind_eq;
    pose proof (wait_for_transaction_steps w h) as Hsteps.
  all: destruct (wait_for_transaction w h) as [l4 [x|e]]; cbn [fst snd] in Hsteps.
  all: cbn -[In]; rewrite ?app_nil_r.
  all: split; [apply (in_step_order_weaken 5); [lia|exact Hsteps]|].
  all: split; [intros _; cbn [In]; auto 12|intros n _; cbn [In]; auto 12].
Qed.

Lemma in_step_order_earlier from before ev after ev' :
  in_step_order from (before ++ ev :: after) = true ->
  (step_of ev' < step_of ev)%nat ->
  In ev' (before ++ ev :: after) ->
  In ev' before.
Proof.
  intros Horder Hlt Hin.
  apply in_step_order_split in Horder as [_ Hafter].
  apply in_app_or in Hin as [Hin|[->|Hin]]; [exact Hin|lia|].
  rewrite List.Forall_forall in Hafter. apply Hafter in Hin. lia.
Qed.

(** What one attempt does, whatever the answers. It puts at most one
    transaction together, submits at most once and polls at most 30
    times. Its events come in the order of the steps: the submission
    comes after the transaction was put together and signed, and every
    poll after the submission. An attempt that found the mint closed did
    nothing but query the contract; one that failed to build submitted
    nothing; one that reached a confirmation exit submitted once. *)
Theorem attempt_mint_effects self w :
  let log := fst (attempt_mint self w) in
  let r := snd (attempt_mint self w) in
  (count_tx_dicts log <= 1)%nat
  /\ (count_sends log <= 1)%nat
  /\ (count_polls log <= 30)%nat
  /\ (count_tx_dicts log = 0%nat -> count_sends log = 0%nat)
  /\ (count_sends log = 0%nat -> count_polls log = 0%nat)
  /\ (att_exit r = NotReady -> only_queries log = true)
  /\ (att_exit r = BuildFailure -> count_sends log = 0%nat)
  /\ (forall x, att_exit r = confirmation x -> count_sends log = 1%nat)
  /\ in_step_order 0 log = true
  /\ (forall before after,
        log = before ++ EvSend :: after -> In EvTxDict before /\ In EvSign before)
  /\ (forall before n after,
        log = before ++ EvPoll n :: after -> In EvSend before).
Proof.
  cbv zeta.
  pose proof (attempt_mint_tally self w) as T. cbv zeta in T.
  pose proof (attempt_mint_order self w) as (Horder & Hsend & Hpoll). cbv zeta in *.
  destruct T as (T1 & T2 & T3 & T4 & T5 & T6 & T7 & T8).
  do 8 (split; [assumption|]).
  split; [exact Horder|]. split.
  - intros before after Hlog. rewrite Hlog in Horder, Hsend.
    destruct Hsend as [Hdict Hsign]; [apply in_or_app; right; left; reflexivity|].
    split; eapply in_step_order_earlier; eauto; cbn; lia.
  - intros before n after Hlog. rewrite Hlog in Horder, Hpoll.
    eapply in_step_order_earlier; [exact Horder|cbn; lia|].
    apply (Hpoll n). apply in_or_app. right. left. reflexivity.
Qed.

Lemma attempt_mint_keyless self w :
  private_key self = None ->
  (forall tx, exists e, sign_transaction w tx None = Raise e) ->
  count_sends (fst (attempt_mint self w)) = 0%nat
  /\ att_return (snd (attempt_mint self w)) = false
  /\ att_self (snd (attempt_mint self w)) = self
  /\ att_exit (snd (attempt_mint self w)) <> ConfirmedSuccess.
Proof.
  intros Hkey Hsign. unfold attempt_mint, attempt_body.
  rewrite io_bind_eq.
  destruct (check_mint_status_shape w) as [b [-> | ->]];
    (destruct b; cbn [negb]; [|tally]);
    rewrite io_bind_eq;
    (destruct (create_mint_transaction_shape self w)
       as [[e ->] | [[t ->] | [[t|] ->]]]; [tally| | |tally]);
    rewrite io_bind_tell, io_bind_lift, Hkey;
    destruct (Hsign t) as [e ->]; tally.
Qed.

(** A bot that holds no private key, with a signer that refuses to sign
    without one, never submits a transaction and never leaves the mint
    loop: while the success counter is below the target every answer is
    used for an attempt that submits nothing and does not succeed, and
    the loop is still running when the answers are used up. *)
Theorem keyless_bot_never_submits target ws :
  forall self,
    private_key self = None ->
    Forall (fun w => forall tx, exists e, sign_transaction w tx None = Raise e) ws ->
    successful_mints self < target ->
    exists self',
      snd (run_continuous_mint target self ws) = Running self'
      /\ total_attempts self' = total_attempts self + Z.of_nat (length ws)
      /\ successful_mints self' = successful_mints self
      /\ length (fst (run_continuous_mint target self ws)) = length ws
      /\ Forall (fun it => count_sends (it_log it) = 0%nat
                           /\ it_exit it <> ConfirmedSuccess)
                (fst (run_continuous_mint target self ws)).
Proof.
  induction ws as [|w ws IH]; intros self Hkey Hsign Hlt; cbn [run_continuous_mint];
    apply Z.ltb_lt in Hlt as Hb; rewrite Hb.
  - exists self. cbn. repeat split; try lia. constructor.
  - inversion Hsign as [|w' ws' Hw Hws]; subst.
    set (self1 := set_total_attempts self (total_attempts self + 1)).
    destruct (attempt_mint_keyless self1 w Hkey Hw) as (Hs & Hret & Hself & Hexit).
    destruct (attempt_mint self1 w) as [log r]. cbn [fst snd] in Hs, Hret, Hself, Hexit.
    rewrite Hret, Hself. cbn [andb negb]. unfold after. cbn [fst snd].
    destruct (IH self1 Hkey Hws Hlt) as (self' & Hr & Ht & Hsu & Hlen & Hall).
    exists self'. cbn [total_attempts successful_mints set_total_attempts self1] in Ht, Hsu.
    repeat split.
    + exact Hr.
    + rewrite Ht. cbn [length]. lia.
    + exact Hsu.
    + cbn [length]. rewrite Hlen. reflexivity.
    + constructor; [cbn; split; assumption|exact Hall].
Qed.

(** The keyless bot given three attempts that would otherwise be
    confirmed. *)
Lemma keyless_bot_never_submits_three :
  exists self',
    snd (run_continuous_mint 1 keyless_bot [mint_confirmed; mint_confirmed; mint_confirmed])
    = Running self'
    /\ total_attempts self' = total_attempts keyless_bot + Z.of_nat 3
    /\ successful_mints self' = successful_mints keyless_bot
    /\ length (fst (run_continuous_mint 1 keyless_bot
                      [mint_confirmed; mint_confirmed; mint_confirmed])) = 3%nat
    /\ Forall (fun it => count_sends (it_log it) = 0%nat
                         /\ it_exit it <> ConfirmedSuccess)
              (fst (run_continuous_mint 1 keyless_bot
                      [mint_confirmed; mint_confirmed; mint_confirmed])).
Proof.
  apply (keyless_bot_never_submits 1 [mint_confirmed; mint_confirmed; mint_confirmed]
           keyless_bot).
  - reflexivity.
  - repeat constructor; intros tx; exists TypeError; reflexivity.
  - reflexivity.
Defined.





Lemma attempt_mint_total_attempts self n w :
  fst (attempt_mint (set_total_attempts self n) w) = fst (attempt_mint self w)
  /\ att_exit (snd (attempt_mint (set_total_attempts self n) w))
     = att_exit (snd (attempt_mint self w)).
Proof.
  split; unfold attempt_mint, attempt_body;
    change (create_mint_transaction (set_total_attempts self n) w)
      with (create_mint_transaction self w);
    cbn [private_key set_total_attempts];
    attempt_paths self w.
Qed.

Lemma attempt_mint_successful_mints self n w :
  fst (attempt_mint (set_successful_mints self n) w) = fst (attempt_mint self w)
  /\ att_exit (snd (attempt_mint (set_successful_mints self n) w))
     = att_exit (snd (attempt_mint self w)).
Proof.
  split; unfold attempt_mint, attempt_body;
    change (create_mint_transaction (set_successful_mints self n) w)
      with (create_mint_transaction self w);
    cbn [private_key set_successful_mints];
    attempt_paths self w.
Qed.

Lemma seq_numbers t a n :
  map (fun i => t + 1 + Z.of_nat i) (seq a n)
  = map (fun i => t + Z.of_nat i) (seq (S a) n).
Proof.
  rewrite <- seq_shift, map_map. apply map_ext. intros i. lia.
Qed.

(** The loop takes the answers in order, one per attempt, and numbers
    the attempts from [total_attempts + 1] on. What an attempt does and
    how it ends depends on its answers only, not on the counters or on
    the attempts before it. *)
Theorem run_continuous_mint_in_order target ws :
  forall self,
    let its := fst (run_continuous_mint target self ws) in
    map it_number its
    = map (fun i => total_attempts self + Z.of_nat i) (seq 1 (length its))
    /\ map it_exit its
       = map (fun w => att_exit (snd (attempt_mint self w))) (firstn (length its) ws)
    /\ map it_log its
       = map (fun w => fst (attempt_mint self w)) (firstn (length its) ws).
Proof.
  induction ws as [|w ws IH]; intros self; cbn [run_continuous_mint].
  - destruct (successful_mints self <? target); repeat split.
  - destruct (successful_mints self <? target); [|repeat split].
    set (self1 := set_total_attempts self (total_attempts self + 1)).
    destruct (attempt_mint_total_attempts self (total_attempts self + 1) w)
      as [Hlog Hexit].
    fold self1 in Hlog, Hexit.
    pose proof (attempt_mint_cases self1 w) as Hc. cbv zeta in Hc.
    destruct (attempt_mint self1 w) as [log r]. cbn [fst snd] in Hlog, Hexit, Hc.
    assert (Hstep : forall self2,
               total_attempts self2 = total_attempts self + 1 ->
               (forall w', fst (attempt_mint self2 w') = fst (attempt_mint self w')
                           /\ att_exit (snd (attempt_mint self2 w'))
                              = att_exit (snd (attempt_mint self w'))) ->
               let its := fst (after {| it_number := total_attempts self2;
                                        it_log := log;
                                        it_exit := att_exit r;
                                        it_sleep := None |}
                                     (run_continuous_mint target self2 ws)) in
               map it_number its
               = map (fun i => total_attempts self + Z.of_nat i) (seq 1 (length its))
               /\ map it_exit its
                  = map (fun w => att_exit (snd (attempt_mint self w)))
                        (firstn (length its) (w :: ws))
               /\ map it_log its
                  = map (fun w => fst (attempt_mint self w))
                        (firstn (length its) (w :: ws))).
    { intros self2 Ht Hsame. unfold after. cbn [fst snd].
      destruct (IH self2) as (Hn & He & Hl). cbv zeta.
      cbn [map length seq firstn it_number it_exit it_log].
      rewrite Hn, He, Hl, Ht, seq_numbers, Hexit, Hlog. repeat split.
      - f_equal. apply map_ext. intros w'. apply Hsame.
      - f_equal. apply map_ext. intros w'. apply Hsame. }
    destruct Hc as [(_ & Hret & Hs)|(_ & Hret & Hs)]; rewrite Hret, Hs; cbn [andb negb].
    + match goal with |- context [if ?c then _ else _] => destruct c end.
      * cbn. rewrite Hexit, Hlog. repeat split.
      * apply (Hstep (set_successful_mints self1 (successful_mints self1 + 1)));
          [reflexivity|].
        intros w'.
        destruct (attempt_mint_successful_mints self1 (successful_mints self1 + 1) w')
          as [-> ->].
        apply attempt_mint_total_attempts.
    + pose proof (Hstep self1 eq_refl (attempt_mint_total_attempts self _)) as H.
      unfold after in *. cbn [fst snd] in *. cbv zeta in H.
      cbn [map length it_number it_exit it_log] in *. exact H.
Qed.

(** ** Waiting for the mint to open *)

(** While the readiness check answers false, [monitor_and_mint] sleeps
    the check interval after each check and starts nothing. At the first
    check that answers true it starts the mint loop with a target of 1,
    without sleeping and without looking at any later answer, and ends
    when the loop returns. *)
Theorem monitor_and_mint_opens self closed ws :
  Forall (fun c => snd (check_mint_status c) = Ok false) closed ->
  let slept_after c :=
    {| ck_log := fst (check_mint_status c); ck_sleep := Some (check_interval self) |} in
  monitor_and_mint self closed ws = (map slept_after closed, Ok Waiting)
  /\ forall c rest,
       snd (check_mint_status c) = Ok true ->
       monitor_and_mint self (closed ++ c :: rest) ws
       = (map slept_after closed
            ++ [{| ck_log := fst (check_mint_status c); ck_sleep := None |}],
          Ok (Minting (fst (run_continuous_mint 1 self ws))
                      (snd (run_continuous_mint 1 self ws)))).
Proof.
  intros Hclosed slept_after. induction Hclosed as [|c0 closed Hc0 _ [IH1 IH2]].
  - split; [reflexivity|]. intros c rest Hc. cbn [app map monitor_and_mint].
    destruct (check_mint_status c) as [log r]. cbn [snd] in Hc. subst r.
    destruct (run_continuous_mint 1 self ws). reflexivity.
  - split.
    + cbn [map monitor_and_mint]. unfold slept_after at 1.
      destruct (check_mint_status c0) as [log r]. cbn [snd] in Hc0. subst r.
      rewrite IH1. reflexivity.
    + intros c rest Hc. cbn [app map monitor_and_mint]. unfold slept_after at 1.
      destruct (check_mint_status c0) as [log r]. cbn [snd] in Hc0. subst r.
      rewrite (IH2 c rest Hc). reflexivity.
Qed.

(** Two checks find the mint closed, the third finds it open: two sleeps
    of the check interval, then one confirmed attempt, and the loop
    returns. *)
Lemma monitor_and_mint_opens_third_check :
  monitor_and_mint default_bot [mint_not_open; mint_not_open; mint_confirmed; mint_not_open]
                   [mint_confirmed]
  = ([ {| ck_log := [EvQuery "isPublicMintActive"]; ck_sleep := Some 1%Q |};
       {| ck_log := [EvQuery "isPublicMintActive"]; ck_sleep := Some 1%Q |};
       {| ck_log := [EvQuery "isPublicMintActive"]; ck_sleep := None |} ],
     Ok (Minting (fst (run_continuous_mint 1 default_bot [mint_confirmed]))
                 (snd (run_continuous_mint 1 default_bot [mint_confirmed])))).
Proof.
  assert (Hclosed : Forall (fun c => snd (check_mint_status c) = Ok false)
                           [mint_not_open; mint_not_open])
    by (repeat constructor).
  exact (proj2 (monitor_and_mint_opens default_bot [mint_not_open; mint_not_open]
                  [mint_confirmed] Hclosed)
               mint_confirmed [mint_not_open] eq_refl).
Defined.

(** ** Start-up *)

(** [setup_network_config] gives an endpoint exactly for the networks
    [ethereum], [polygon] and [arbitrum] whose variable ([RPC_URL_ETH],
    [RPC_URL_POLYGON], [RPC_URL_ARBITRUM]) is set to a non-empty string,
    and that string is the endpoint; in every other case it raises
    [ValueError]. *)
Theorem setup_network_config_supported (environ : gmap string string) network :
  (forall url,
     setup_network_config environ network = Ok url
     <-> url <> ""
         /\ ((network = "ethereum" /\ environ !! "RPC_URL_ETH" = Some url)
             \/ (network = "polygon" /\ environ !! "RPC_URL_POLYGON" = Some url)
             \/ (network = "arbitrum" /\ environ !! "RPC_URL_ARBITRUM" = Some url)))
  /\ (forall e, setup_network_config environ network = Raise e -> e = ValueError).
Proof.
  unfold setup_network_config, getenv.
  assert (Hne : forall (o : option string) url,
             (match nonempty o with Some u => Ok u | None => Raise ValueError end
              = Ok url) <-> (url <> "" /\ o = Some url)).
  { intros [[|c s]|] url; cbn; split; intros H; try discriminate;
      try (injection H as <-; split; [discriminate|reflexivity]);
      destruct H as [Hn H]; try discriminate; injection H as <-;
      first [reflexivity | exfalso; apply Hn; reflexivity]. }
  split.
  - intros url.
    destruct (decide (network = "ethereum")) as [->|H1].
    { rewrite lookup_insert_eq. cbn [mjoin option_join]. rewrite Hne.
      split; [intros [? ?]; auto|].
      intros (? & [(_ & ?)|[([=] & _)|([=] & _)]]). auto. }
    rewrite lookup_insert_ne by done.
    destruct (decide (network = "polygon")) as [->|H2].
    { rewrite lookup_insert_eq. cbn [mjoin option_join]. rewrite Hne.
      split; [intros [? ?]; auto|].
      intros (? & [([=] & _)|[(_ & ?)|([=] & _)]]). auto. }
    rewrite lookup_insert_ne by done.
    destruct (decide (network = "arbitrum")) as [->|H3].
    { rewrite lookup_insert_eq. cbn [mjoin option_join]. rewrite Hne.
      split; [intros [? ?]; auto|].
      intros (? & [([=] & _)|[([=] & _)|(_ & ?)]]). auto. }
    rewrite lookup_insert_ne by done. rewrite lookup_empty. cbn.
    split; [discriminate|]. intros (_ & [(? & _)|[(? & _)|(? & _)]]); contradiction.
  - intros e. destruct (nonempty _); [discriminate|]. intros [= <-]. reflexivity.
Qed.

Section InitFacts.

Variable py_int : string -> result Z.
Variable py_float : string -> result Q.
Variable abi : Type.
Variable json_loads : string -> result abi.
Variable eth_contract : string -> abi -> result unit.

(** Naming a wallet that has no file, or an empty one, aborts start-up:
    no bot is returned, whatever keys the environment holds, and once
    the network and the wallet manager are set up the exception is
    [ValueError]. *)
Theorem init_missing_wallet (environ : gmap string string) wm (fs : wallets_dir)
    network wallet_name name :
  nonempty wallet_name = Some name ->
  get_wallet fs name = None \/ get_wallet fs name = Some ∅ ->
  (forall self,
     init py_int py_float abi json_loads eth_contract environ wm fs network wallet_name
     <> Ok self)
  /\ (forall url m,
        setup_network_config environ (lower network) = Ok url ->
        wm = Ok m ->
        init py_int py_float abi json_loads eth_contract environ wm fs network wallet_name
        = Raise ValueError).
Proof.
  intros Hname Hfile.
  assert (H : forall url m,
             setup_network_config environ (lower network) = Ok url ->
             wm = Ok m ->
             init py_int py_float abi json_loads eth_contract environ wm fs network
                  wallet_name = Raise ValueError).
  { intros url m Hurl Hm. unfold init. rewrite Hurl, Hm, Hname. cbn [mbind result_bind].
    destruct Hfile as [-> | ->]; [reflexivity|].
    destruct (decide (∅ = ∅)); [reflexivity|contradiction]. }
  split; [|exact H].
  intros self Hinit.
  destruct (setup_network_config environ (lower network)) as [url|] eqn:Hurl.
  - destruct wm as [m|] eqn:Hm.
    + rewrite (H url m eq_refl eq_refl) in Hinit. discriminate.
    + unfold init in Hinit. rewrite Hurl in Hinit. discriminate.
  - unfold init in Hinit. rewrite Hurl in Hinit. discriminate.
Qed.

(** A bot that start-up returns has its counters at 0, the lower-cased
    network, and the non-empty contract address of the environment. Started
    with a wallet name, it carries that name, the address of the wallet
    file and the key the key store gives for it, and ignores
    [PRIVATE_KEY] and [PUBLIC_KEY]; started without one, it is named
    [default] and takes both from the environment. *)
Theorem init_keys (environ : gmap string string) wm (fs : wallets_dir)
    net wname self :
  init py_int py_float abi json_loads eth_contract environ wm fs net wname = Ok self ->
  total_attempts self = 0 /\ successful_mints self = 0
  /\ network self = lower net
  /\ contract_address self <> ""
  /\ environ !! "CONTRACT_ADDRESS" = Some (contract_address self)
  /\ match nonempty wname with
     | Some name =>
         wallet_name self = name
         /\ (exists w : wallet,
               fs !! name = Some w /\ w !! "address" = Some (JStr (public_key self)))
         /\ exists m, wm = Ok m
                      /\ private_key self = get_wallet_private_key m fs name
     | None =>
         wallet_name self = "default"
         /\ private_key self = environ !! "PRIVATE_KEY"
         /\ environ !! "PUBLIC_KEY" = Some (public_key self)
     end.
Proof.
  unfold init. intros H.
  apply result_bind_inv in H as (url & _ & H).
  apply result_bind_inv in H as (m & Hm & H).
  apply result_bind_inv in H as ([[pk pub] wn] & Hkeys & H).
  apply result_bind_inv in H as ([address abi_text] & Hcontract & H).
  repeat (apply result_bind_inv in H as (? & ? & H)).
  injection H as <-. cbn [total_attempts successful_mints network contract_address
                            wallet_name private_key public_key].
  assert (Hpub : pub = Some (JStr x7)).
  { destruct pub as [[]|]; try discriminate. congruence. }
  assert (Haddr : getenv environ "CONTRACT_ADDRESS" = Some address /\ address <> "").
  { destruct (getenv environ "CONTRACT_ADDRESS") as [[|c a]|];
      cbn [nonempty] in Hcontract; try discriminate.
    destruct (nonempty (getenv environ "MINT_FUNCTION_ABI")); [|discriminate].
    injection Hcontract as <- _. split; [reflexivity|discriminate]. }
  destruct Haddr as [Haddr Hne]. unfold getenv in Haddr.
  repeat split; try assumption.
  destruct (nonempty wname) as [name|].
  - unfold get_wallet in Hkeys. destruct (fs !! name) as [w|] eqn:Hw; [|discriminate].
    destruct (decide (w = ∅)); [discriminate|].
    apply result_bind_inv in Hkeys as (a & Ha & Hkeys). injection Hkeys as <- <- <-.
    split; [reflexivity|]. split.
    + exists w. split; [reflexivity|]. unfold getitem in Ha.
      destruct (w !! "address"); [|discriminate]. congruence.
    + exists m. split; [exact Hm|reflexivity].
  - injection Hkeys as <- <- <-. unfold getenv in *.
    split; [reflexivity|]. split; [reflexivity|].
    destruct (environ !! "PUBLIC_KEY"); cbn in Hpub; congruence.
Qed.

End InitFacts.

(** Scenario E with the name of a wallet that was never added. *)
Lemma init_missing_wallet_ghost :
  init int_of_default float_of_default unit (fun _ => Ok tt) (fun _ _ => Ok tt)
       scenario_E_environ (Ok manager_1) scenario_E_wallets "ethereum" (Some "ghost")
  = Raise ValueError.
Proof.
  assert (H1 : get_wallet scenario_E_wallets "ghost" = None)
    by (vm_compute; reflexivity).
  assert (H2 : setup_network_config scenario_E_environ (lower "ethereum")
               = Ok "https://node.example")
    by (vm_compute; reflexivity).
  pose proof (init_missing_wallet int_of_default float_of_default unit
                (fun _ => Ok tt) (fun _ _ => Ok tt)
                scenario_E_environ (Ok manager_1) scenario_E_wallets "ethereum"
                (Some "ghost") "ghost" eq_refl (or_introl H1)) as [_ K].
  exact (K _ _ H2 eq_refl).
Defined.

(** Scenario E under the right key: the bot carries the wallet's name,
    address and key. *)
Lemma init_keys_scenario_E :
  scenario_E_init manager_1 = Ok scenario_E_bot
  /\ wallet_name scenario_E_bot = "main"
  /\ (exists w : wallet,
        scenario_E_wallets !! "main" = Some w
        /\ w !! "address" = Some (JStr (public_key scenario_E_bot)))
  /\ exists m, Ok manager_1 = Ok m
               /\ private_key scenario_E_bot
                  = get_wallet_private_key m scenario_E_wallets "main".
Proof.
  assert (H : scenario_E_init manager_1 = Ok scenario_E_bot) by (vm_compute; reflexivity).
  split; [exact H|].
  pose proof (init_keys int_of_default float_of_default unit
                (fun _ => Ok tt) (fun _ _ => Ok tt)
                scenario_E_environ (Ok manager_1) scenario_E_wallets "ethereum"
                (Some "main") scenario_E_bot H) as K.
  cbn [nonempty] in K.
  destruct K as (_ & _ & _ & _ & _ & K).
  exact K.
Defined.

(** ** The key store, further *)

Lemma private_key_round_trip self private_key n :
  fernet_round_trip (cipher self) ->
  decrypt_private_key self (encrypt_private_key self private_key n) = Ok private_key.
Proof.
  intros Hrt. unfold decrypt_private_key, encrypt_private_key, str_encode, bytes_decode.
  rewrite String.list_byte_of_string_of_list_byte, Hrt. cbn.
  rewrite String.string_of_list_byte_of_string. reflexivity.
Qed.

(** Under a cipher that keeps the contract of the cipher library, the key
    store gives back the private key of a wallet it has just added. *)
Theorem add_wallet_then_private_key account_from_key self (fs : wallets_dir)
    name private_key public_key now n (fs' : wallets_dir) :
  fernet_round_trip (cipher self) ->
  add_wallet account_from_key self fs name private_key public_key now n = (true, fs') ->
  get_wallet_private_key self fs' name = Some private_key.
Proof.
  intros Hrt. unfold add_wallet.
  destruct (account_from_key private_key) as [address|]; [|discriminate].
  match goal with |- context [if ?c then _ else _] => destruct c end; [discriminate|].
  intros [= <-]. unfold get_wallet_private_key, get_wallet.
  lookups. rewrite (private_key_round_trip _ _ _ Hrt). reflexivity.
Qed.

(** The wallet of scenario E under the manager that added it. *)
Lemma add_wallet_then_private_key_main :
  get_wallet_private_key manager_1 scenario_E_wallets "main" = Some "0x01".
Proof.
  assert (Hadd : add_wallet address_of_key manager_1 ∅ "main" "0x01" None
                   "2024-01-01T00:00:00" nonce_0 = (true, scenario_E_wallets))
    by (vm_compute; reflexivity).
  exact (add_wallet_then_private_key address_of_key manager_1 ∅ "main" "0x01" None
           "2024-01-01T00:00:00" nonce_0 scenario_E_wallets
           (keyed_cipher_round_trip "k1") Hadd).
Defined.

(** [add_wallet] accepts a key exactly when an address can be derived
    from it and the address given with it, if any and not empty, is that
    address up to the case of its letters. A rejected wallet leaves the
    directory as it was. An accepted one is filed under its name with the
    derived address, not the one given, and no other file is touched. *)
Theorem add_wallet_accepts account_from_key self (fs : wallets_dir)
    name private_key public_key now n :
  let r := add_wallet account_from_key self fs name private_key public_key now n in
  (fst r = true
   <-> exists address,
         account_from_key private_key = Ok address
         /\ (public_key = None \/ public_key = Some ""
             \/ exists given, public_key = Some given /\ lower given = lower address))
  /\ (fst r = false -> snd r = fs)
  /\ (forall address,
        fst r = true -> account_from_key private_key = Ok address ->
        (exists w : wallet, snd r !! name = Some w
                            /\ w !! "address" = Some (JStr address)
                            /\ w !! "name" = Some (JStr name))
        /\ forall other, other <> name -> snd r !! other = fs !! other).
Proof.
  unfold add_wallet.
  destruct (account_from_key private_key) as [address|e].
  2:{ cbn. repeat split; try discriminate; try reflexivity.
      intros (a & [=] & _). }
  destruct public_key as [given|].
  - destruct (String.eqb_spec given "") as [->|Hne]; cbn [negb andb].
    + cbn [fst snd]. repeat split; try discriminate; eauto.
      * eexists. split; [apply lookup_insert_eq|]. lookups. injection H0 as <-. auto.
      * intros other Ho. rewrite lookup_insert_ne by done. reflexivity.
    + destruct (String.eqb_spec (lower given) (lower address)) as [Heq|Hdiff];
        cbn [negb fst snd]; repeat split; try discriminate; try reflexivity.
      * eauto 7.
      * eexists. split; [apply lookup_insert_eq|]. lookups. injection H0 as <-. auto.
      * intros other Ho. rewrite lookup_insert_ne by done. reflexivity.
      * intros (a & [= <-] & [[=]|[[= ->]|(g & [= <-] & Hg)]]); congruence.
  - cbn [fst snd]. repeat split; try discriminate; eauto.
    + eexists. split; [apply lookup_insert_eq|]. lookups. injection H0 as <-. auto.
    + intros other Ho. rewrite lookup_insert_ne by done. reflexivity.
Qed.

(** [remove_wallet] returns true exactly when the wallet had a file.
    Afterwards the key store knows nothing of the name: [get_wallet] and
    [get_wallet_private_key] give [None], [update_wallet_stats] returns
    false and writes nothing, and a second removal returns false. No other
    wallet is touched. *)
Theorem remove_wallet_forgets self (fs : wallets_dir) name :
  let r := remove_wallet fs name in
  (fst r = true <-> is_Some (fs !! name))
  /\ get_wallet (snd r) name = None
  /\ get_wallet_private_key self (snd r) name = None
  /\ (forall success gas_spent now,
        update_wallet_stats (snd r) name success gas_spent now = Ok (false, snd r))
  /\ remove_wallet (snd r) name = (false, snd r)
  /\ forall other, other <> name -> snd r !! other = fs !! other.
Proof.
  unfold remove_wallet.
  assert (Hgone : forall fs0 : wallets_dir, fs0 !! name = None ->
            get_wallet fs0 name = None
            /\ get_wallet_private_key self fs0 name = None
            /\ (forall success gas_spent now,
                  update_wallet_stats fs0 name success gas_spent now = Ok (false, fs0))
            /\ match fs0 !! name with
               | Some _ => (true, delete name fs0)
               | None => (false, fs0)
               end = (false, fs0)).
  { intros fs0 H0. unfold get_wallet_private_key, update_wallet_stats, get_wallet.
    rewrite H0. auto. }
  destruct (fs !! name) as [w|] eqn:Hw; cbn [fst snd].
  - destruct (Hgone (delete name fs) (lookup_delete_eq fs name)) as (? & ? & ? & ?).
    repeat split; eauto.
    intros other Ho. apply lookup_delete_ne. congruence.
  - destruct (Hgone fs Hw) as (? & ? & ? & ?).
    repeat split; eauto; try discriminate.
    intros [? [=]].
Qed.

(** What a call of [update_wallet_stats] that returns has written: nothing
    when it returns false, which it does exactly for a wallet with no file
    or an empty one; otherwise the record of the wallet with the time of
    the call as [last_used] and, of the other keys, only the statistics
    changed. *)
Lemma update_wallet_stats_written (fs : wallets_dir) name success gas now b fs' :
  update_wallet_stats fs name success gas now = Ok (b, fs') ->
  (b = false /\ fs' = fs /\ (fs !! name = None \/ fs !! name = Some ∅))
  \/ (b = true
      /\ exists w w' : wallet,
           fs !! name = Some w /\ w <> ∅ /\ fs' = <[name := w']> fs
           /\ w' !! "last_used" = Some (JStr now)
           /\ forall key, ~ In key statistics_keys -> w' !! key = w !! key).
Proof.
  unfold update_wallet_stats, get_wallet.
  destruct (fs !! name) as [w|]; [|intros [= <- <-]; auto].
  destruct (decide (w = ∅)) as [->|Hne]; [intros [= <- <-]; auto|].
  intros H. right.
  apply result_bind_inv in H as (w1 & H1 & H).
  assert (K1 : w1 !! "last_used" = Some (JStr now)
               /\ forall key, ~ In key statistics_keys -> w1 !! key = w !! key).
  { destruct success; apply result_bind_inv in H1 as (n1 & _ & H1);
      injection H1 as <-; (split; [lookups; reflexivity|]);
      intros key Hk; cbn [In statistics_keys] in Hk;
      rewrite !lookup_insert_ne by (intros <-; tauto); reflexivity. }
  clear H1. destruct K1 as (Hl1 & Hk1).
  apply result_bind_inv in H as (total & _ & H).
  apply result_bind_inv in H as (g & _ & H).
  apply result_bind_inv in H as (total' & _ & H).
  apply result_bind_inv in H as (positive & _ & H).
  apply result_bind_inv in H as (w2 & H2 & H).
  injection H as <- <-. split; [reflexivity|].
  exists w, w2. repeat split; try assumption; try reflexivity.
  - destruct positive.
    + apply result_bind_inv in H2 as (? & _ & H2).
      apply result_bind_inv in H2 as (? & _ & H2).
      apply result_bind_inv in H2 as (? & _ & H2).
      injection H2 as <-. lookups. exact Hl1.
    + injection H2 as <-. lookups. exact Hl1.
  - intros key Hk. rewrite <- (Hk1 key Hk).
    cbn [In statistics_keys] in Hk.
    destruct positive.
    + apply result_bind_inv in H2 as (? & _ & H2).
      apply result_bind_inv in H2 as (? & _ & H2).
      apply result_bind_inv in H2 as (? & _ & H2).
      injection H2 as <-.
      rewrite !lookup_insert_ne by (intros <-; tauto). reflexivity.
    + injection H2 as <-.
      rewrite !lookup_insert_ne by (intros <-; tauto). reflexivity.
Qed.

(** A call of [update_wallet_stats] that returns keeps what identifies the
    wallets: no file appears or disappears, the name, address, encrypted
    key, creation time and tags of every record stay as they were, and so
    does the private key the key store gives for any name. When it returns
    true the record carries the time of the call as [last_used]; it returns
    false exactly for a wallet with no file or an empty one. *)
Theorem update_wallet_stats_keeps_identity self (fs : wallets_dir) name success
    gas_spent now b (fs' : wallets_dir) :
  update_wallet_stats fs name success gas_spent now = Ok (b, fs') ->
  (forall n, get_wallet_private_key self fs' n = get_wallet_private_key self fs n)
  /\ (forall n key,
        In key ["name"; "address"; "private_key_encrypted"; "created_at"; "tags"] ->
        fs' !! n ≫= (fun w : wallet => w !! key) = fs !! n ≫= (fun w : wallet => w !! key))
  /\ (forall n, is_Some (fs' !! n) <-> is_Some (fs !! n))
  /\ (b = true ->
      exists w' : wallet, fs' !! name = Some w' /\ w' !! "last_used" = Some (JStr now))
  /\ (b = false <-> get_wallet fs name = None \/ get_wallet fs name = Some ∅).
Proof.
  intros H. apply update_wallet_stats_written in H.
  destruct H as [(-> & -> & Hw)|(-> & w & w' & Hw & Hne & -> & Hlast & Hkeep)].
  - repeat split; auto; try discriminate; tauto.
  - assert (Hkeys : forall n key,
              In key ["name"; "address"; "private_key_encrypted"; "created_at"; "tags"] ->
              <[name := w']> fs !! n ≫= (fun w : wallet => w !! key)
              = fs !! n ≫= (fun w : wallet => w !! key)).
    { intros n key Hk. destruct (decide (n = name)) as [->|Hn].
      - rewrite lookup_insert_eq, Hw. cbn. apply Hkeep.
        cbn [In statistics_keys]. cbn [In] in Hk.
        intros Hs. repeat destruct Hk as [<-|Hk]; try contradiction;
          repeat destruct Hs as [Hs|Hs]; try discriminate; contradiction.
      - rewrite lookup_insert_ne by done. reflexivity. }
    split; [|split; [exact Hkeys|repeat split]].
    + intros n. unfold get_wallet_private_key, get_wallet.
      pose proof (Hkeys n "private_key_encrypted" ltac:(cbn; tauto)) as Hk.
      destruct (<[name := w']> fs !! n) as [x|], (fs !! n) as [y|]; cbn in Hk;
        try rewrite Hk; try reflexivity.
      rewrite <- Hk. reflexivity.
    + destruct (decide (n = name)) as [->|Hn]; [rewrite Hw; eauto|].
      rewrite lookup_insert_ne by done. auto.
    + destruct (decide (n = name)) as [->|Hn]; [rewrite lookup_insert_eq; eauto|].
      rewrite lookup_insert_ne by done. auto.
    + intros _. exists w'. split; [apply lookup_insert_eq|exact Hlast].
    + discriminate.
    + unfold get_wallet. rewrite Hw. intros [[=]|[= ->]]. contradiction.
Qed.

(** The first update of the wallet of scenario E. *)
Lemma update_wallet_stats_keeps_identity_main :
  update_wallet_stats scenario_E_wallets "main" true (JFloat (float_literal (1 # 100)))
    "2024-01-02T00:00:00" = Ok (true, scenario_E_first)
  /\ get_wallet_private_key manager_1 scenario_E_first "main" = Some "0x01".
Proof.
  assert (H : update_wallet_stats scenario_E_wallets "main" true (JFloat (float_literal (1 # 100)))
                "2024-01-02T00:00:00" = Ok (true, scenario_E_first))
    by (vm_compute; reflexivity).
  assert (E : get_wallet_private_key manager_1 scenario_E_wallets "main" = Some "0x01")
    by (vm_compute; reflexivity).
  split; [exact H|].
  pose proof (update_wallet_stats_keeps_identity manager_1 scenario_E_wallets "main" true
                (JFloat (float_literal (1 # 100))) "2024-01-02T00:00:00" true scenario_E_first H) as K.
  destruct K as (K & _).
  exact (eq_trans (K "main") E).
Defined.

(** A record that lacks the counters, such as one [Config.save_wallet_info]
    wrote: the update after a failed mint raises [KeyError], since the rate
    reads [successful_mints] which only a successful update creates, and
    writes nothing; the update after a successful mint returns true and
    leaves the counters at one mint out of one. The gas spent is taken to
    be a value that can be added to 0. *)
Theorem update_wallet_stats_without_counters (fs : wallets_dir) name (w : wallet)
    gas_spent total_gas now :
  fs !! name = Some w -> w <> ∅ ->
  w !! "successful_mints" = None -> w !! "failed_mints" = None ->
  w !! "total_mints" = None -> w !! "total_gas_spent" = None ->
  json_add (JInt 0) gas_spent = Ok total_gas ->
  update_wallet_stats fs name false gas_spent now = Raise KeyError
  /\ exists (fs' : wallets_dir) (w' : wallet),
       update_wallet_stats fs name true gas_spent now = Ok (true, fs')
       /\ fs' !! name = Some w'
       /\ w' !! "total_mints" = Some (JInt 1)
       /\ w' !! "successful_mints" = Some (JInt 1)
       /\ w' !! "failed_mints" = None
       /\ w' !! "total_gas_spent" = Some total_gas
       /\ w' !! "success_rate" = Some (JFloat hundred).
Proof.
  intros Hw Hne Hs Hf Ht Hgas Hadd.
  unfold update_wallet_stats, get_wallet. rewrite Hw.
  destruct (decide (w = ∅)) as [->|_]; [contradiction|].
  unfold get_or_zero, getitem. split.
  - repeat first [progress lookups | rewrite Hs | rewrite Hf | rewrite Ht | rewrite Hgas
                 | rewrite Hadd | rewrite json_positive_int by lia
                 | progress cbn [default from_option id]].
    reflexivity.
  - assert (Hrate : json_percent (JInt (0 + 1)) (JInt (0 + 1)) = Ok (JFloat hundred))
      by (vm_compute; reflexivity).
    eexists _, _. split.
    + repeat first [progress lookups | rewrite Hs | rewrite Hf | rewrite Ht | rewrite Hgas
                   | rewrite Hadd | rewrite json_positive_int by lia
                   | rewrite Hrate
                   | progress cbn [default from_option id]].
      reflexivity.
    + split; [apply lookup_insert_eq|].
      lookups. rewrite Hf. repeat split.
Qed.

(** The record [Config.save_wallet_info] writes for a wallet. *)
Lemma update_wallet_stats_without_counters_spare :
  update_wallet_stats config_saved_wallets "spare" false (JInt 21000)
    "2024-01-02T00:00:00" = Raise KeyError.
Proof.
  assert (Hw : config_saved_wallets !! "spare"
               = Some (Config.load_wallet_info config_saved_wallets "spare"))
    by (vm_compute; reflexivity).
  assert (Hne : Config.load_wallet_info config_saved_wallets "spare" <> ∅).
  { intros E. apply (f_equal (fun m : wallet => m !! "name")) in E.
    revert E. vm_compute. discriminate. }
  exact (proj1 (update_wallet_stats_without_counters config_saved_wallets "spare"
                  (Config.load_wallet_info config_saved_wallets "spare")
                  (JInt 21000) (JInt 21000) "2024-01-02T00:00:00"
                  Hw Hne eq_refl eq_refl eq_refl eq_refl eq_refl)).
Defined.

(** [get_all_wallets] lists exactly the non-empty records of the files of
    the directory. A wallet [add_wallet] has accepted is listed; after
    [remove_wallet] every wallet listed is the record of another name. *)
Theorem get_all_wallets_lists (fs : wallets_dir) :
  (forall w : wallet,
     In w (get_all_wallets fs) <-> w <> ∅ /\ exists name, fs !! name = Some w)
  /\ (forall account_from_key self name private_key public_key now n (fs' : wallets_dir),
        add_wallet account_from_key self fs name private_key public_key now n = (true, fs') ->
        exists w : wallet, fs' !! name = Some w /\ In w (get_all_wallets fs'))
  /\ (forall name (w : wallet),
        In w (get_all_wallets (snd (remove_wallet fs name))) ->
        exists other, other <> name /\ fs !! other = Some w).
Proof.
  assert (Hin : forall (fs0 : wallets_dir) (w : wallet),
            In w (get_all_wallets fs0) <-> w <> ∅ /\ exists name, fs0 !! name = Some w).
  { intros fs0 w. unfold get_all_wallets. rewrite filter_In, bool_decide_eq_true.
    rewrite <- list_elem_of_In, list_elem_of_fmap. split.
    - intros [([name w0] & -> & Hin) Hne]. split; [exact Hne|].
      exists name. apply elem_of_map_to_list in Hin. exact Hin.
    - intros [Hne (name & Hw)]. split; [|exact Hne].
      exists (name, w). split; [reflexivity|]. apply elem_of_map_to_list. exact Hw. }
  split; [apply Hin|split].
  - intros account_from_key self name private_key public_key now n fs'. unfold add_wallet.
    destruct (account_from_key private_key) as [address|]; [|discriminate].
    match goal with |- context [if ?c then _ else _] => destruct c end; [discriminate|].
    intros [= <-]. eexists. split; [apply lookup_insert_eq|].
    apply Hin. split; [|eexists; apply lookup_insert_eq].
    intros E. apply (f_equal (fun m : wallet => m !! "name")) in E.
    rewrite lookup_insert_eq, lookup_empty in E. discriminate.
  - intros name w Hw. apply Hin in Hw as [_ (other & Ho)].
    unfold remove_wallet in Ho. exists other.
    destruct (fs !! name) eqn:Hn; cbn [snd] in Ho.
    + destruct (decide (other = name)) as [->|Hne].
      * rewrite lookup_delete_eq in Ho. discriminate.
      * rewrite lookup_delete_ne in Ho by done. auto.
    + split; [|exact Ho]. intros ->. congruence.
Qed.

(** ** Settings, wallet files and the transaction log *)

(** [Config.update_wallet_stats] keeps none of the statistics it computes:
    whenever it returns for a wallet that has a non-empty file, the file is
    the one [save_wallet_info] writes for the address and the encrypted key
    of the record, with [mint_count] 0, [success_rate] 0.0, no [last_used],
    no [total_attempts] and none of the counters of the key store. *)
Theorem config_update_wallet_stats_resets (fs : wallets_dir) name (w : wallet)
    success now now_saved (fs' : wallets_dir) :
  fs !! name = Some w -> w <> ∅ ->
  Config.update_wallet_stats fs name success now now_saved = Ok fs' ->
  exists address private_key_encrypted,
    w !! "address" = Some address
    /\ w !! "private_key_encrypted" = Some private_key_encrypted
    /\ fs' = snd (Config.save_wallet_info fs name address private_key_encrypted now_saved)
    /\ exists w' : wallet,
         fs' !! name = Some w'
         /\ w' !! "mint_count" = Some (JInt 0)
         /\ w' !! "success_rate" = Some (JFloat (float_literal 0))
         /\ w' !! "last_used" = Some JNull
         /\ w' !! "created_at" = Some (JStr now_saved)
         /\ w' !! "total_attempts" = None
         /\ w' !! "total_mints" = None
         /\ w' !! "successful_mints" = None
         /\ w' !! "failed_mints" = None.
Proof.
  intros Hw Hne. unfold Config.update_wallet_stats, Config.load_wallet_info.
  rewrite Hw. cbn [default from_option id].
  destruct (decide (w = ∅)) as [->|_]; [contradiction|].
  intros H.
  apply result_bind_inv in H as (w1 & H1 & H).
  assert (K1 : w1 !! "address" = w !! "address"
               /\ w1 !! "private_key_encrypted" = w !! "private_key_encrypted").
  { destruct success.
    - apply result_bind_inv in H1 as (n1 & _ & H1). injection H1 as <-.
      lookups. auto.
    - injection H1 as <-. lookups. auto. }
  clear H1. destruct K1 as (Ha & Hp).
  apply result_bind_inv in H as (total & _ & H).
  apply result_bind_inv in H as (positive & _ & H).
  apply result_bind_inv in H as (rate & _ & H).
  apply result_bind_inv in H as (address & Haddr & H).
  apply result_bind_inv in H as (enc & Henc & H).
  injection H as <-.
  unfold getitem in Haddr, Henc. revert Haddr Henc. lookups. rewrite Ha, Hp.
  destruct (w !! "address") as [a|]; [|discriminate]. intros [= ->].
  destruct (w !! "private_key_encrypted") as [p|]; [|discriminate]. intros [= ->].
  exists address, enc. do 3 (split; [reflexivity|]).
  unfold Config.save_wallet_info. cbn [snd].
  eexists. split; [first [apply lookup_insert_eq | reflexivity]|].
  lookups. rewrite lookup_empty. repeat split.
Qed.

(** The wallet of scenario E after its three mints, then one call of
    [Config.update_wallet_stats]. *)
Lemma config_update_wallet_stats_resets_main :
  exists w' : wallet,
    scenario_E_config !! "main" = Some w'
    /\ w' !! "total_mints" = None.
Proof.
  assert (Hw : scenario_E_after !! "main"
               = Some (Config.load_wallet_info scenario_E_after "main"))
    by (vm_compute; reflexivity).
  assert (Hne : Config.load_wallet_info scenario_E_after "main" <> ∅).
  { intros E. apply (f_equal (fun m : wallet => m !! "name")) in E.
    revert E. vm_compute. discriminate. }
  assert (H : Config.update_wallet_stats scenario_E_after "main" true
                "2024-01-05T00:00:00" "2024-01-05T00:00:01" = Ok scenario_E_config)
    by (vm_compute; reflexivity).
  pose proof (config_update_wallet_stats_resets scenario_E_after "main"
                (Config.load_wallet_info scenario_E_after "main") true
                "2024-01-05T00:00:00" "2024-01-05T00:00:01" scenario_E_config
                Hw Hne H) as K.
  destruct K as (a & p & _ & _ & _ & w' & Hw' & _ & _ & _ & _ & _ & Ht & _).
  exists w'. split; assumption.
Defined.

(** [load_settings] always gives every default setting a value, the value
    of the settings file where the file has one and the default where it
    has not. What [save_settings] wrote is loaded back unchanged exactly
    when it gave every default setting a value; in particular saving what
    was loaded and loading again changes nothing. *)
Theorem load_settings_save_settings :
  (forall file k, is_Some (Config.DEFAULT_SETTINGS !! k) ->
                  is_Some (Config.load_settings file !! k))
  /\ (forall user_settings k,
        Config.load_settings (Config.Settings user_settings) !! k
        = match user_settings !! k with
          | Some v => Some v
          | None => Config.DEFAULT_SETTINGS !! k
          end)
  /\ (forall settings,
        Config.load_settings (Config.save_settings settings) = settings
        <-> forall k, is_Some (Config.DEFAULT_SETTINGS !! k) -> is_Some (settings !! k))
  /\ (forall file,
        Config.load_settings (Config.save_settings (Config.load_settings file))
        = Config.load_settings file).
Proof.
  assert (Hget : forall (u : gmap string json) k,
            (u ∪ Config.DEFAULT_SETTINGS) !! k
            = match u !! k with
              | Some v => Some v
              | None => Config.DEFAULT_SETTINGS !! k
              end).
  { intros u k. rewrite lookup_union. destruct (u !! k), (Config.DEFAULT_SETTINGS !! k);
      reflexivity. }
  assert (Hfill : forall file k, is_Some (Config.DEFAULT_SETTINGS !! k) ->
                    is_Some (Config.load_settings file !! k)).
  { intros [| |u] k Hk; cbn [Config.load_settings]; try exact Hk.
    rewrite Hget. destruct (u !! k); [eauto|exact Hk]. }
  assert (Hsave : forall settings,
            Config.load_settings (Config.save_settings settings) = settings
            <-> forall k, is_Some (Config.DEFAULT_SETTINGS !! k) -> is_Some (settings !! k)).
  { intros s. unfold Config.save_settings. cbn [Config.load_settings]. split.
    - intros E k Hk. rewrite <- E, Hget. destruct (s !! k); [eauto|exact Hk].
    - intros Hall. apply map_eq. intros k. rewrite Hget.
      destruct (s !! k) eqn:Hs; [reflexivity|].
      destruct (Config.DEFAULT_SETTINGS !! k) eqn:Hd; [|reflexivity].
      destruct (Hall k) as [v Hv]; [rewrite Hd; eauto|]. congruence. }
  repeat split.
  - exact Hfill.
  - intros u k. cbn [Config.load_settings]. apply Hget.
  - apply Hsave.
  - apply Hsave.
  - intros file. apply Hsave. intros k. apply Hfill.
Qed.

(** [save_transaction_log] adds its entry at the end of the log of the day
    and touches no other file; a log that is absent or is not JSON starts
    anew with the entry alone. Two calls on the same day leave the two
    entries at the end of the log of the day, in the order of the calls. *)
Theorem save_transaction_log_appends (logs_dir : gmap string Config.log_file)
    tx_hash network status gas_used gas_price value now block_time
    tx_hash' network' status' gas_used' gas_price' value' now' block_time' today :
  let before :=
    match logs_dir !! ("logs/transactions_" ++ today ++ ".json")%string with
    | Some (Config.Logs entries) => entries
    | _ => []
    end in
  let first := Config.save_transaction_log logs_dir tx_hash network status
                 gas_used gas_price value now block_time today in
  let second := Config.save_transaction_log (snd first) tx_hash' network' status'
                  gas_used' gas_price' value' now' block_time' today in
  let entry := {| Config.le_tx_hash := tx_hash; Config.le_network := network;
                  Config.le_status := status; Config.le_gas_used := gas_used;
                  Config.le_gas_price_gwei := gas_price; Config.le_value_eth := value;
                  Config.le_timestamp := now; Config.le_block_timestamp := block_time |} in
  let entry' := {| Config.le_tx_hash := tx_hash'; Config.le_network := network';
                   Config.le_status := status'; Config.le_gas_used := gas_used';
                   Config.le_gas_price_gwei := gas_price'; Config.le_value_eth := value';
                   Config.le_timestamp := now'; Config.le_block_timestamp := block_time' |} in
  fst first = ("logs/transactions_" ++ today ++ ".json")%string
  /\ fst second = fst first
  /\ snd first !! fst first = Some (Config.Logs (before ++ [entry]))
  /\ snd second !! fst first = Some (Config.Logs (before ++ [entry; entry']))
  /\ forall path, path <> fst first ->
       snd first !! path = logs_dir !! path /\ snd second !! path = logs_dir !! path.
Proof.
  cbv zeta. unfold Config.save_transaction_log. cbn [fst snd].
  rewrite !lookup_insert_eq.
  split; [reflexivity|]. split; [reflexivity|].
  split; [destruct (logs_dir !! _) as [[|]|]; reflexivity|].
  split.
  - rewrite <- app_assoc. destruct (logs_dir !! _) as [[|]|]; reflexivity.
  - intros path Hp. rewrite !lookup_insert_ne by congruence. auto.
Qed.
